(** * Protocol runtime of the self-built MCP adapters

    A shallow embedding of the newline-delimited JSON-RPC runtime found in
    three hand-written adapters of the repository:

    - [Jira]        : src/mcp/jira/index.js       (OptimizedJiraMCP, v1.3.0)
    - [JiraLegacy]  : src/unnamed/part_000        (OptimizedJiraMCP, v1.2.0)
    - [Confluence]  : src/unnamed/part_001        (ConfluenceOptimizedMCP, v2)

    JavaScript strings are modelled as [string]: a sequence of code units,
    restricted to the code units below 256.  Text outside that range that
    occurs in the sources (Korean diagnostics) is carried as its UTF-8
    bytes; it is only ever concatenated and searched for ASCII keywords.

    Effects are explicit: a handler is a state transformer over the cache,
    the clock, the log of backend calls and the lines written so far, and
    it returns or throws.  Handlers run to completion one after another,
    in the order of the lines; the overlap that [await] permits between
    the handlers of two lines is not represented.  The built-ins of the
    runtime, the remote service, the HTML library and the pure shaping of
    a decoded answer are parameters of the development, so every theorem
    holds for each behaviour they may have.

    After the adapters come the shaping of the Jira answers and of part
    of the Confluence answers, written out ([JiraShapes],
    [ConfluenceShapes]), and the Confluence listing methods with the
    assignment they make to the answer that the cache holds
    ([ConfluenceShared]). *)

From Stdlib Require Import ZArith Ascii String List Bool Lia.
From Stdlib Require Import Numbers.DecimalString.
From stdpp Require Import base option gmap strings.
Import ListNotations.

Set Warnings "-register-all".

Local Open Scope string_scope.
Local Open Scope list_scope.

(** ** JavaScript strings *)

Module JsString.

Definition newline : ascii := ascii_of_nat 10.

(** White space and line terminators in the sense of [String.prototype.trim]
    and of the regular-expression class [\s], among the code units below
    256: TAB, LF, VT, FF, CR, SPACE and NBSP. *)
Definition is_whitespace (c : ascii) : bool :=
  let n := nat_of_ascii c in
  (Nat.leb 9 n && Nat.leb n 13) || Nat.eqb n 32 || Nat.eqb n 160.

Fixpoint trimStart (s : string) : string :=
  match s with
  | EmptyString => EmptyString
  | String c s' => if is_whitespace c then trimStart s' else s
  end.

Fixpoint trimEnd (s : string) : string :=
  match s with
  | EmptyString => EmptyString
  | String c s' =>
      match trimEnd s' with
      | EmptyString => if is_whitespace c then EmptyString else String c EmptyString
      | t => String c t
      end
  end.

(** [s.trim()] *)
Definition trim (s : string) : string := trimEnd (trimStart s).

(** A string is truthy when it is not empty. *)
Definition nonempty (s : string) : bool :=
  match s with EmptyString => false | String _ _ => true end.

(** [!line.trim()] *)
Definition blank (s : string) : bool := negb (nonempty (trim s)).

(** [s.startsWith(p)] *)
Definition startsWith (s p : string) : bool := String.prefix p s.

(** [s.includes(p)] *)
Fixpoint includes (s p : string) : bool :=
  String.prefix p s ||
  match s with
  | EmptyString => false
  | String _ s' => includes s' p
  end.

(** [s.split('\n')], as the first piece and the list of later pieces:
    the array returned by [split] is never empty. *)
Fixpoint split_pieces (s : string) : string * list string :=
  match s with
  | EmptyString => (EmptyString, [])
  | String c s' =>
      let (h, t) := split_pieces s' in
      if Ascii.eqb c newline then (EmptyString, h :: t) else (String c h, t)
  end.

Definition split_newline (s : string) : list string :=
  let (h, t) := split_pieces s in h :: t.

(** [lines.pop()]: the last element ([undefined] on an empty array) and
    the array that is left. *)
Fixpoint pop {A : Type} (l : list A) : option A * list A :=
  match l with
  | [] => (None, [])
  | [x] => (Some x, [])
  | x :: l' => let (last, init) := pop l' in (last, x :: init)
  end.

(** [x || ''] for [x] a string or [undefined]. *)
Definition or_empty (x : option string) : string :=
  match x with
  | Some s => if nonempty s then s else EmptyString
  | None => EmptyString
  end.

(** [s] between double quotes. *)
Definition dquote : ascii := ascii_of_nat 34.
Definition quoted (s : string) : string :=
  String dquote s +:+ String dquote EmptyString.

(** A source line: text without a line feed in it. *)
Fixpoint newline_free (s : string) : bool :=
  match s with
  | EmptyString => true
  | String c s' => negb (Ascii.eqb c newline) && newline_free s'
  end.

(** The wire form of a list of lines: each followed by a line feed. *)
Fixpoint wire (msgs : list string) : string :=
  match msgs with
  | [] => EmptyString
  | m :: ms => m +:+ String newline (wire ms)
  end.

(** The chunks of a stream, glued back together. *)
Fixpoint glue (chunks : list string) : string :=
  match chunks with
  | [] => EmptyString
  | c :: cs => c +:+ glue cs
  end.

End JsString.

(** ** Transport framing *)

Module Framer.
Import JsString.

(** The synchronous prefix of the ['data'] handler of [Jira.start]
    (src/mcp/jira/index.js:777-785) and of [Confluence.start]
    (part_001:1397-1405), which are the same text:
<<
    buffer += data;
    const lines = buffer.split('\n');
    buffer = lines.pop() || '';
    for (const line of lines) { if (!line.trim()) continue; ... }
>>
    It returns the candidate messages handed to the decoder, in the order
    of the loop, and the new buffer. *)
Definition onData (buffer data : string) : list string * string :=
  let lines := split_newline (buffer +:+ data) in
  let (last, lines) := pop lines in
  (List.filter (fun line => negb (blank line)) lines, or_empty last).

(** Successive ['data'] events, threading the buffer. *)
Fixpoint feed (buffer : string) (chunks : list string) : list string * string :=
  match chunks with
  | [] => ([], buffer)
  | data :: rest =>
      let (out, buffer') := onData buffer data in
      let (outs, final) := feed buffer' rest in
      (out ++ outs, final)
  end.

(** The handler of [JiraLegacy.start] (part_000:748-752) keeps no buffer:
<<
    const lines = data.trim().split('\n');
    for (const line of lines) { if (!line.trim()) continue; ... }
>>  *)
Definition onDataLegacy (data : string) : list string :=
  List.filter (fun line => negb (blank line)) (split_newline (trim data)).

Fixpoint feedLegacy (chunks : list string) : list string :=
  match chunks with
  | [] => []
  | data :: rest => onDataLegacy data ++ feedLegacy rest
  end.

End Framer.

(** ** JSON values and the JavaScript operations applied to them *)

Module Json.
Import JsString.

(** A decoded JSON text.  Numbers are restricted to the integers. *)
Inductive json : Type :=
| JNull
| JBool (b : bool)
| JNum (n : Z)
| JStr (s : string)
| JArr (items : list json)
| JObj (fields : list (string * json)).

(** A JavaScript value held by the runtime: [None] is [undefined]. *)
Definition value : Type := option json.

Definition undefined : value := None.

(** The completion of an evaluation: a value, or a thrown [Error] of
    which the runtime only ever reads [message]. *)
Inductive outcome (A : Type) : Type :=
| Ret (a : A)
| Throw (message : string).
Arguments Ret {A} a.
Arguments Throw {A} message.

(** ToBoolean *)
Definition truthy (v : value) : bool :=
  match v with
  | None => false
  | Some JNull => false
  | Some (JBool b) => b
  | Some (JNum n) => negb (Z.eqb n 0)
  | Some (JStr s) => nonempty s
  | Some (JArr _) => true
  | Some (JObj _) => true
  end.

(** [a || b] *)
Definition or_else (a b : value) : value := if truthy a then a else b.

(** The own property [k] of a decoded object; on a duplicated key
    [JSON.parse] keeps the last occurrence. *)
Fixpoint own_property (fields : list (string * json)) (k : string) : value :=
  match fields with
  | [] => None
  | (k', v) :: rest =>
      match own_property rest k with
      | Some v' => Some v'
      | None => if String.eqb k' k then Some v else None
      end
  end.

Definition decimal (n : Z) : string := NilEmpty.string_of_int (Z.to_int n).

(** ToString, as applied by template literals, on the values for which
    it returns: an object with a property [toString] of its own, which
    in a decoded value is never a function, makes the conversion throw,
    and so does an array that holds such an object; a number beyond 2^53
    is printed rounded, and from 10^21 on with an exponent.
    [JsValue.printable] tells the values that are printed as below. *)
Fixpoint toStr (v : json) : string :=
  match v with
  | JNull => "null"
  | JBool true => "true"
  | JBool false => "false"
  | JNum n => decimal n
  | JStr s => s
  | JArr items =>
      (fix join (l : list json) : string :=
         match l with
         | [] => EmptyString
         | x :: l' =>
             let e := match x with JNull => EmptyString | _ => toStr x end in
             match l' with
             | [] => e
             | _ :: _ => e +:+ "," +:+ join l'
             end
         end) items
  | JObj _ => "[object Object]"
  end.

Definition interpolate (v : value) : string :=
  match v with
  | None => "undefined"
  | Some j => toStr j
  end.

(** The message of the [TypeError] V8 raises on reading a property of
    [null] or [undefined]. *)
Definition cannot_read (of_what k : string) : string :=
  "Cannot read properties of " +:+ of_what +:+ " (reading '" +:+ k +:+ "')".

(** [v.k] for the property names the adapters read: none of them is
    defined on the prototypes of strings, numbers, booleans or arrays. *)
Definition prop (v : value) (k : string) : outcome value :=
  match v with
  | None => Throw (cannot_read "undefined" k)
  | Some JNull => Throw (cannot_read "null" k)
  | Some (JObj fields) => Ret (own_property fields k)
  | Some _ => Ret undefined
  end.

(** [v === 'literal'], the comparison a [switch] over string cases makes. *)
Definition strict_eq (v : value) (literal : string) : bool :=
  match v with
  | Some (JStr s) => String.eqb s literal
  | _ => false
  end.

(** A parameter or destructuring default: [x = d] takes [d] exactly when
    the value is [undefined]. *)
Definition default_to (d : json) (v : value) : json :=
  match v with
  | None => d
  | Some j => j
  end.

(** The own enumerable properties an object spread [{ ...v }] copies:
    the fields of an object, the elements of an array and the code units
    of a string under their indices, nothing for the other values. *)
Fixpoint indexed (i : nat) (l : list json) : list (string * json) :=
  match l with
  | [] => []
  | x :: l' => (decimal (Z.of_nat i), x) :: indexed (S i) l'
  end.

Fixpoint code_units (s : string) : list json :=
  match s with
  | EmptyString => []
  | String c s' => JStr (String c EmptyString) :: code_units s'
  end.

Definition spread (v : json) : list (string * json) :=
  match v with
  | JObj fields => fields
  | JArr items => indexed 0 items
  | JStr s => indexed 0 (code_units s)
  | _ => []
  end.

End Json.

(** ** The host: built-ins, libraries, the remote service, and effects *)

Module Runtime.
Import JsString Json.

(** The completion of [JSON.parse]. *)
Inductive decoded : Type :=
| Parsed (v : json)
| SyntaxError (message : string).

(** An outbound REST call, by verb, path below the API root (query
    included) and body ([JNull] when there is none). *)
Record HttpRequest : Type := MkRequest {
  verb : string;
  endpoint : string;
  body : json
}.

(** What comes back: the ['error'] event of the request, or a status
    code with the concatenated ['data'] chunks. *)
Inductive HttpResponse : Type :=
| NetworkError (message : string)
| Response (statusCode : Z) (data : string).

(** Built-ins of the JavaScript runtime that the adapters call and do
    not define. *)
Class Host : Type := {
  JSON_parse : string -> decoded;
  (** [JSON.stringify(v, null, indent)] *)
  JSON_stringify : nat -> json -> string;
  (** On strings of code units below 256, which hold no half of a
      surrogate pair, [encodeURIComponent] always returns. *)
  encodeURIComponent : string -> string
}.

(** The REST service behind the adapter: its answer to a call, and the
    milliseconds the exchange takes, may depend on the calls before. *)
Class Remote : Type := {
  serve : list HttpRequest -> HttpRequest -> HttpResponse;
  elapsed : list HttpRequest -> HttpRequest -> Z
}.

(** Payload shaping: the pure post-processing an adapter method applies
    to a decoded backend answer ([simplifyIssue], [formatSearchResults],
    [optimizeResponse] and the object literals built in each method),
    named by the method it sits in and given that method's arguments.
    It returns the payload or throws; it performs no call and emits
    nothing. *)
Class Shaping : Type := {
  shape : string -> list value -> json -> outcome json
}.

Record CacheEntry : Type := MkEntry {
  data : json;
  timestamp : Z
}.

(** One reply line written by [console.log(JSON.stringify(...))]. *)
Inductive Payload : Type :=
| Result (response : json)
| Error (code : Z) (message : string) (detail : option string).

Record Reply : Type := MkReply {
  id : value;
  payload : Payload
}.

(** The state an adapter process can touch. *)
Record World : Type := MkWorld {
  cache : gmap string CacheEntry;  (** [this.cache], a [Map] *)
  now : Z;                         (** what [Date.now()] returns *)
  calls : list HttpRequest;        (** calls made to the backend, oldest first *)
  stdout : list Reply              (** lines written, oldest first *)
}.

(** Effectful code: a state transformer that returns or throws. *)
Definition M (A : Type) : Type := World -> outcome A * World.

Definition ret {A} (a : A) : M A := fun w => (Ret a, w).
Definition throw {A} (message : string) : M A := fun w => (Throw message, w).
Definition bind {A B} (m : M A) (k : A -> M B) : M B :=
  fun w => match m w with
           | (Ret a, w') => k a w'
           | (Throw e, w') => (Throw e, w')
           end.
(** [try { m } catch (error) { handler(error.message) }] *)
Definition try_catch {A} (m : M A) (handler : string -> M A) : M A :=
  fun w => match m w with
           | (Ret a, w') => (Ret a, w')
           | (Throw e, w') => handler e w'
           end.
Definition lift {A} (o : outcome A) : M A := fun w => (o, w).

Definition console_log (r : Reply) : M unit :=
  fun w => (Ret tt, MkWorld (cache w) (now w) (calls w) (stdout w ++ [r])).

(** The HTTPS exchange itself: the call is logged, the clock advances by
    the time the exchange took. *)
Definition https_request `{Remote} (r : HttpRequest) : M HttpResponse :=
  fun w => (Ret (serve (calls w) r),
            MkWorld (cache w) (now w + elapsed (calls w) r) (calls w ++ [r]) (stdout w)).

(** Time passing between two events. *)
Definition later (dt : Z) (w : World) : World :=
  MkWorld (cache w) (now w + dt) (calls w) (stdout w).

End Runtime.

Declare Scope js_scope.
Infix "===" := Json.strict_eq (at level 70, no associativity) : js_scope.
Delimit Scope js_scope with js.
Notation "'do' x <- m ; k" := (Runtime.bind m (fun x => k))
  (at level 10, x name, m at level 100, k at level 200) : js_scope.
Notation "'exec' m ; k" := (Runtime.bind m (fun _ => k))
  (at level 10, m at level 100, k at level 200) : js_scope.

Local Open Scope js_scope.
Local Open Scope Z_scope.

(** ** Tool registries *)

Module Registry.
Import Json.

(** One entry of the array answered to ['tools/list']: the tool's name
    and description, its parameters, each with the schema that the
    source gives it, and the names listed as [required].  A tool that
    requires nothing has no [required] in its schema: none of the three
    sources writes an empty list. *)
Record Tool : Type := MkTool {
  name : string;
  description : string;
  properties : list (string * json);
  required : list string
}.


(** The registry lists [key] among the required parameters of [tool]. *)
Definition requires (registry : list Tool) (tool key : string) : bool :=
  existsb (fun t => String.eqb (name t) tool && existsb (String.eqb key) (required t))
    registry.

Definition tool_json (t : Tool) : json :=
  JObj [("name", JStr (name t));
        ("description", JStr (description t));
        ("inputSchema",
          JObj ([("type", JStr "object");
                 ("properties", JObj (properties t))]
                ++ match required t with
                   | [] => []
                   | keys => [("required", JArr (map JStr keys))]
                   end))].

Definition tools_list (registry : list Tool) : json :=
  JObj [("tools", JArr (map tool_json registry))].

End Registry.

(** ** The Jira adapter, v1.3.0 (src/mcp/jira/index.js) *)

Module Jira.
Import JsString Json Runtime Registry.

Definition ESSENTIAL_FIELDS : string :=
  "key,summary,status,assignee,reporter,priority,issuetype,created,updated,description,resolution,labels,fixVersions,components".

(** [getDefaultFields] *)
Definition getDefaultFields : string := ESSENTIAL_FIELDS.

(** The [tools] array of [handleRequest], lines 539-658. *)
Definition registry : list Tool :=
  [
    MkTool "get_projects" "Jira 프로젝트 목록 조회 (간소화된 정보)"
      []
      [];
    MkTool "get_issue" "특정 Jira 이슈 상세 조회 (필수 정보만)"
      [("issueKey",
          JObj [("type", JStr "string"); ("description", JStr "이슈 키 (예: PROJ-123)")])]
      ["issueKey"];
    MkTool "search_issues" "JQL을 사용한 이슈 검색 (토큰 90% 절약)"
      [("jql",
          JObj [("type", JStr "string"); ("description", JStr "JQL 쿼리 문자열")]);
       ("maxResults",
          JObj [("type", JStr "number"); ("description", JStr "최대 결과 수"); ("default", JNum 25)])]
      ["jql"];
    MkTool "create_issue" "새 Jira 이슈 생성"
      [("projectKey",
          JObj [("type", JStr "string"); ("description", JStr "프로젝트 키 (예: PROJ)")]);
       ("issueType",
          JObj [("type", JStr "string"); ("description", JStr "이슈 타입 (예: Task, Bug, Story)")]);
       ("summary",
          JObj [("type", JStr "string"); ("description", JStr "이슈 제목")]);
       ("description",
          JObj [("type", JStr "string"); ("description", JStr "이슈 설명")]);
       ("assignee",
          JObj [("type", JStr "string"); ("description", JStr "담당자 사용자명 (선택사항)")])]
      ["projectKey"; "issueType"; "summary"];
    MkTool "update_issue" "Jira 이슈 업데이트"
      [("issueKey",
          JObj [("type", JStr "string"); ("description", JStr "이슈 키 (예: PROJ-123)")]);
       ("fields",
          JObj [("type", JStr "object"); ("description", JStr "업데이트할 필드들 (JSON 객체)")])]
      ["issueKey"; "fields"];
    MkTool "get_issue_types" "사용 가능한 이슈 타입 조회"
      [("projectKey",
          JObj [("type", JStr "string"); ("description", JStr "프로젝트 키 (선택사항)")])]
      [];
    MkTool "add_comment" "Jira 이슈에 댓글 추가"
      [("issueKey",
          JObj [("type", JStr "string"); ("description", JStr "이슈 키 (예: PROJ-123)")]);
       ("comment",
          JObj [("type", JStr "string"); ("description", JStr "댓글 내용")])]
      ["issueKey"; "comment"];
    MkTool "get_current_user" "현재 사용자 정보 조회"
      []
      [];
    MkTool "get_labels" "Labels 조회 (전체 또는 특정 프로젝트)"
      [("projectKey",
          JObj [("type", JStr "string"); ("description", JStr "프로젝트 키 (선택사항, 미지정시 전체 labels)")]);
       ("maxResults",
          JObj [("type", JStr "number"); ("description", JStr "최대 결과 수"); ("default", JNum 50)])]
      [];
    MkTool "get_fix_versions" "프로젝트의 Fix Versions 조회"
      [("projectKey",
          JObj [("type", JStr "string"); ("description", JStr "프로젝트 키 (필수)")])]
      ["projectKey"];
    MkTool "get_components" "프로젝트의 Components 조회"
      [("projectKey",
          JObj [("type", JStr "string"); ("description", JStr "프로젝트 키 (필수)")])]
      ["projectKey"] ].

Section Adapter.
Context `{Host} `{Remote} `{Shaping}.

(** [makeRequest(endpoint, method = 'GET', body = null, fields = null)],
    lines 202-272.  The base URL is required at start-up and taken to
    be a valid absolute URL, so that [new URL] succeeds. *)
Definition makeRequest (endpoint method : string) (body : json)
    (fields : option string) : M json :=
  let fullEndpoint :=
    match fields with
    | Some f =>
        if nonempty f && negb (includes endpoint "fields=") then
          let separator := if includes endpoint "?" then "&" else "?" in
          endpoint +:+ separator +:+ "fields=" +:+ encodeURIComponent f
        else endpoint
    | None => endpoint
    end in
  do res <- https_request (MkRequest method fullEndpoint body);
  match res with
  | NetworkError message => throw ("요청 실패: " +:+ message)
  | Response status data =>
      if 400 <=? status then
        throw ("Jira API Error: " +:+ decimal status +:+ " - " +:+ data)
      else if negb (nonempty (trim data)) then
        ret (JObj [("statusCode", JNum status);
                   ("success", JBool true);
                   ("message", JStr ("요청이 성공적으로 완료되었습니다 (상태: "
                                     +:+ decimal status +:+ ")"))])
      else
        match JSON_parse data with
        | Parsed result => ret (JObj (spread result ++ [("statusCode", JNum status)]))
        | SyntaxError message =>
            throw ("응답 파싱 실패 (상태: " +:+ decimal status +:+ "): " +:+ message
                   +:+ ". 원본 데이터: " +:+ String.substring 0 100 data +:+ "...")
        end
  end.

(** The adapter methods, lines 274-518.  Each wraps its body in
    [try { ... } catch (error) { throw error; }], which changes
    nothing. *)
Definition getProjects : M json :=
  do result <- makeRequest "/project" "GET" JNull None;
  lift (shape "getProjects" [] result).

Definition getIssue (issueKey : value) : M json :=
  let fields := getDefaultFields in
  do result <- makeRequest ("/issue/" +:+ interpolate issueKey) "GET" JNull (Some fields);
  lift (shape "simplifyIssue" [] result).

Definition searchIssues (jql maxResults : value) : M json :=
  let maxResults := default_to (JNum 25) maxResults in
  let fields := getDefaultFields in
  let encodedJql := encodeURIComponent (interpolate jql) in
  let endpoint := "/search?jql=" +:+ encodedJql +:+ "&maxResults=" +:+ toStr maxResults in
  do result <- makeRequest endpoint "GET" JNull (Some fields);
  lift (shape "formatSearchResults" [] result).

(** A property of an object literal whose value may be [undefined]:
    [JSON.stringify] leaves such a property out. *)
Definition field (k : string) (v : value) : list (string * json) :=
  match v with
  | Some j => [(k, j)]
  | None => []
  end.

Definition createIssue (projectKey issueType summary description assignee : value)
    : M json :=
  let description := default_to (JStr "") description in
  let assignee := default_to JNull assignee in
  let issueData :=
    JObj [("fields",
           JObj ([("project", JObj (field "key" projectKey));
                  ("issuetype", JObj (field "name" issueType))]
                 ++ field "summary" summary
                 ++ [("description", description)]
                 ++ (if truthy (Some assignee)
                     then [("assignee", JObj [("name", assignee)])]
                     else [])))] in
  do result <- makeRequest "/issue" "POST" issueData None;
  lift (shape "createIssue" [] result).

Definition updateIssue (issueKey fields : value) : M json :=
  let updateData := JObj (field "fields" fields) in
  do result <- makeRequest ("/issue/" +:+ interpolate issueKey) "PUT" updateData None;
  lift (shape "updateIssue" [issueKey] result).

Definition getIssueTypes (projectKey : value) : M json :=
  let projectKey := default_to JNull projectKey in
  let endpoint :=
    if truthy (Some projectKey)
    then "/project/" +:+ toStr projectKey +:+ "/statuses"
    else "/issuetype" in
  do result <- makeRequest endpoint "GET" JNull None;
  lift (shape "getIssueTypes" [Some projectKey] result).

Definition addComment (issueKey comment : value) : M json :=
  let commentData := JObj (field "body" comment) in
  do result <- makeRequest ("/issue/" +:+ interpolate issueKey +:+ "/comment")
                 "POST" commentData None;
  lift (shape "addComment" [issueKey] result).

Definition getCurrentUser : M json :=
  do result <- makeRequest "/myself" "GET" JNull None;
  lift (shape "getCurrentUser" [] result).

Definition getLabels (projectKey maxResults : value) : M json :=
  let projectKey := default_to JNull projectKey in
  let maxResults := default_to (JNum 50) maxResults in
  if truthy (Some projectKey) then
    let endpoint := "/search?jql=project=" +:+ quoted (toStr projectKey)
                    +:+ "&fields=labels&maxResults=1000" in
    do result <- makeRequest endpoint "GET" JNull None;
    lift (shape "getLabels.project" [Some projectKey] result)
  else
    do result <- makeRequest ("/label?maxResults=" +:+ toStr maxResults) "GET" JNull None;
    lift (shape "getLabels.all" [] result).

Definition getFixVersions (projectKey : value) : M json :=
  do result <- makeRequest ("/project/" +:+ interpolate projectKey +:+ "/versions")
                 "GET" JNull None;
  lift (shape "getFixVersions" [projectKey] result).

Definition getComponents (projectKey : value) : M json :=
  do result <- makeRequest ("/project/" +:+ interpolate projectKey +:+ "/components")
                 "GET" JNull None;
  lift (shape "getComponents" [projectKey] result).

(** [!args.k1 || !args.k2 || ...]: the properties are read left to
    right until one is falsy; reading a property of [null] throws. *)
Fixpoint some_missing (args : json) (keys : list string) : outcome bool :=
  match keys with
  | [] => Ret false
  | k :: rest =>
      match prop (Some args) k with
      | Throw e => Throw e
      | Ret v => if truthy v then some_missing args rest else Ret true
      end
  end.

(** [if (<some key missing>) throw new Error(message)] *)
Definition require (args : json) (keys : list string) (message : string) : M unit :=
  match some_missing args keys with
  | Throw e => throw e
  | Ret true => throw message
  | Ret false => ret tt
  end.

(** [args.k], once the guards before it did not throw. *)
Definition arg (args : json) (k : string) : M value := lift (prop (Some args) k).

(** [typeof args !== 'object'] *)
Definition typeof_object (v : json) : bool :=
  match v with
  | JNull | JArr _ | JObj _ => true
  | _ => false
  end.

(** [const { k } = v] *)
Definition destructure (source : string) (v : json) (k : string) : outcome value :=
  match v with
  | JNull => Throw ("Cannot destructure property '" +:+ k +:+ "' of '" +:+ source
                    +:+ "' as it is null.")
  | JObj fields => Ret (own_property fields k)
  | _ => Ret undefined
  end.

(** The [switch (name)] of [handleToolCall], lines 678-755. *)
Definition callTool (name : value) (args : json) : M json :=
  if name === "get_projects" then
      exec (if negb (truthy (Some args)) || negb (typeof_object args)
            then throw "Invalid arguments format" else ret tt);
      getProjects
  else if name === "get_issue" then
      exec require args ["issueKey"] "issueKey is required";
      do issueKey <- arg args "issueKey";
      getIssue issueKey
  else if name === "search_issues" then
      exec require args ["jql"] "jql is required";
      do jql <- arg args "jql";
      do maxResults <- arg args "maxResults";
      searchIssues jql maxResults
  else if name === "create_issue" then
      exec require args ["projectKey"; "issueType"; "summary"]
             "projectKey, issueType, and summary are required";
      do projectKey <- arg args "projectKey";
      do issueType <- arg args "issueType";
      do summary <- arg args "summary";
      do description <- arg args "description";
      do assignee <- arg args "assignee";
      createIssue projectKey issueType summary description assignee
  else if name === "update_issue" then
      exec require args ["issueKey"; "fields"] "issueKey and fields are required";
      do issueKey <- arg args "issueKey";
      do fields <- arg args "fields";
      updateIssue issueKey fields
  else if name === "get_issue_types" then
      do projectKey <- arg args "projectKey";
      getIssueTypes projectKey
  else if name === "add_comment" then
      exec require args ["issueKey"; "comment"] "issueKey and comment are required";
      do issueKey <- arg args "issueKey";
      do comment <- arg args "comment";
      addComment issueKey comment
  else if name === "get_current_user" then
      getCurrentUser
  else if name === "get_labels" then
      do projectKey <- arg args "projectKey";
      do maxResults <- arg args "maxResults";
      getLabels projectKey maxResults
  else if name === "get_fix_versions" then
      exec require args ["projectKey"] "projectKey is required";
      do projectKey <- arg args "projectKey";
      getFixVersions projectKey
  else if name === "get_components" then
      exec require args ["projectKey"] "projectKey is required";
      do projectKey <- arg args "projectKey";
      getComponents projectKey
  else throw ("Unknown tool: " +:+ interpolate name).

(** The [content] envelope of a tool result. *)
Definition text_content (text : string) : json :=
  JObj [("content", JArr [JObj [("type", JStr "text"); ("text", JStr text)]])].

(** [handleToolCall(params)], lines 672-769. *)
Definition handleToolCall (params : json) : M json :=
  do name <- lift (destructure "params" params "name");
  do arguments <- lift (destructure "params" params "arguments");
  let args := default_to (JObj []) arguments in
  try_catch
    (do result <- callTool name args;
     ret (text_content (JSON_stringify 2 result)))
    (fun message => throw ("Tool execution failed: " +:+ message)).

Definition serverInfo : json :=
  JObj [("protocolVersion", JStr "2024-11-05");
        ("capabilities", JObj [("tools", JObj [])]);
        ("serverInfo",
          JObj [("name", JStr "jira-ultra-optimized");
                ("version", JStr "1.3.0");
                ("description",
                  JStr "Ultra-Optimized Jira MCP - JSON-RPC 프로토콜 개선, 90% 토큰 절약, 필드 선택, 한국어 지원")])].

(** [handleRequest(request)], lines 521-670; its own [try]/[catch]
    rethrows unchanged. *)
Definition handleRequest (request : json) : M json :=
  do method <- lift (destructure "request" request "method");
  do params <- lift (destructure "request" request "params");
  let params := default_to (JObj []) params in
  if method === "initialize" then ret serverInfo
  else if method === "tools/list" then ret (tools_list registry)
  else if method === "tools/call" then handleToolCall params
  else throw ("Unknown method: " +:+ interpolate method).

(** The error classification of [start], lines 815-828. *)
Definition classify (message : string) : Z * string :=
  if includes message "Unknown method" then (-32601, "Method not found")
  else if includes message "required" || includes message "Invalid arguments"
       then (-32602, "Invalid params")
  else if includes message "Tool execution failed" then (-32000, "Tool execution error")
  else (-32603, "Internal error").

Definition parse_error_reply (requestId : value) (message : string) : Reply :=
  MkReply requestId (Error (-32700) "Parse error" (Some message)).

Definition error_reply (requestId : value) (message : string) : Reply :=
  let (errorCode, errorMessage) := classify message in
  MkReply requestId (Error errorCode errorMessage (Some message)).

(** The body of the loop over [lines] in [start], lines 785-839, for a
    line that is not blank.  [request.id] is read inside the [try]
    that guards [JSON.parse], so a decoded [null] ends in the same
    [catch]. *)
Definition processLine (line : string) : M unit :=
  let requestId : value := Some JNull in
  match JSON_parse line with
  | SyntaxError message => console_log (parse_error_reply requestId message)
  | Parsed request =>
      match prop (Some request) "id" with
      | Throw message => console_log (parse_error_reply requestId message)
      | Ret id =>
          let requestId := or_else id (Some JNull) in
          try_catch
            (do response <- handleRequest request;
             console_log (MkReply requestId (Result response)))
            (fun message => console_log (error_reply requestId message))
      end
  end.

Fixpoint processLines (lines : list string) : M unit :=
  match lines with
  | [] => ret tt
  | line :: rest => exec processLine line; processLines rest
  end.

(** The ['data'] handler of [start], lines 777-841: the new value of
    [buffer], assigned before the loop starts, and the loop. *)
Definition onData (buffer data : string) : string * M unit :=
  let (lines, buffer') := Framer.onData buffer data in
  (buffer', processLines lines).

End Adapter.
End Jira.

(** ** The Jira adapter, v1.2.0 (src/unnamed/part_000) *)

Module JiraLegacy.
Import JsString Json Runtime Registry.

Definition ESSENTIAL_FIELDS : string := Jira.ESSENTIAL_FIELDS.

Definition MINIMAL_FIELDS : string :=
  "key,summary,status,assignee,priority,issuetype,updated".

(** [getFieldsForMode(mode = 'standard')], lines 51-61; [None] is the
    [null] that asks for every field. *)
Definition getFieldsForMode (mode : value) : option string :=
  let mode := Some (default_to (JStr "standard") mode) in
  if mode === "summary" then Some MINIMAL_FIELDS
  else if mode === "full" then None
  else Some ESSENTIAL_FIELDS.

(** The [tools] array of [handleRequest], lines 520-651. *)
Definition registry : list Tool :=
  [
    MkTool "get_projects" "Jira 프로젝트 목록 조회 (간소화된 정보)"
      []
      [];
    MkTool "get_issue" "특정 Jira 이슈 상세 조회 (필수 정보만)"
      [("issueKey",
          JObj [("type", JStr "string"); ("description", JStr "이슈 키 (예: PROJ-123)")]);
       ("mode",
          JObj [("type", JStr "string");
                ("description", JStr "응답 모드: summary(최소), standard(기본), full(전체)");
                ("default", JStr "standard");
                ("enum", JArr [JStr "summary"; JStr "standard"; JStr "full"])])]
      ["issueKey"];
    MkTool "search_issues" "JQL을 사용한 이슈 검색 (토큰 90% 절약)"
      [("jql",
          JObj [("type", JStr "string"); ("description", JStr "JQL 쿼리 문자열")]);
       ("maxResults",
          JObj [("type", JStr "number"); ("description", JStr "최대 결과 수"); ("default", JNum 25)]);
       ("mode",
          JObj [("type", JStr "string");
                ("description", JStr "응답 모드: summary(최소-권장), standard(기본)");
                ("default", JStr "summary"); ("enum", JArr [JStr "summary"; JStr "standard"])])]
      ["jql"];
    MkTool "create_issue" "새 Jira 이슈 생성"
      [("projectKey",
          JObj [("type", JStr "string"); ("description", JStr "프로젝트 키 (예: PROJ)")]);
       ("issueType",
          JObj [("type", JStr "string"); ("description", JStr "이슈 타입 (예: Task, Bug, Story)")]);
       ("summary",
          JObj [("type", JStr "string"); ("description", JStr "이슈 제목")]);
       ("description",
          JObj [("type", JStr "string"); ("description", JStr "이슈 설명")]);
       ("assignee",
          JObj [("type", JStr "string"); ("description", JStr "담당자 사용자명 (선택사항)")])]
      ["projectKey"; "issueType"; "summary"];
    MkTool "update_issue" "Jira 이슈 업데이트"
      [("issueKey",
          JObj [("type", JStr "string"); ("description", JStr "이슈 키 (예: PROJ-123)")]);
       ("fields",
          JObj [("type", JStr "object"); ("description", JStr "업데이트할 필드들 (JSON 객체)")])]
      ["issueKey"; "fields"];
    MkTool "get_issue_types" "사용 가능한 이슈 타입 조회"
      [("projectKey",
          JObj [("type", JStr "string"); ("description", JStr "프로젝트 키 (선택사항)")])]
      [];
    MkTool "add_comment" "Jira 이슈에 댓글 추가"
      [("issueKey",
          JObj [("type", JStr "string"); ("description", JStr "이슈 키 (예: PROJ-123)")]);
       ("comment",
          JObj [("type", JStr "string"); ("description", JStr "댓글 내용")])]
      ["issueKey"; "comment"];
    MkTool "get_current_user" "현재 사용자 정보 조회"
      []
      [];
    MkTool "get_labels" "Labels 조회 (전체 또는 특정 프로젝트)"
      [("projectKey",
          JObj [("type", JStr "string"); ("description", JStr "프로젝트 키 (선택사항, 미지정시 전체 labels)")]);
       ("maxResults",
          JObj [("type", JStr "number"); ("description", JStr "최대 결과 수"); ("default", JNum 50)])]
      [];
    MkTool "get_fix_versions" "프로젝트의 Fix Versions 조회"
      [("projectKey",
          JObj [("type", JStr "string"); ("description", JStr "프로젝트 키 (필수)")])]
      ["projectKey"];
    MkTool "get_components" "프로젝트의 Components 조회"
      [("projectKey",
          JObj [("type", JStr "string"); ("description", JStr "프로젝트 키 (필수)")])]
      ["projectKey"] ].

Section Adapter.
Context `{Host} `{Remote} `{Shaping}.

(** [makeRequest], lines 184-254, is the text of [Jira.makeRequest]. *)
Definition makeRequest := Jira.makeRequest.

(** [getIssue(issueKey, mode = 'standard')], lines 280-289. *)
Definition getIssue (issueKey mode : value) : M json :=
  let mode := Some (default_to (JStr "standard") mode) in
  let fields := getFieldsForMode mode in
  do result <- makeRequest ("/issue/" +:+ interpolate issueKey) "GET" JNull fields;
  lift (shape "simplifyIssue" [] result).

(** [searchIssues(jql, maxResults = 25, mode = 'summary')], lines 291-302. *)
Definition searchIssues (jql maxResults mode : value) : M json :=
  let maxResults := default_to (JNum 25) maxResults in
  let mode := Some (default_to (JStr "summary") mode) in
  let fields := getFieldsForMode mode in
  let encodedJql := encodeURIComponent (interpolate jql) in
  let endpoint := "/search?jql=" +:+ encodedJql +:+ "&maxResults=" +:+ toStr maxResults in
  do result <- makeRequest endpoint "GET" JNull fields;
  lift (shape "formatSearchResults" [] result).

(** The [switch (name)] of [handleToolCall], lines 668-721: no guard
    stands before any call.  The other methods (lines 256-278 and
    304-500) are the text of their [Jira] namesakes. *)
Definition callTool (name : value) (args : json) : M json :=
  if name === "get_projects" then
    Jira.getProjects
  else if name === "get_issue" then
    do issueKey <- Jira.arg args "issueKey";
    do mode <- Jira.arg args "mode";
    getIssue issueKey mode
  else if name === "search_issues" then
    do jql <- Jira.arg args "jql";
    do maxResults <- Jira.arg args "maxResults";
    do mode <- Jira.arg args "mode";
    searchIssues jql maxResults mode
  else if name === "create_issue" then
    do projectKey <- Jira.arg args "projectKey";
    do issueType <- Jira.arg args "issueType";
    do summary <- Jira.arg args "summary";
    do description <- Jira.arg args "description";
    do assignee <- Jira.arg args "assignee";
    Jira.createIssue projectKey issueType summary description assignee
  else if name === "update_issue" then
    do issueKey <- Jira.arg args "issueKey";
    do fields <- Jira.arg args "fields";
    Jira.updateIssue issueKey fields
  else if name === "get_issue_types" then
    do projectKey <- Jira.arg args "projectKey";
    Jira.getIssueTypes projectKey
  else if name === "add_comment" then
    do issueKey <- Jira.arg args "issueKey";
    do comment <- Jira.arg args "comment";
    Jira.addComment issueKey comment
  else if name === "get_current_user" then
    Jira.getCurrentUser
  else if name === "get_labels" then
    do projectKey <- Jira.arg args "projectKey";
    do maxResults <- Jira.arg args "maxResults";
    Jira.getLabels projectKey maxResults
  else if name === "get_fix_versions" then
    do projectKey <- Jira.arg args "projectKey";
    Jira.getFixVersions projectKey
  else if name === "get_components" then
    do projectKey <- Jira.arg args "projectKey";
    Jira.getComponents projectKey
  else throw ("알 수 없는 도구: " +:+ interpolate name).

(** The result a tool call ends in when its body threw. *)
Definition error_content (text : string) : json :=
  JObj [("content", JArr [JObj [("type", JStr "text"); ("text", JStr text)]]);
        ("isError", JBool true)].

(** [handleToolCall(params)], lines 662-742. *)
Definition handleToolCall (params : json) : M json :=
  do name <- lift (Jira.destructure "params" params "name");
  do arguments <- lift (Jira.destructure "params" params "arguments");
  let args := default_to (JObj []) arguments in
  try_catch
    (do result <- callTool name args;
     ret (Jira.text_content (JSON_stringify 2 result)))
    (fun message => ret (error_content ("❌  오류: " +:+ message))).

Definition serverInfo : json :=
  JObj [("protocolVersion", JStr "2024-11-05");
        ("capabilities", JObj [("tools", JObj [])]);
        ("serverInfo",
          JObj [("name", JStr "jira-ultra-optimized");
                ("version", JStr "1.2.0");
                ("description",
                  JStr "Ultra-Optimized Jira MCP - 90% 토큰 절약, 필드 선택, 한국어 지원")])].

(** [handleRequest(request)], lines 503-660. *)
Definition handleRequest (request : json) : M json :=
  do method <- lift (Jira.destructure "request" request "method");
  do params <- lift (Jira.destructure "request" request "params");
  let params := default_to (JObj []) params in
  if method === "initialize" then ret serverInfo
  else if method === "tools/list" then ret (tools_list registry)
  else if method === "tools/call" then handleToolCall params
  else throw ("알 수 없는 메서드: " +:+ interpolate method).

(** One turn of the loop of [start], lines 751-762; whatever it throws
    leaves the loop. *)
Definition processLine (line : string) : M unit :=
  match JSON_parse line with
  | SyntaxError message => throw message
  | Parsed request =>
      do response <- handleRequest request;
      do id <- lift (prop (Some request) "id");
      console_log (MkReply id (Result response))
  end.

Fixpoint processLines (lines : list string) : M unit :=
  match lines with
  | [] => ret tt
  | line :: rest => exec processLine line; processLines rest
  end.

(** The ['data'] handler of [start], lines 748-773: one [try] around
    the whole loop, one reply shape in its [catch]. *)
Definition onData (data : string) : M unit :=
  try_catch
    (processLines (Framer.onDataLegacy data))
    (fun message => console_log (MkReply (Some JNull) (Error (-32603) message None))).

End Adapter.
End JiraLegacy.

(** ** Regular expressions and the HTML library *)

Module Library.
Import JsString Json.

(** A regular-expression literal, by source text and flags.  In the
    sources given below a backtick stands for a double quote. *)
Record RegExp : Type := MkRegExp {
  source : string;
  flags : string
}.

Fixpoint backticks (s : string) : string :=
  match s with
  | EmptyString => EmptyString
  | String c s' =>
      String (if Ascii.eqb c (ascii_of_nat 96) then dquote else c) (backticks s')
  end.

Definition re (source flags : string) : RegExp := MkRegExp (backticks source) flags.

(** The regular-expression engine of the runtime, through the three
    entry points the adapters use. *)
Class Engine : Type := {
  (** [re.test(s)] *)
  test : RegExp -> string -> bool;
  (** [s.match(re)] for [re] without the [g] flag: the match followed
      by its capture groups. *)
  match_groups : RegExp -> string -> option (list string);
  (** [s.replace(re, fn)]: [fn] receives the match followed by its
      capture groups. *)
  replace : RegExp -> (list string -> string) -> string -> string
}.

(** [s.replace(re, 'text')] with a replacement free of [$] patterns. *)
Definition replace_with `{Engine} (r : RegExp) (text : string) : string -> string :=
  replace r (fun _ => text).

(** [convert(html, options)] of the html-to-text package, for the
    option object named. *)
Class HtmlToText : Type := {
  convert : string -> string -> outcome string
}.

(** [s.toLowerCase()] on code units below 256. *)
Definition lower (c : ascii) : ascii :=
  let n := nat_of_ascii c in
  if (Nat.leb 65 n && Nat.leb n 90)
     || (Nat.leb 192 n && Nat.leb n 222 && negb (Nat.eqb n 215))
  then ascii_of_nat (n + 32) else c.

Fixpoint toLowerCase (s : string) : string :=
  match s with
  | EmptyString => EmptyString
  | String c s' => String (lower c) (toLowerCase s')
  end.

(** [s.replace(/c/g, text)] for a single literal character [c]. *)
Fixpoint replace_char (c : ascii) (text : string) (s : string) : string :=
  match s with
  | EmptyString => EmptyString
  | String x s' =>
      if Ascii.eqb x c then text +:+ replace_char c text s'
      else String x (replace_char c text s')
  end.

(** The group [i] of a match; [undefined] prints as such. *)
Definition group (m : list string) (i : nat) : string := nth i m "undefined".

End Library.

(** ** The Confluence adapter (src/unnamed/part_001) *)

Module Confluence.
Import JsString Json Runtime Registry Library.

(** [this.cacheTimeout = 5 * 60 * 1000] *)
Definition cacheTimeout : Z := 5 * 60 * 1000.

(** The [tools] array of [handleRequest], lines 1033-1183. *)
Definition registry : list Tool :=
  [
    MkTool "get_spaces" "Get Confluence spaces (optimized)"
      [("limit",
          JObj [("type", JStr "number"); ("default", JNum 25);
                ("description", JStr "Maximum number of spaces to return")])]
      [];
    MkTool "get_page" "Get a Confluence page by ID with clean text content"
      [("pageId",
          JObj [("type", JStr "string"); ("description", JStr "ID of the page to retrieve")])]
      ["pageId"];
    MkTool "search_pages" "Search Confluence pages using CQL"
      [("query",
          JObj [("type", JStr "string"); ("description", JStr "CQL query string")]);
       ("limit",
          JObj [("type", JStr "number"); ("default", JNum 10);
                ("description", JStr "Maximum number of results")])]
      ["query"];
    MkTool "create_page" "Create a new Confluence page"
      [("spaceKey",
          JObj [("type", JStr "string");
                ("description", JStr "Space key where to create the page")]);
       ("title",
          JObj [("type", JStr "string"); ("description", JStr "Title of the new page")]);
       ("content",
          JObj [("type", JStr "string");
                ("description", JStr "HTML content of the page (storage format)")]);
       ("parentPageId",
          JObj [("type", JStr "string"); ("description", JStr "ID of parent page (optional)")])]
      ["spaceKey"; "title"; "content"];
    MkTool "update_page" "Update an existing Confluence page"
      [("pageId",
          JObj [("type", JStr "string"); ("description", JStr "ID of the page to update")]);
       ("title",
          JObj [("type", JStr "string"); ("description", JStr "New title of the page")]);
       ("content",
          JObj [("type", JStr "string");
                ("description", JStr "New HTML content of the page (storage format)")]);
       ("version",
          JObj [("type", JStr "number");
                ("description", JStr "Current version number of the page")])]
      ["pageId"; "title"; "content"; "version"];
    MkTool "get_child_pages" "Get child pages of a page"
      [("pageId",
          JObj [("type", JStr "string"); ("description", JStr "ID of the parent page")]);
       ("limit",
          JObj [("type", JStr "number"); ("default", JNum 25);
                ("description", JStr "Maximum number of child pages to return")])]
      ["pageId"];
    MkTool "get_space_pages" "Get all pages in a space"
      [("spaceKey",
          JObj [("type", JStr "string"); ("description", JStr "Space key")]);
       ("limit",
          JObj [("type", JStr "number"); ("default", JNum 50);
                ("description", JStr "Maximum number of pages to return")]);
       ("start",
          JObj [("type", JStr "number"); ("default", JNum 0);
                ("description", JStr "Start index for pagination")])]
      ["spaceKey"];
    MkTool "get_space_details" "Get detailed information about a space"
      [("spaceKey",
          JObj [("type", JStr "string"); ("description", JStr "Space key")])]
      ["spaceKey"] ].

Section Adapter.
Context `{Host} `{Remote} `{Shaping} `{Engine}.

(** *** Response cache, lines 123-142 *)

(** [getCacheKey(endpoint, params = {})] *)
Definition getCacheKey (endpoint : string) (params : json) : string :=
  endpoint +:+ ":" +:+ JSON_stringify 0 params.

(** [getFromCache(key)]; the entry object itself is always truthy. *)
Definition getFromCache (key : string) : M json :=
  fun w =>
    match cache w !! key with
    | Some cached =>
        if now w - timestamp cached <? cacheTimeout
        then (Ret (data cached), w)
        else (Ret JNull, MkWorld (delete key (cache w)) (now w) (calls w) (stdout w))
    | None => (Ret JNull, MkWorld (delete key (cache w)) (now w) (calls w) (stdout w))
    end.

(** [setToCache(key, data)] *)
Definition setToCache (key : string) (d : json) : M unit :=
  fun w => (Ret tt, MkWorld (<[key := MkEntry d (now w)]> (cache w))
                            (now w) (calls w) (stdout w)).

(** *** Backend calls *)

(** [makeRequest(endpoint, method = "GET", body = null)], lines
    323-396.  The caller receives the very object that was stored;
    the callers that go on to replace its [results] array leave the
    entry in place, with its timestamp, and leave it an object. *)
Definition makeRequest (endpoint method : string) (body : json) : M json :=
  let cacheKey := getCacheKey endpoint (JObj [("method", JStr method); ("body", body)]) in
  let request : M json :=
    do res <- https_request (MkRequest method endpoint body);
    match res with
    | NetworkError message => throw ("Request failed: " +:+ message)
    | Response status d =>
        if 400 <=? status then
          throw ("Confluence API Error: " +:+ decimal status +:+ " - " +:+ d)
        else
          match JSON_parse d with
          | Parsed result =>
              exec (if String.eqb method "GET" then setToCache cacheKey result else ret tt);
              ret result
          | SyntaxError message => throw ("Failed to parse response: " +:+ message)
          end
    end in
  if String.eqb method "GET" then
    do cached <- getFromCache cacheKey;
    if truthy (Some cached) then ret cached else request
  else request.

Definition GET (endpoint : string) : M json := makeRequest endpoint "GET" JNull.

(** *** Adapter methods, lines 398-1012 *)

Definition getSpacesCompact (limit : value) : M json :=
  let limit := default_to (JNum 25) limit in
  do result <- GET ("/space?limit=" +:+ toStr limit);
  lift (shape "getSpacesCompact" [Some limit] result).

Definition getPage (pageId : value) : M json :=
  do result <- GET ("/content/" +:+ interpolate pageId +:+ "?expand=body.storage,version");
  lift (shape "getPage" [] result).

Definition getChildPagesCompact (pageId limit : value) : M json :=
  let limit := default_to (JNum 10) limit in
  do result <- GET ("/content/" +:+ interpolate pageId +:+ "/child/page?limit="
                    +:+ toStr limit);
  lift (shape "getChildPagesCompact" [Some limit] result).

(** The receiver of a method that only strings have. *)
Definition string_receiver (receiver method : string) (v : value) : outcome string :=
  match v with
  | Some (JStr s) => Ret s
  | None => Throw (cannot_read "undefined" method)
  | Some JNull => Throw (cannot_read "null" method)
  | Some _ => Throw (receiver +:+ "." +:+ method +:+ " is not a function")
  end.

Definition dangerousPatterns : list RegExp :=
  [ re "space\s*=\s*`[^`]*`\s*AND\s*space\s*=" "";
    re "\(\s*\)" "";
    re "AND\s*AND|OR\s*OR" "" ].

(** [validateAndOptimizeCQL(query)], lines 581-606. *)
Definition validateAndOptimizeCQL (query : value) : outcome string :=
  match string_receiver "query" "trim" query with
  | Throw e => Throw e
  | Ret q =>
      let cleanedQuery := trim q in
      if existsb (fun pattern => test pattern cleanedQuery) dangerousPatterns
      then Throw ("Invalid CQL pattern detected: " +:+ cleanedQuery)
      else
        Ret (replace_with (re "\s*OR\s*" "gi") " OR "
              (replace_with (re "\s*AND\s*" "gi") " AND "
                (replace_with (re "\s*~\s*" "g") " ~ "
                  (replace_with (re "\s*=\s*" "g") " = "
                    (replace_with (re "\s+" "g") " " cleanedQuery)))))
  end.

Definition title_pattern : RegExp := re "title\s*~\s*`([^`]+)`" "i".
Definition text_pattern : RegExp := re "text\s*~\s*`([^`]+)`" "i".
Definition space_pattern : RegExp := re "space\s*=\s*`([^`]+)`" "i".

(** [array.includes('literal')] *)
Definition array_includes (items : list json) (literal : string) : bool :=
  existsb (fun x => Some x === literal) items.

(** The query that [searchPagesSimple] builds, lines 537-553. *)
Definition simpleQuery (query : value) : outcome string :=
  match query with
  | Some (JStr q) =>
      if includes q "title ~" then
        match match_groups title_pattern q with
        | Some titleMatch => Ret ("title ~ " +:+ quoted (group titleMatch 1))
        | None => Ret EmptyString
        end
      else if includes q "text ~" then
        match match_groups text_pattern q with
        | Some textMatch => Ret ("text ~ " +:+ quoted (group textMatch 1))
        | None => Ret EmptyString
        end
      else
        let cleanText := trim (replace_with (re "[^\w\s가-힣]" "g") "" q) in
        Ret ("text ~ " +:+ quoted cleanText)
  | Some (JArr items) =>
      if array_includes items "title ~" || array_includes items "text ~"
      then Throw "query.match is not a function"
      else Throw "query.replace is not a function"
  | _ => match string_receiver "query" "includes" query with
         | Throw e => Throw e
         | Ret _ => Ret EmptyString
         end
  end.

(** [searchPagesSimple(query, limit = 10)], lines 534-578. *)
Definition searchPagesSimple (query limit : value) : M json :=
  let limit := default_to (JNum 10) limit in
  try_catch
    (do q <- lift (simpleQuery query);
     let encodedQuery := encodeURIComponent q in
     do result <- GET ("/content/search?cql=" +:+ encodedQuery +:+ "&limit=" +:+ toStr limit);
     lift (shape "searchPagesSimple" [Some limit] result))
    (fun message => throw ("Simple search also failed: " +:+ message)).

(** The [try] block of [searchPagesCompact], lines 464-514. *)
Definition cqlSearch (query : value) (limit : json) : M json :=
  do cleanedQuery <- lift (validateAndOptimizeCQL query);
  let encodedQuery :=
    if includes (toLowerCase cleanedQuery) "space ="
       || includes (toLowerCase cleanedQuery) "space="
    then replace_char "=" "%3D"
           (replace_char " " "%20" (replace_char dquote "%22" cleanedQuery))
    else encodeURIComponent cleanedQuery in
  do result <- GET ("/content/search?cql=" +:+ encodedQuery +:+ "&limit=" +:+ toStr limit);
  lift (shape "searchPagesCompact" [Some limit] result).

(** [searchPagesCompact(query, limit = 10)], lines 463-531: the [catch]
    block retries with [searchPagesSimple] when the message holds the
    text 500, and rethrows the first error otherwise and when the retry
    fails too. *)
Definition searchPagesCompact (query limit : value) : M json :=
  let limit := default_to (JNum 10) limit in
  try_catch
    (cqlSearch query limit)
    (fun message =>
       if includes message "500" then
         try_catch (searchPagesSimple query (Some limit))
                   (fun fallbackMessage => throw message)
       else throw message).

(** [searchBySpaceAndTitle(spaceKey, titleSearchTerm, limit = 10)],
    lines 609-634. *)
Definition searchBySpaceAndTitle (spaceKey titleSearchTerm : string) (limit : value)
    : M json :=
  let limit := default_to (JNum 10) limit in
  do result <- GET ("/content?spaceKey=" +:+ spaceKey +:+ "&title="
                    +:+ encodeURIComponent titleSearchTerm
                    +:+ "&limit=" +:+ toStr limit +:+ "&type=page");
  lift (shape "searchBySpaceAndTitle" [Some limit] result).

(** [errors.join('; ')] *)
Fixpoint join (separator : string) (l : list string) : string :=
  match l with
  | [] => EmptyString
  | [x] => x
  | x :: l' => x +:+ separator +:+ join separator l'
  end.

(** The second method of [advancedSearch], lines 648-659: [None] when
    it falls through to the third, with the errors so far. *)
Definition spaceAndTitle (query : value) (limit : json) (errors : list string)
    : M (option json * list string) :=
  do q <- lift (string_receiver "query" "toLowerCase" query);
  if includes (toLowerCase q) "space" then
    match match_groups space_pattern q, match_groups title_pattern q with
    | Some spaceMatch, Some titleMatch =>
        try_catch
          (do r <- searchBySpaceAndTitle (group spaceMatch 1) (group titleMatch 1)
                     (Some limit);
           ret (Some r, errors))
          (fun message => ret (None, errors ++ ["Space+Title search: " +:+ message]))
    | _, _ => ret (None, errors)
    end
  else ret (None, errors).

(** [advancedSearch(query, limit = 10)], lines 637-670. *)
Definition advancedSearch (query limit : value) : M json :=
  let limit := default_to (JNum 10) limit in
  do first <- try_catch
                (do r <- searchPagesCompact query (Some limit); ret (inl r))
                (fun message => ret (inr ["CQL search: " +:+ message]));
  match first with
  | inl r => ret r
  | inr errors =>
      do second <- spaceAndTitle query limit errors;
      match second with
      | (Some r, _) => ret r
      | (None, errors) =>
          try_catch
            (searchPagesSimple query (Some limit))
            (fun message =>
               throw ("All search methods failed: "
                      +:+ join "; " (errors ++ ["Simple search: " +:+ message])))
      end
  end.

Definition storage (content : value) : json :=
  JObj [("storage", JObj (Jira.field "value" content
                          ++ [("representation", JStr "storage")]))].

Definition createPage (spaceKey title content parentPageId : value) : M json :=
  let parentPageId := default_to JNull parentPageId in
  let body :=
    JObj ([("type", JStr "page")]
          ++ Jira.field "title" title
          ++ [("space", JObj (Jira.field "key" spaceKey));
              ("body", storage content)]
          ++ (if truthy (Some parentPageId)
              then [("ancestors", JArr [JObj [("id", parentPageId)]])]
              else [])) in
  makeRequest "/content" "POST" body.

Definition updatePage (pageId title content version : value) : M json :=
  let body :=
    JObj ([("version", JObj (Jira.field "number" version))]
          ++ Jira.field "title" title
          ++ [("type", JStr "page"); ("body", storage content)]) in
  makeRequest ("/content/" +:+ interpolate pageId) "PUT" body.

Definition deletePage (pageId : value) : M json :=
  makeRequest ("/content/" +:+ interpolate pageId) "DELETE" JNull.

Definition getPageHistory (pageId limit : value) : M json :=
  let limit := default_to (JNum 10) limit in
  do result <- GET ("/content/" +:+ interpolate pageId +:+ "/history?limit=" +:+ toStr limit);
  lift (shape "getPageHistory" [Some limit] result).

Definition getPageComments (pageId limit : value) : M json :=
  let limit := default_to (JNum 25) limit in
  do result <- GET ("/content/" +:+ interpolate pageId +:+ "/child/comment?limit="
                    +:+ toStr limit);
  lift (shape "getPageComments" [Some limit] result).

Definition addPageComment (pageId comment : value) : M json :=
  let body :=
    JObj [("type", JStr "comment");
          ("container", JObj (Jira.field "id" pageId));
          ("body", storage comment)] in
  makeRequest "/content" "POST" body.

Definition getSpacePages (spaceKey limit start : value) : M json :=
  let limit := default_to (JNum 50) limit in
  let start := default_to (JNum 0) start in
  do result <- GET ("/content?spaceKey=" +:+ interpolate spaceKey +:+ "&limit=" +:+ toStr limit
                    +:+ "&start=" +:+ toStr start +:+ "&type=page");
  lift (shape "getSpacePages" [Some limit; Some start] result).

Definition getPageLabels (pageId : value) : M json :=
  do result <- GET ("/content/" +:+ interpolate pageId +:+ "/label");
  lift (shape "getPageLabels" [] result).

(** [labels.map(labelName => ({ prefix: "global", name: labelName }))] *)
Definition labelBodies (labels : value) : outcome json :=
  match labels with
  | Some (JArr items) =>
      Ret (JArr (map (fun labelName =>
                        JObj [("prefix", JStr "global"); ("name", labelName)]) items))
  | None => Throw (cannot_read "undefined" "map")
  | Some JNull => Throw (cannot_read "null" "map")
  | Some _ => Throw "labels.map is not a function"
  end.

Definition addPageLabel (pageId labels : value) : M json :=
  do body <- lift (labelBodies labels);
  makeRequest ("/content/" +:+ interpolate pageId +:+ "/label") "POST" body.

Definition getPageAttachments (pageId limit : value) : M json :=
  let limit := default_to (JNum 25) limit in
  do result <- GET ("/content/" +:+ interpolate pageId +:+ "/child/attachment?limit="
                    +:+ toStr limit);
  lift (shape "getPageAttachments" [Some limit] result).

Definition getRecentPages (limit spaceKey : value) : M json :=
  let limit := default_to (JNum 25) limit in
  let spaceKey := default_to JNull spaceKey in
  let url := "/content?limit=" +:+ toStr limit +:+ "&orderby=lastmodified&type=page" in
  let url := if truthy (Some spaceKey) then url +:+ "&spaceKey=" +:+ toStr spaceKey
             else url in
  do result <- GET url;
  lift (shape "getRecentPages" [Some limit] result).

(** [getCurrentUser()], lines 989-1012, with a cache entry of its own. *)
Definition getCurrentUser : M json :=
  let cacheKey := getCacheKey "user/current" (JObj []) in
  do cached <- getFromCache cacheKey;
  if truthy (Some cached) then ret cached
  else
    do result <- GET "/user/current";
    do userInfo <- lift (shape "getCurrentUser" [] result);
    exec setToCache cacheKey userInfo;
    ret userInfo.

Definition andSpace (cql : string) (spaceKey : json) : string :=
  if truthy (Some spaceKey) then cql +:+ " AND space = " +:+ quoted (toStr spaceKey)
  else cql.

Definition getMyPages (limit spaceKey : value) : M json :=
  let limit := default_to (JNum 25) limit in
  let spaceKey := default_to JNull spaceKey in
  do user <- getCurrentUser;
  do username <- lift (prop (Some user) "username");
  do accountId <- lift (prop (Some user) "accountId");
  let cql := "creator = " +:+ quoted (interpolate (or_else username accountId))
             +:+ " AND type = page" in
  searchPagesCompact (Some (JStr (andSpace cql spaceKey))) (Some limit).

Definition getPagesByLabel (label limit spaceKey : value) : M json :=
  let limit := default_to (JNum 25) limit in
  let spaceKey := default_to JNull spaceKey in
  let cql := "label = " +:+ quoted (interpolate label) +:+ " AND type = page" in
  searchPagesCompact (Some (JStr (andSpace cql spaceKey))) (Some limit).

Definition getPageTemplates (spaceKey : value) : M json :=
  do result <- GET ("/content?spaceKey=" +:+ interpolate spaceKey +:+ "&type=template");
  lift (shape "getPageTemplates" [] result).

Definition getSpaceDetails (spaceKey : value) : M json :=
  do result <- GET ("/space/" +:+ interpolate spaceKey);
  lift (shape "getSpaceDetails" [] result).

(** *** Dispatch *)

(** The [switch (name)] of [handleToolCall], lines 1198-1382. *)
Definition callTool (name : value) (args : json) : M json :=
  let arg := Jira.arg args in
  if name === "get_spaces" then
    do limit <- arg "limit"; getSpacesCompact limit
  else if name === "get_page" then
    do pageId <- arg "pageId"; getPage pageId
  else if name === "search_pages" then
    do query <- arg "query"; do limit <- arg "limit"; advancedSearch query limit
  else if name === "create_page" then
    do spaceKey <- arg "spaceKey"; do title <- arg "title";
    do content <- arg "content"; do parentPageId <- arg "parentPageId";
    createPage spaceKey title content parentPageId
  else if name === "update_page" then
    do pageId <- arg "pageId"; do title <- arg "title";
    do content <- arg "content"; do version <- arg "version";
    updatePage pageId title content version
  else if name === "delete_page" then
    do pageId <- arg "pageId"; deletePage pageId
  else if name === "get_page_history" then
    do pageId <- arg "pageId"; do limit <- arg "limit"; getPageHistory pageId limit
  else if name === "get_child_pages" then
    do pageId <- arg "pageId"; do limit <- arg "limit"; getChildPagesCompact pageId limit
  else if name === "get_page_comments" then
    do pageId <- arg "pageId"; do limit <- arg "limit"; getPageComments pageId limit
  else if name === "add_page_comment" then
    do pageId <- arg "pageId"; do comment <- arg "comment"; addPageComment pageId comment
  else if name === "get_space_pages" then
    do spaceKey <- arg "spaceKey"; do limit <- arg "limit"; do start <- arg "start";
    getSpacePages spaceKey limit start
  else if name === "get_page_labels" then
    do pageId <- arg "pageId"; getPageLabels pageId
  else if name === "add_page_label" then
    do pageId <- arg "pageId"; do labels <- arg "labels"; addPageLabel pageId labels
  else if name === "get_page_attachments" then
    do pageId <- arg "pageId"; do limit <- arg "limit"; getPageAttachments pageId limit
  else if name === "get_recent_pages" then
    do limit <- arg "limit"; do spaceKey <- arg "spaceKey"; getRecentPages limit spaceKey
  else if name === "get_my_pages" then
    do limit <- arg "limit"; do spaceKey <- arg "spaceKey"; getMyPages limit spaceKey
  else if name === "get_pages_by_label" then
    do label <- arg "label"; do limit <- arg "limit"; do spaceKey <- arg "spaceKey";
    getPagesByLabel label limit spaceKey
  else if name === "get_page_templates" then
    do spaceKey <- arg "spaceKey"; getPageTemplates spaceKey
  else if name === "get_space_details" then
    do spaceKey <- arg "spaceKey"; getSpaceDetails spaceKey
  else throw ("Unknown tool: " +:+ interpolate name).

(** [handleToolCall(params)], lines 1194-1389. *)
Definition handleToolCall (params : json) : M json :=
  do name <- lift (Jira.destructure "params" params "name");
  do arguments <- lift (Jira.destructure "params" params "arguments");
  let args := default_to (JObj []) arguments in
  try_catch
    (do result <- callTool name args;
     ret (Jira.text_content (JSON_stringify 2 result)))
    (fun message => ret (JiraLegacy.error_content ("Error: " +:+ message))).

Definition serverInfo : json :=
  JObj [("protocolVersion", JStr "2024-11-05");
        ("capabilities", JObj [("tools", JObj [])]);
        ("serverInfo",
          JObj [("name", JStr "confluence-optimized-v2");
                ("version", JStr "2.0.0")])].

(** [handleRequest(request)], lines 1015-1192. *)
Definition handleRequest (request : json) : M json :=
  do method <- lift (Jira.destructure "request" request "method");
  do params <- lift (Jira.destructure "request" request "params");
  let params := default_to (JObj []) params in
  if method === "initialize" then ret serverInfo
  else if method === "tools/list" then ret (tools_list registry)
  else if method === "tools/call" then handleToolCall params
  else throw ("Unknown method: " +:+ interpolate method).

(** The error classification of [start], lines 1444-1454. *)
Definition classify (message : string) : Z * string :=
  if includes message "Unknown method" then (-32601, "Method not found")
  else if includes message "required" || includes message "Invalid arguments"
       then (-32602, "Invalid params")
  else (-32603, "Internal error").

Definition error_reply (requestId : value) (message : string) : Reply :=
  let (errorCode, errorMessage) := classify message in
  MkReply requestId (Error errorCode errorMessage (Some message)).

(** [request.id !== undefined ? request.id : null] *)
Definition requestIdOf (id : value) : json :=
  match id with
  | Some j => j
  | None => JNull
  end.

(** The test of line 1427,
    [request.method && (request.method.startsWith('notifications/')
                        || request.method === 'initialized')]. *)
Definition isNotification (method : value) : outcome bool :=
  if truthy method then
    match string_receiver "request.method" "startsWith" method with
    | Throw e => Throw e
    | Ret m => Ret (startsWith m "notifications/" || String.eqb m "initialized")
    end
  else Ret false.

(** The body of the loop over [lines] in [start], lines 1405-1465, for
    a line that is not blank.  What it throws is thrown outside every
    [try] of the handler. *)
Definition processLine (line : string) : M unit :=
  match JSON_parse line with
  | SyntaxError message => console_log (Jira.parse_error_reply (Some JNull) message)
  | Parsed request =>
      match prop (Some request) "id" with
      | Throw message => console_log (Jira.parse_error_reply (Some JNull) message)
      | Ret id =>
          let requestId := requestIdOf id in
          do method <- lift (prop (Some request) "method");
          do notification <- lift (isNotification method);
          if notification then ret tt
          else
            try_catch
              (do response <- handleRequest request;
               match requestId with
               | JNull => ret tt
               | _ => console_log (MkReply (Some requestId) (Result response))
               end)
              (fun message => console_log (error_reply (Some requestId) message))
      end
  end.

Fixpoint processLines (lines : list string) : M unit :=
  match lines with
  | [] => ret tt
  | line :: rest => exec processLine line; processLines rest
  end.

(** The ['data'] handler of [start], lines 1397-1467: the new value of
    [buffer], assigned before the loop starts, and the loop. *)
Definition onData (buffer data : string) : string * M unit :=
  let (lines, buffer') := Framer.onData buffer data in
  (buffer', processLines lines).

End Adapter.
End Confluence.

(** ** Document normalization *)

Module Normalizer.
Import JsString Json Library.

Definition is_newline (c : ascii) : bool := Ascii.eqb c newline.

(** [flush f run] is what stands for a maximal run once it is closed. *)
Definition flush (f : string -> string) (run : string) : string :=
  if nonempty run then f run else EmptyString.

(** The run of [p]-characters that [s] starts with, and the text after
    it with every later maximal run replaced through [f]. *)
Fixpoint runs (p : ascii -> bool) (f : string -> string) (s : string) : string * string :=
  match s with
  | EmptyString => (EmptyString, EmptyString)
  | String c s' =>
      let (run, out) := runs p f s' in
      if p c then (String c run, out)
      else (EmptyString, String c (flush f run +:+ out))
  end.

(** Every maximal run of [p]-characters replaced by its image under [f]. *)
Definition replace_runs (p : ascii -> bool) (f : string -> string) (s : string) : string :=
  let (run, out) := runs p f s in flush f run +:+ out.

Fixpoint count (p : ascii -> bool) (s : string) : nat :=
  match s with
  | EmptyString => 0%nat
  | String c s' => ((if p c then 1 else 0) + count p s')%nat
  end.

Definition two_newlines : string := String newline (String newline EmptyString).

(** [.replace(/\n{3,}/g, '\n\n')] *)
Definition squeeze_newlines : string -> string :=
  replace_runs is_newline
    (fun run => if Nat.leb 3 (String.length run) then two_newlines else run).

(** [.replace(/\s*\n\s*/g, '\n')]: a match is a whole maximal run of
    white space that holds a line feed. *)
Definition strip_around_newlines : string -> string :=
  replace_runs is_whitespace
    (fun run => if Nat.leb 1 (count is_newline run)
                then String newline EmptyString else run).

(** [.replace(/\s+/g, ' ')] *)
Definition collapse_whitespace : string -> string :=
  replace_runs is_whitespace (fun _ => " ").

(** Up to the first line feed, and from after the last one. *)
Fixpoint before_newline (s : string) : string :=
  match s with
  | EmptyString => EmptyString
  | String c s' => if is_newline c then EmptyString else String c (before_newline s')
  end.

Fixpoint after_last_newline (s : string) : string :=
  match s with
  | EmptyString => EmptyString
  | String c s' =>
      if Nat.leb 1 (count is_newline s') then after_last_newline s'
      else if is_newline c then s' else s
  end.

(** [.replace(/\n\s*\n\s*\n/g, '\n\n')]: a match runs from the first
    to the last line feed of a maximal run of white space that holds
    three of them or more. *)
Definition squeeze_blank_lines : string -> string :=
  replace_runs is_whitespace
    (fun run => if Nat.leb 3 (count is_newline run)
                then before_newline run +:+ two_newlines +:+ after_last_newline run
                else run).

Definition is_terminator (c : ascii) : bool :=
  Ascii.eqb c "." || Ascii.eqb c "!" || Ascii.eqb c "?".

Definition starts_with_whitespace (s : string) : bool :=
  match s with
  | EmptyString => false
  | String c _ => is_whitespace c
  end.

(** [s.split(/[.!?]\s+/)], as the first piece and the later pieces.
    [skipping] holds inside the white space of a separator. *)
Fixpoint split_go (skipping : bool) (s : string) : string * list string :=
  match s with
  | EmptyString => (EmptyString, [])
  | String c s' =>
      if skipping && is_whitespace c then split_go true s'
      else if is_terminator c && starts_with_whitespace s' then
        let (h, t) := split_go true s' in (EmptyString, h :: t)
      else
        let (h, t) := split_go false s' in (String c h, t)
  end.

Definition split_sentences (s : string) : list string :=
  let (h, t) := split_go false s in h :: t.

(** The loop of lines 131-136 of src/mcp/jira/index.js (113-118 of
    part_000):
<<
    for (const sentence of sentences) {
      if ((summary + sentence).length > 400) break;
      if (sentence.trim()) { summary += sentence.trim() + '. '; }
    }
>>  *)
Fixpoint accumulate (sentences : list string) (summary : string) : string :=
  match sentences with
  | [] => summary
  | sentence :: rest =>
      if Nat.ltb 400 (String.length (summary +:+ sentence)) then summary
      else accumulate rest
             (if nonempty (trim sentence) then summary +:+ trim sentence +:+ ". "
              else summary)
  end.

(** Lines 126-141 of src/mcp/jira/index.js and 108-123 of part_000,
    which are the same text. *)
Definition summarize (cleanText : string) : string :=
  if Nat.ltb 500 (String.length cleanText) then
    let sentences := split_sentences cleanText in
    let summary := accumulate sentences EmptyString in
    trim summary +:+
      (if Nat.ltb (String.length summary) (String.length cleanText) then "..."
       else EmptyString)
  else cleanText.

(** The chain of replacements after [convert], lines 121-124 of
    src/mcp/jira/index.js. *)
Definition cleaned (text : string) : string :=
  trim (collapse_whitespace (strip_around_newlines (squeeze_newlines text))).

(** The chain of replacements after [convert], lines 103-106 of part_000;
    [.replace(/^\s+|\s+$/g, '')] is a [trim]. *)
Definition cleanedLegacy (text : string) : string :=
  trim (trim (collapse_whitespace (squeeze_blank_lines text))).

(** What a list of sentences contributes to the summary: each one that
    is not blank, trimmed and closed by a full stop and a space. *)
Fixpoint rendered (sentences : list string) : string :=
  match sentences with
  | [] => EmptyString
  | sentence :: rest =>
      (if nonempty (trim sentence) then trim sentence +:+ ". " else EmptyString)
      +:+ rendered rest
  end.

(** A sentence boundary: one of [.], [!], [?] followed by white space. *)
Fixpoint all_whitespace (s : string) : bool :=
  match s with
  | EmptyString => true
  | String c s' => is_whitespace c && all_whitespace s'
  end.

Definition is_boundary (s : string) : bool :=
  match s with
  | EmptyString => false
  | String c spaces => is_terminator c && nonempty spaces && all_whitespace spaces
  end.

(** A first sentence and later ones, put back around their boundaries. *)
Fixpoint weave (first : string) (later boundaries : list string) : string :=
  match later, boundaries with
  | next :: later', boundary :: boundaries' =>
      first +:+ boundary +:+ weave next later' boundaries'
  | _, _ => first
  end.

(** The pattern [/[.!?]\s+/] that [split] is given, written out code
    unit by code unit: a mark, then white space, which among the code
    units below 256 is TAB, LF, VT, FF, CR, SPACE and NBSP. *)
Definition sentence_mark (c : ascii) : bool :=
  existsb (Ascii.eqb c) ["."%char; "!"%char; "?"%char].

Definition white_space (c : ascii) : bool :=
  existsb (Nat.eqb (nat_of_ascii c)) [9; 10; 11; 12; 13; 32; 160]%nat.

Definition starts_white (s : string) : bool :=
  match s with
  | EmptyString => false
  | String c _ => white_space c
  end.

Fixpoint all_white (s : string) : bool :=
  match s with
  | EmptyString => true
  | String c s' => white_space c && all_white s'
  end.

(** A whole match of the pattern: a mark and one white space or more. *)
Definition boundary (s : string) : bool :=
  match s with
  | EmptyString => false
  | String c spaces => sentence_mark c && nonempty spaces && all_white spaces
  end.

(** A match of the pattern starts somewhere in [s]. *)
Fixpoint holds_boundary (s : string) : bool :=
  match s with
  | EmptyString => false
  | String c s' => (sentence_mark c && starts_white s') || holds_boundary s'
  end.

(** [sentences] are the sentences of [text]: put back around matches of
    the pattern they give the text, none of them holds a match, and
    none after the first starts with white space, so that each match
    takes all the white space it can.  There is one such list, the one
    that [text.split(/[.!?]\s+/)] returns. *)
Definition sentences_of (text : string) (sentences : list string) : Prop :=
  exists boundaries : list string,
    List.length sentences = S (List.length boundaries) /\
    forallb boundary boundaries = true /\
    text = weave (hd EmptyString sentences) (tl sentences) boundaries /\
    Forall (fun sentence => holds_boundary sentence = false) sentences /\
    Forall (fun sentence => starts_white sentence = false) (tl sentences).

(** [text] is [cleanText] cut at a sentence boundary: the sentences of
    [cleanText] taken whole, from the first, for as long as the summary
    so far and the next sentence stay within 400 characters together,
    then trimmed and followed by the marker. *)
Definition cut_at_sentence (cleanText text : string) : Prop :=
  exists sentences : list string,
    sentences_of cleanText sentences /\
  exists k : nat,
    (k <= List.length sentences)%nat /\
    text = trim (rendered (firstn k sentences)) +:+ "..." /\
    (forall j, (j < k)%nat ->
       (String.length (rendered (firstn j sentences) +:+ nth j sentences EmptyString)
        <= 400)%nat) /\
    ((k < List.length sentences)%nat ->
       (400 < String.length (rendered (firstn k sentences) +:+ nth k sentences EmptyString))%nat).

Section WithLibrary.
Context `{HtmlToText} `{Engine}.

(** [Jira.htmlToText(html)], src/mcp/jira/index.js:46-142, for the
    string that [fields.description] holds. *)
Definition htmlToText (html : string) : outcome string :=
  if negb (nonempty html) then Ret EmptyString
  else
    match convert "jira" html with
    | Throw e => Throw e
    | Ret text => Ret (summarize (cleaned text))
    end.

(** [JiraLegacy.htmlToText(html)], part_000:64-124. *)
Definition htmlToTextLegacy (html : string) : outcome string :=
  if negb (nonempty html) then Ret EmptyString
  else
    match convert "jira-legacy" html with
    | Throw e => Throw e
    | Ret text => Ret (summarize (cleanedLegacy text))
    end.

(** [parseJiraMacros(html)], part_001:175-191. *)
Definition parseJiraMacros : string -> string :=
  replace (re "<ac:structured-macro[^>]*ac:name=`jira`[^>]*>(.*?)<\/ac:structured-macro>" "gis")
    (fun m =>
       let content := group m 1 in
       let keyMatch :=
         match_groups (re "<ac:parameter[^>]*ac:name=`key`[^>]*>([^<]+)<\/ac:parameter>" "i")
           content in
       let serverIdMatch :=
         match_groups (re "<ac:parameter[^>]*ac:name=`serverId`[^>]*>([^<]+)<\/ac:parameter>" "i")
           content in
       match keyMatch with
       | Some k =>
           let issueKey := trim (group k 1) in
           let serverId := match serverIdMatch with
                           | Some sid => trim (group sid 1)
                           | None => EmptyString
                           end in
           "[JIRA: " +:+ issueKey
             +:+ (if nonempty serverId then " (" +:+ serverId +:+ ")" else EmptyString)
             +:+ "]"
       | None => "[JIRA Issue]"
       end).

(** [parseDateTimes(html)], part_001:194-210. *)
Definition parseDateTimes (html : string) : string :=
  let html :=
    replace (re "<time[^>]*datetime=`([^`]+)`[^>]*>([^<]*)<\/time>" "gi")
      (fun m =>
         let datetime := group m 1 in
         let content := group m 2 in
         let displayText := if nonempty (trim content) then trim content else datetime in
         "[Date: " +:+ datetime
           +:+ (if String.eqb displayText datetime then EmptyString
                else " (" +:+ displayText +:+ ")")
           +:+ "]")
      html in
  replace (re "<time[^>]*datetime=`([^`]+)`[^>]*\/>" "gi")
    (fun m => "[Date: " +:+ group m 1 +:+ "]") html.

(** [parseLinks(html)], part_001:213-241. *)
Definition parseLinks (html : string) : string :=
  let html :=
    replace (re "<ac:link[^>]*>(.*?)<ri:page[^>]*ri:content-title=`([^`]+)`[^>]*\/>.*?<\/ac:link>" "gis")
      (fun m => "[Link: " +:+ group m 2 +:+ "]") html in
  let html :=
    replace (re "<ac:link[^>]*>(.*?)<ri:user[^>]*ri:userkey=`([^`]+)`[^>]*\/>(.*?)<ac:plain-text-link-body><!\[CDATA\[([^\]]+)\]\]><\/ac:plain-text-link-body>.*?<\/ac:link>" "gis")
      (fun m => "[User: " +:+ trim (group m 4) +:+ "]") html in
  let html :=
    replace (re "<ri:user[^>]*ri:userkey=`([^`]+)`[^>]*\/>" "gi")
      (fun m => "[User: " +:+ group m 1 +:+ "]") html in
  replace (re "<ac:link[^>]*>(.*?)<\/ac:link>" "gis")
    (fun m =>
       let textContent := trim (replace_with (re "<[^>]*>" "g") EmptyString (group m 1)) in
       if nonempty textContent then "[Link: " +:+ textContent +:+ "]" else "[Link]")
    html.

(** [this.regexPatterns], part_001:15-36, as far as [preprocessHtml]
    reads it. *)
Definition emptyTags := re "<(\w+)\s*>\s*<\/\1>" "gi".
Definition styleAttributes := re "\s*(style|class|id)=`[^`]*`" "gi".
Definition dataAttributes := re "\s*data-[^=]*=`[^`]*`" "gi".
Definition metaTags :=
  re "<(?:script|style|noscript|meta|link)[^>]*>.*?<\/(?:script|style|noscript|meta|link)>" "gis".
Definition selfClosingMeta := re "<(?:script|style|noscript|meta|link)[^>]*\/>" "gi".
Definition multimedia :=
  re "<(?:iframe|embed|object|canvas|svg|audio|video)[^>]*>.*?<\/(?:iframe|embed|object|canvas|svg|audio|video)>" "gis".
Definition selfClosingMultimedia :=
  re "<(?:iframe|embed|object|canvas|svg|audio|video)[^>]*\/>" "gi".
Definition multipleSpaces := re "\s+" "g".
Definition tagSpaces := re ">\s+<" "g".

(** [preprocessHtml(html)], part_001:145-172. *)
Definition preprocessHtml (html : string) : string :=
  if negb (nonempty html) then EmptyString
  else
    let cleaned := parseJiraMacros html in
    let cleaned := parseDateTimes cleaned in
    let cleaned := parseLinks cleaned in
    let cleaned := replace_with (re "<\/?(?:ac|ri):[^>]*>" "gi") EmptyString cleaned in
    let cleaned := replace_with emptyTags EmptyString cleaned in
    let cleaned := replace_with styleAttributes EmptyString cleaned in
    let cleaned := replace_with dataAttributes EmptyString cleaned in
    let cleaned := replace_with metaTags EmptyString cleaned in
    let cleaned := replace_with selfClosingMeta EmptyString cleaned in
    let cleaned := replace_with multimedia EmptyString cleaned in
    let cleaned := replace_with selfClosingMultimedia EmptyString cleaned in
    let cleaned := replace_with multipleSpaces " " cleaned in
    let cleaned := replace_with tagSpaces "><" cleaned in
    trim cleaned.

(** The blunt pass of the [catch] block:
    [.replace(/<[^>]*>/g, "").trim()]. *)
Definition stripAllTags (s : string) : string :=
  trim (replace_with (re "<[^>]*>" "g") EmptyString s).

(** [cleanHtmlToText(html)], part_001:244-261. *)
Definition cleanHtmlToText (html : string) : outcome string :=
  if negb (nonempty html) then Ret EmptyString
  else
    match convert "confluence" (preprocessHtml html) with
    | Ret cleanText => Ret cleanText
    | Throw _ => Ret (stripAllTags (preprocessHtml html))
    end.

End WithLibrary.
End Normalizer.

(** ** Stand-ins for the host, used to run the adapters on given input *)

Module Stub.
Import JsString Json Runtime Library.

(** A decoder that knows the lines of a table and rejects every other
    line, as [JSON.parse] rejects a malformed one. *)
Fixpoint decode (table : list (string * json)) (line : string) : decoded :=
  match table with
  | [] => SyntaxError "Unexpected token"
  | (text, v) :: rest => if String.eqb text line then Parsed v else decode rest line
  end.

(** [JSON.stringify] without indentation, for text that needs no escape. *)
Fixpoint stringify (v : json) : string :=
  match v with
  | JNull => "null"
  | JBool true => "true"
  | JBool false => "false"
  | JNum n => decimal n
  | JStr s => quoted s
  | JArr items =>
      "[" +:+
      (fix elements (l : list json) : string :=
         match l with
         | [] => EmptyString
         | x :: l' =>
             stringify x +:+
             match l' with
             | [] => EmptyString
             | _ :: _ => "," +:+ elements l'
             end
         end) items +:+ "]"
  | JObj fields =>
      "{" +:+
      (fix members (l : list (string * json)) : string :=
         match l with
         | [] => EmptyString
         | (k, x) :: l' =>
             quoted k +:+ ":" +:+ stringify x +:+
             match l' with
             | [] => EmptyString
             | _ :: _ => "," +:+ members l'
             end
         end) fields +:+ "}"
  end.

(** [encodeURIComponent] on code units below 256: the unreserved
    characters stay, every other one becomes the percent-escapes of its
    UTF-8 bytes. *)
Definition unreserved (c : ascii) : bool :=
  let n := nat_of_ascii c in
  (Nat.leb 48 n && Nat.leb n 57) || (Nat.leb 65 n && Nat.leb n 90)
  || (Nat.leb 97 n && Nat.leb n 122)
  || existsb (Ascii.eqb c) (list_ascii_of_string "-_.!~*'()").

Definition hex_digit (n : nat) : ascii :=
  nth n (list_ascii_of_string "0123456789ABCDEF") "0"%char.

Definition percent (n : nat) : string :=
  String "%" (String (hex_digit (Nat.div n 16)) (String (hex_digit (Nat.modulo n 16))
    EmptyString)).

Fixpoint encode (s : string) : string :=
  match s with
  | EmptyString => EmptyString
  | String c s' =>
      let n := nat_of_ascii c in
      (if unreserved c then String c EmptyString
       else if Nat.ltb n 128 then percent n
       else percent (192 + Nat.div n 64) +:+ percent (128 + Nat.modulo n 64))
      +:+ encode s'
  end.

Definition host (table : list (string * json)) : Host :=
  {| JSON_parse := decode table;
     JSON_stringify := fun _ => stringify;
     encodeURIComponent := encode |}.

(** A service that gives every call the same answer, at once. *)
Definition remote (answer : HttpResponse) : Remote :=
  {| serve := fun _ _ => answer;
     elapsed := fun _ _ => 0 |}.

(** Shaping that hands the decoded answer on as it is. *)
Definition shaping : Shaping :=
  {| shape := fun _ _ result => Ret result |}.

(** An engine for which no pattern ever matches. *)
Definition engine : Engine :=
  {| test := fun _ _ => false;
     match_groups := fun _ _ => None;
     replace := fun _ _ s => s |}.

(** An HTML library that answers every document the same way. *)
Definition library (answer : string -> outcome string) : HtmlToText :=
  {| convert := fun _ html => answer html |}.

(** The state of a process that has just started, at time [t]. *)
Definition boot (t : Z) : World := MkWorld ∅ t [] [].

(** Request lines, written with a backtick for each double quote. *)
Definition line (text : string) : string := backticks text.

Definition list_tools : string * json :=
  (line "{`jsonrpc`:`2.0`,`id`:1,`method`:`tools/list`}",
   JObj [("jsonrpc", JStr "2.0"); ("id", JNum 1); ("method", JStr "tools/list")]).

Definition initialized : string * json :=
  (line "{`jsonrpc`:`2.0`,`method`:`notifications/initialized`}",
   JObj [("jsonrpc", JStr "2.0"); ("method", JStr "notifications/initialized")]).

Definition unknown_method : string * json :=
  (line "{`jsonrpc`:`2.0`,`method`:`ping`}",
   JObj [("jsonrpc", JStr "2.0"); ("method", JStr "ping")]).

Definition call (id : json) (tool : string) (arguments : json) : json :=
  JObj [("jsonrpc", JStr "2.0"); ("id", id); ("method", JStr "tools/call");
        ("params", JObj [("name", JStr tool); ("arguments", arguments)])].

Definition call_unknown_tool : string * json :=
  (line "{`jsonrpc`:`2.0`,`id`:2,`method`:`tools/call`,`params`:{`name`:`nope`,`arguments`:{}}}",
   call (JNum 2) "nope" (JObj [])).

Definition call_get_issue : string * json :=
  (line "{`jsonrpc`:`2.0`,`id`:3,`method`:`tools/call`,`params`:{`name`:`get_issue`,`arguments`:{}}}",
   call (JNum 3) "get_issue" (JObj [])).

Definition call_get_page : string * json :=
  (line "{`jsonrpc`:`2.0`,`id`:4,`method`:`tools/call`,`params`:{`name`:`get_page`,`arguments`:{}}}",
   call (JNum 4) "get_page" (JObj [])).

Definition list_tools_id_zero : string * json :=
  (line "{`jsonrpc`:`2.0`,`id`:0,`method`:`tools/list`}",
   JObj [("jsonrpc", JStr "2.0"); ("id", JNum 0); ("method", JStr "tools/list")]).

Definition list_tools_7 : string * json :=
  (line "{`jsonrpc`:`2.0`,`id`:7,`method`:`tools/list`}",
   JObj [("jsonrpc", JStr "2.0"); ("id", JNum 7); ("method", JStr "tools/list")]).

(** The same message as it arrives when the transport cuts it in two. *)
Definition list_tools_7_chunks : list string :=
  [line "{`jsonrpc`:`2.0`,`id`:7,`method`:`to";
   line "ols/list`}" +:+ String newline EmptyString].

(** Answers of the backend. *)
Definition empty_object : string * json := ("{}", JObj []).

Definition zero : string * json := ("0", JNum 0).

Definition table : list (string * json) :=
  [list_tools; initialized; unknown_method; call_unknown_tool; call_get_issue;
   call_get_page; list_tools_id_zero; list_tools_7; empty_object; zero].

(** The stand-ins the examples run on. *)
Definition H : Host := host table.
Definition S : Shaping := shaping.
Definition E : Engine := engine.
Definition unreachable : Remote := remote (NetworkError "unreachable").

End Stub.

(** ** What a run of effectful code leaves behind *)

Module Observe.
Import Json Runtime.

(** The replies [m] writes when run from [w], in order. *)
Definition writes {A} (m : M A) (w : World) (replies : list Reply) : Prop :=
  stdout (snd (m w)) = stdout w ++ replies.

(** The backend calls [m] makes when run from [w], in order. *)
Definition makes {A} (m : M A) (w : World) (requests : list HttpRequest) : Prop :=
  calls (snd (m w)) = calls w ++ requests.

(** Code that writes no reply, whatever it does otherwise. *)
Definition quiet {A} (m : M A) : Prop := forall w, stdout (snd (m w)) = stdout w.

(** The world after one more reply was written. *)
Definition wrote (r : Reply) (w : World) : World :=
  MkWorld (cache w) (now w) (calls w) (stdout w ++ [r]).

(** The reply that carries a result, for a request whose id is not null. *)
Definition result_reply (requestId : json) (response : json) : list Reply :=
  match requestId with
  | JNull => []
  | _ => [MkReply (Some requestId) (Result response)]
  end.

(** The key under which [Confluence.makeRequest] stores the answer to a
    GET of [endpoint]. *)
Definition keyOf `{Host} (endpoint : string) : string :=
  Confluence.getCacheKey endpoint (JObj [("method", JStr "GET"); ("body", JNull)]).

(** A method that the test for notifications lets through: a falsy
    value, a missing one included, or a string outside the notification
    namespace that is not the acknowledgment of the handshake. *)
Definition ordinary_method (method : value) : Prop :=
  truthy method = false \/
  exists m, method = Some (JStr m) /\
            JsString.startsWith m "notifications/" = false /\ m <> "initialized".


End Observe.

(** ** Operations on decoded values that the payload shaping uses *)

Module JsValue.
Import JsString Json.

(** Sequencing of pure code that may throw. *)
Definition and_then {A B} (o : outcome A) (k : A -> outcome B) : outcome B :=
  match o with
  | Ret a => k a
  | Throw e => Throw e
  end.

(** [v?.k], for the property names the adapters read this way; as for
    [prop], no prototype defines any of them. *)
Definition optional (v : value) (k : string) : value :=
  match v with
  | Some (JObj fields) => own_property fields k
  | _ => undefined
  end.

(** [v || 'text'] and the like: [v] when it is truthy, [d] otherwise. *)
Definition or_default (v : value) (d : json) : json :=
  match v with
  | Some j => if truthy v then j else d
  | None => d
  end.

(** [f] applied to each element in turn; the first throw ends the pass. *)
Fixpoint traverse {A B} (f : A -> outcome B) (l : list A) : outcome (list B) :=
  match l with
  | [] => Ret []
  | x :: l' =>
      match f x with
      | Throw e => Throw e
      | Ret y =>
          match traverse f l' with
          | Throw e => Throw e
          | Ret ys => Ret (y :: ys)
          end
      end
  end.

(** [callee.map(f)]: only an array has [map]; a property of that name
    on a decoded object is no function. *)
Definition array_map (callee : string) (f : json -> outcome json) (v : value)
    : outcome (list json) :=
  match v with
  | Some (JArr items) => traverse f items
  | None => Throw (cannot_read "undefined" "map")
  | Some JNull => Throw (cannot_read "null" "map")
  | Some _ => Throw (callee +:+ ".map is not a function")
  end.

(** [obj.k = v] on the fields of an object: the value of an existing
    property is replaced where it stands, a new property comes last. *)
Fixpoint assign (fields : list (string * json)) (k : string) (v : json)
    : list (string * json) :=
  match fields with
  | [] => [(k, v)]
  | (k', v') :: rest =>
      if String.eqb k' k then (k', v) :: List.filter (fun p => negb (String.eqb (fst p) k)) rest
      else (k', v') :: assign rest k v
  end.

(** [v.length]: a string counts its code units, an array its elements,
    a decoded object has the property or not. *)
Definition length_of (v : value) : value :=
  match v with
  | Some (JStr s) => Some (JNum (Z.of_nat (String.length s)))
  | Some (JArr items) => Some (JNum (Z.of_nat (List.length items)))
  | Some (JObj members) => own_property members "length"
  | _ => undefined
  end.

(** The values that a template literal prints as [toStr] has it.  The
    conversion of an object looks for a [toString] it can call: a
    decoded object that has a property of that name has one that is no
    function, and the conversion throws; so does that of an array that
    holds such an object.  A number is printed digit for digit up to
    2^53; beyond, it is rounded, and from 10^21 on it is printed with an
    exponent. *)
Fixpoint printable (v : json) : bool :=
  match v with
  | JNum n => Z.abs n <=? 2 ^ 53
  | JArr items => forallb printable items
  | JObj members =>
      match own_property members "toString" with
      | Some _ => false
      | None => true
      end
  | _ => true
  end.

End JsValue.

Notation "'get' x <- o ; k" := (JsValue.and_then o (fun x => k))
  (at level 10, x name, o at level 100, k at level 200) : js_scope.

(** ** Payload shaping of the Jira adapters, written out *)

Module JiraShapes.
Import JsString Json Runtime Library JsValue.

(** Built-ins of the runtime and of the html-to-text package that the
    shaping calls and the adapters do not define. *)
Class Builtins : Type := {
  (** [new Date(v).toLocaleDateString('ko-KR')] *)
  toLocaleDateString : json -> string;
  (** [s > 0] for a string [s], which is compared as a number *)
  string_positive : string -> bool;
  (** [convert(v, options)] for a truthy [v] that is no string, for the
      option object named *)
  convert_value : string -> json -> outcome string;
  (** [items.sort((a, b) => a.name.localeCompare(b.name))] *)
  sort_by_name : list json -> outcome (list json)
}.

(** [this.browseUrl] *)
Definition browseUrl : string := "https://oyitsm.cj.net/jira/browse".

Section Shapes.
Context `{Builtins} `{HtmlToText} `{Engine}.

(** [htmlToText(html)], src/mcp/jira/index.js:46-142, for whatever value
    [fields.description] holds. *)
Definition htmlToText (html : value) : outcome string :=
  match html with
  | Some (JStr s) => Normalizer.htmlToText s
  | Some other =>
      if truthy html then
        get text <- convert_value "jira" other;
        Ret (Normalizer.summarize (Normalizer.cleaned text))
      else Ret EmptyString
  | None => Ret EmptyString
  end.

(** [htmlToText(html)] of the legacy adapter, part_000:64-124. *)
Definition htmlToTextLegacy (html : value) : outcome string :=
  match html with
  | Some (JStr s) => Normalizer.htmlToTextLegacy s
  | Some other =>
      if truthy html then
        get text <- convert_value "jira-legacy" other;
        Ret (Normalizer.summarize (Normalizer.cleanedLegacy text))
      else Ret EmptyString
  | None => Ret EmptyString
  end.

(** [v > 0] *)
Definition positive (v : value) : bool :=
  match v with
  | None => false
  | Some JNull => false
  | Some (JBool b) => b
  | Some (JNum n) => 0 <? n
  | Some (JStr s) => string_positive s
  | Some (JArr items) => string_positive (toStr (JArr items))
  | Some (JObj _) => false
  end.

(** The statement
    [if (fields.labels && fields.labels.length > 0)
       simplified.labels = fields.labels.slice(0, 5)],
    as the property it adds.  A string and an array have [length] and
    [slice]; a decoded object may have a property [length], and has no
    [slice]. *)
Definition labelsOf (labels : value) : outcome (list (string * json)) :=
  if truthy labels then
    match labels with
    | Some (JStr s) => Ret [("labels", JStr (String.substring 0 5 s))]
    | Some (JArr []) => Ret []
    | Some (JArr items) => Ret [("labels", JArr (firstn 5 items))]
    | Some (JObj fields) =>
        if positive (own_property fields "length")
        then Throw "fields.labels.slice is not a function"
        else Ret []
    | _ => Ret []
    end
  else Ret [].

(** The callback of the [map] over [fields.issuelinks]. *)
Definition linkedIssue (link : json) : outcome json :=
  get inwardIssue <- prop (Some link) "inwardIssue";
  get outwardIssue <- prop (Some link) "outwardIssue";
  get type <- prop (Some link) "type";
  Ret (JObj (Jira.field "key"
               (or_else (optional inwardIssue "key") (optional outwardIssue "key"))
             ++ Jira.field "summary"
                  (or_else (optional (optional inwardIssue "fields") "summary")
                           (optional (optional outwardIssue "fields") "summary"))
             ++ Jira.field "relationship" (optional type "name"))).

(** [(fields.issuelinks || []).map(...).filter(link => link.key).slice(0, 3)] *)
Definition linkedIssues (issuelinks : value) : outcome (list json) :=
  get links <- array_map "(fields.issuelinks || [])" linkedIssue
                 (or_else issuelinks (Some (JArr [])));
  Ret (firstn 3 (List.filter (fun link => truthy (optional (Some link) "key")) links)).

(** A date of the issue, [v ? new Date(v).toLocaleDateString('ko-KR') : '']. *)
Definition dateOf (v : value) : json :=
  match v with
  | Some j => if truthy v then JStr (toLocaleDateString j) else JStr EmptyString
  | None => JStr EmptyString
  end.

Section Issue.
(** The [htmlToText] of the class the method stands in. *)
Variable toText : value -> outcome string.

(** [simplifyIssue(issue)], src/mcp/jira/index.js:145-186 and
    part_000:127-168.  A property whose value is [undefined] is left
    out, as [JSON.stringify] leaves it out. *)
Definition simplifyIssue (issue : json) : outcome json :=
  get key <- Jira.destructure "issue" issue "key";
  get fields <- Jira.destructure "issue" issue "fields";
  get summary <- prop fields "summary";
  get description <- prop fields "description";
  get text <- toText description;
  get status <- prop fields "status";
  get priority <- prop fields "priority";
  get issuetype <- prop fields "issuetype";
  get assignee <- prop fields "assignee";
  get reporter <- prop fields "reporter";
  get created <- prop fields "created";
  get updated <- prop fields "updated";
  get resolution <- prop fields "resolution";
  get labels <- prop fields "labels";
  get labelled <- labelsOf labels;
  get issuelinks <- prop fields "issuelinks";
  get linked <- linkedIssues issuelinks;
  Ret (JObj (Jira.field "key" key
             ++ [("summary", or_default summary (JStr EmptyString));
                 ("description", JStr (if nonempty text then text else "설명 없음"));
                 ("status", or_default (optional status "name") (JStr "상태 없음"));
                 ("priority", or_default (optional priority "name") (JStr "우선순위 없음"));
                 ("issueType", or_default (optional issuetype "name") (JStr "타입 없음"));
                 ("assignee", or_default (optional assignee "displayName") (JStr "미할당"));
                 ("reporter", or_default (optional reporter "displayName") (JStr "작성자 불명"));
                 ("created", dateOf created);
                 ("updated", dateOf updated);
                 ("link", JStr (browseUrl +:+ "/" +:+ interpolate key))]
             ++ (if truthy (optional resolution "name")
                 then Jira.field "resolution" (optional resolution "name") else [])
             ++ labelled
             ++ match linked with
                | [] => []
                | _ :: _ => [("linkedIssues", JArr linked)]
                end)).

End Issue.

(** The callback of the [map] of [getProjects]. *)
Definition project (p : json) : outcome json :=
  get key <- prop (Some p) "key";
  get name <- prop (Some p) "name";
  get projectTypeKey <- prop (Some p) "projectTypeKey";
  get projectCategory <- prop (Some p) "projectCategory";
  Ret (JObj (Jira.field "key" key ++ Jira.field "name" name
             ++ Jira.field "projectType" projectTypeKey
             ++ [("category", or_default (optional projectCategory "name")
                                (JStr "카테고리 없음"))])).

(** What [getProjects] makes of the answer, src/mcp/jira/index.js:279-292. *)
Definition projects (result : json) : outcome json :=
  get projects <-
    match result with
    | JArr _ => Ret (Some result)
    | _ => get values <- prop (Some result) "values";
           Ret (or_else values (Some (JArr [])))
    end;
  get simplifiedProjects <- array_map "projects" project projects;
  Ret (JObj [("summary", JStr ("총 " +:+ decimal (Z.of_nat (List.length simplifiedProjects))
                               +:+ "개의 프로젝트"));
             ("projects", JArr simplifiedProjects)]).

(** The callback of the [map] of [getIssueTypes]. *)
Definition issueType (type : json) : outcome json :=
  get id <- prop (Some type) "id";
  get name <- prop (Some type) "name";
  get description <- prop (Some type) "description";
  get subtask <- prop (Some type) "subtask";
  Ret (JObj (Jira.field "id" id ++ Jira.field "name" name
             ++ [("description", or_default description (JStr EmptyString));
                 ("subtask", or_default subtask (JBool false))])).

(** What [getIssueTypes] makes of the answer, src/mcp/jira/index.js:374-386. *)
Definition issueTypes (projectKey : value) (result : json) : outcome json :=
  get simplifiedTypes <-
    match result with
    | JArr _ => get types <- array_map "result" issueType (Some result); Ret (JArr types)
    | _ => Ret result
    end;
  get statusCode <- match result with
                    | JArr _ => Ret undefined
                    | _ => prop (Some result) "statusCode"
                    end;
  Ret (JObj ([("summary",
               JStr (if truthy projectKey
                     then interpolate projectKey +:+ " 프로젝트의 이슈 타입"
                     else "전체 이슈 타입"));
              ("issueTypes", simplifiedTypes)]
             ++ Jira.field "statusCode" statusCode)).

(** The callback of the [map] of [getFixVersions]. *)
Definition version (v : json) : outcome json :=
  get id <- prop (Some v) "id";
  get name <- prop (Some v) "name";
  get description <- prop (Some v) "description";
  get released <- prop (Some v) "released";
  get archived <- prop (Some v) "archived";
  get releaseDate <- prop (Some v) "releaseDate";
  get startDate <- prop (Some v) "startDate";
  Ret (JObj (Jira.field "id" id ++ Jira.field "name" name
             ++ [("description", or_default description (JStr EmptyString));
                 ("released", or_default released (JBool false));
                 ("archived", or_default archived (JBool false));
                 ("releaseDate", or_default releaseDate JNull);
                 ("startDate", or_default startDate JNull)])).

(** What [getFixVersions] makes of the answer, src/mcp/jira/index.js:472-486. *)
Definition fixVersions (projectKey : value) (result : json) : outcome json :=
  get mapped <- array_map "result" version (Some result);
  get versions <- sort_by_name mapped;
  Ret (JObj ([("versions", JArr versions);
              ("total", JNum (Z.of_nat (List.length versions)))]
             ++ Jira.field "projectKey" projectKey)).

(** The callback of the [map] of [getComponents]. *)
Definition component (c : json) : outcome json :=
  get id <- prop (Some c) "id";
  get name <- prop (Some c) "name";
  get description <- prop (Some c) "description";
  get lead <- prop (Some c) "lead";
  get assigneeType <- prop (Some c) "assigneeType";
  get isAssigneeTypeValid <- prop (Some c) "isAssigneeTypeValid";
  Ret (JObj (Jira.field "id" id ++ Jira.field "name" name
             ++ [("description", or_default description (JStr EmptyString));
                 ("lead",
                   if truthy lead
                   then JObj (Jira.field "displayName" (optional lead "displayName")
                              ++ Jira.field "accountId" (optional lead "accountId"))
                   else JNull);
                 ("assigneeType", or_default assigneeType (JStr "PROJECT_DEFAULT"));
                 ("isAssigneeTypeValid", or_default isAssigneeTypeValid (JBool false))])).

(** What [getComponents] makes of the answer, src/mcp/jira/index.js:498-514. *)
Definition components (projectKey : value) (result : json) : outcome json :=
  get mapped <- array_map "result" component (Some result);
  get sorted <- sort_by_name mapped;
  Ret (JObj ([("components", JArr sorted);
              ("total", JNum (Z.of_nat (List.length sorted)))]
             ++ Jira.field "projectKey" projectKey)).

(** The shaping of the methods written out above, by the name under
    which the adapter asks for it; [others] shapes the rest. *)
Definition shape_of (toText : value -> outcome string) (others : Shaping)
    (method : string) (args : list value) (result : json) : outcome json :=
  if String.eqb method "getProjects" then projects result
  else if String.eqb method "simplifyIssue" then simplifyIssue toText result
  else if String.eqb method "getIssueTypes" then issueTypes (nth 0 args undefined) result
  else if String.eqb method "getFixVersions" then fixVersions (nth 0 args undefined) result
  else if String.eqb method "getComponents" then components (nth 0 args undefined) result
  else @shape others method args result.

(** The shaping of src/mcp/jira/index.js and that of part_000. *)
Definition shaping (others : Shaping) : Shaping :=
  {| shape := shape_of htmlToText others |}.

Definition shapingLegacy (others : Shaping) : Shaping :=
  {| shape := shape_of htmlToTextLegacy others |}.

End Shapes.
End JiraShapes.

(** ** Payload shaping of the Confluence adapter, written out *)

Module ConfluenceShapes.
Import JsString Json Runtime Library JsValue.

(** The [options] of [optimizeResponse]. *)
Record Options : Type := MkOptions {
  fields : list string;
  includeBody : bool
}.

(** [{ fields: ["id", "title", "type", "status"], includeBody: false }],
    which every caller but [getPage] passes, and the options of
    [getPage]. *)
Definition listed : Options := MkOptions ["id"; "title"; "type"; "status"] false.
Definition withBody : Options := MkOptions ["id"; "title"; "type"; "status"] true.

Section Shapes.
Context `{HtmlToText} `{Engine}.

(** [cleanHtmlToText(html)], part_001:244-261, for whatever value it is
    given: a truthy value that is no string has no [replace], which
    [preprocessHtml] calls first, in the [try] block and again in the
    [catch] block. *)
Definition cleanHtmlToText (html : value) : outcome string :=
  match html with
  | Some (JStr s) => Normalizer.cleanHtmlToText s
  | _ => if truthy html then Throw "html.replace is not a function" else Ret EmptyString
  end.

(** [fields.forEach(field => { if (data[field] !== undefined)
    optimized[field] = data[field]; })], from an empty [optimized]. *)
Definition picked (fields : list string) (members : list (string * json))
    : list (string * json) :=
  fold_left (fun optimized field =>
               match own_property members field with
               | Some v => assign optimized field v
               | None => optimized
               end) fields [].

(** The object assigned to [optimized.version]. *)
Definition versionOf (version : value) : json :=
  let by_ := optional version "by" in
  let when := optional version "when" in
  JObj (Jira.field "number" (optional version "number")
        ++ (if truthy by_
            then [("by", JObj (Jira.field "displayName" (optional by_ "displayName")
                               ++ Jira.field "username"
                                    (or_else (optional by_ "username")
                                             (optional by_ "userKey"))))]
            else [])
        ++ (if truthy when then Jira.field "when" when else [])).

(** [optimizeResponse(data, options)], part_001:264-321. *)
Fixpoint optimizeResponse (options : Options) (data : json) : outcome json :=
  match data with
  | JArr items =>
      get optimized <-
        (fix each (l : list json) : outcome (list json) :=
           match l with
           | [] => Ret []
           | item :: l' =>
               match optimizeResponse options item with
               | Throw e => Throw e
               | Ret y =>
                   match each l' with
                   | Throw e => Throw e
                   | Ret ys => Ret (y :: ys)
                   end
               end
           end) items;
      Ret (JArr optimized)
  | JObj members =>
      let optimized := picked (fields options) members in
      let originalHtml := optional (optional (own_property members "body") "storage") "value" in
      get optimized <-
        (if includeBody options && truthy originalHtml then
           get content <- cleanHtmlToText originalHtml;
           Ret (assign optimized "body"
                  (JObj ([("content", JStr content)]
                         ++ Jira.field "originalLength" (length_of originalHtml))))
         else Ret optimized);
      let version := own_property members "version" in
      let optimized :=
        if truthy version then assign optimized "version" (versionOf version)
        else optimized in
      let webui := optional (own_property members "_links") "webui" in
      let optimized :=
        match webui with
        | Some link => if truthy webui then assign optimized "webui" link else optimized
        | None => optimized
        end in
      Ret (JObj optimized)
  | _ => Ret data
  end.

(** The callback of the [map] of [getSpacesCompact], part_001:404-410. *)
Definition compactSpace (space : json) : outcome json :=
  get key <- prop (Some space) "key";
  get name <- prop (Some space) "name";
  get type <- prop (Some space) "type";
  get status <- prop (Some space) "status";
  get links <- prop (Some space) "_links";
  Ret (JObj (Jira.field "key" key ++ Jira.field "name" name ++ Jira.field "type" type
             ++ Jira.field "status" status ++ Jira.field "webui" (optional links "webui"))).

(** The callback of the [map] of [getPageComments], part_001:763-776. *)
Definition compactComment (comment : json) : outcome json :=
  get id <- prop (Some comment) "id";
  get title <- prop (Some comment) "title";
  get body <- prop (Some comment) "body";
  get history <- prop (Some comment) "history";
  let storage := optional body "storage" in
  get text <- (if truthy storage then cleanHtmlToText (optional storage "value")
               else Ret EmptyString);
  let createdBy := optional history "createdBy" in
  Ret (JObj (Jira.field "id" id ++ Jira.field "title" title
             ++ [("body", JStr text);
                 ("author",
                   if truthy createdBy
                   then JObj (Jira.field "displayName" (optional createdBy "displayName")
                              ++ Jira.field "username" (optional createdBy "username"))
                   else JNull)]
             ++ Jira.field "created" (optional history "createdDate"))).

(** The object that the listing methods return,
    [{ results: result.results || [], size: result.size || 0,
       limit: result.limit || limit }]. *)
Definition paged (result : json) (limit : json) : outcome json :=
  get results <- prop (Some result) "results";
  get size <- prop (Some result) "size";
  get limit' <- prop (Some result) "limit";
  Ret (JObj [("results", or_default results (JArr []));
             ("size", or_default size (JNum 0));
             ("limit", or_default limit' limit)]).

End Shapes.
End ConfluenceShapes.

(** ** Confluence methods that write to the object the cache holds *)

Module ConfluenceShared.
Import JsString Json Runtime Library JsValue ConfluenceShapes.

Section Adapter.
Context `{Host} `{Remote} `{HtmlToText} `{Engine}.

(** The statement
    [if (result.results) result.results = result.results.map(f)]
    on the [result] that [makeRequest] returned for a GET of [endpoint].
    That object is the one [makeRequest] stored in the cache, or the one
    it found there: the assignment shows in the entry, whose timestamp
    stays.  Only an object has a truthy [results]. *)
Definition remap (endpoint : string) (f : json -> outcome json) (result : json) : M json :=
  do results <- lift (prop (Some result) "results");
  if truthy results then
    do mapped <- lift (array_map "result.results" f results);
    match result with
    | JObj members =>
        let result' := JObj (assign members "results" (JArr mapped)) in
        fun w =>
          (Ret result',
           MkWorld (alter (fun entry => MkEntry result' (timestamp entry))
                          (Observe.keyOf endpoint) (cache w))
                   (now w) (calls w) (stdout w))
    | _ => ret result
    end
  else ret result.

(** [getSpacesCompact(limit = 25)], part_001:399-421. *)
Definition getSpacesCompact (limit : value) : M json :=
  let limit := default_to (JNum 25) limit in
  let endpoint := "/space?limit=" +:+ toStr limit in
  do result <- Confluence.GET endpoint;
  do result <- remap endpoint compactSpace result;
  lift (paged result limit).

(** [getChildPagesCompact(pageId, limit = 10)], part_001:438-461. *)
Definition getChildPagesCompact (pageId limit : value) : M json :=
  let limit := default_to (JNum 10) limit in
  let endpoint := "/content/" +:+ interpolate pageId +:+ "/child/page?limit="
                  +:+ toStr limit in
  do result <- Confluence.GET endpoint;
  do result <- remap endpoint (optimizeResponse listed) result;
  lift (paged result limit).

(** [getPageComments(pageId, limit = 25)], part_001:756-787. *)
Definition getPageComments (pageId limit : value) : M json :=
  let limit := default_to (JNum 25) limit in
  let endpoint := "/content/" +:+ interpolate pageId +:+ "/child/comment?limit="
                  +:+ toStr limit in
  do result <- Confluence.GET endpoint;
  do result <- remap endpoint compactComment result;
  lift (paged result limit).

(** [getPage(pageId)], part_001:424-436: nothing is assigned to the
    answer. *)
Definition getPage (pageId : value) : M json :=
  do result <- Confluence.GET ("/content/" +:+ interpolate pageId
                               +:+ "?expand=body.storage,version");
  lift (optimizeResponse withBody result).

End Adapter.
End ConfluenceShared.

(** ** What the properties of the adapters speak of *)

Module Expect.
Import JsString Json Runtime.

(** The path [Jira.makeRequest] asks the backend for: the endpoint, with
    the field list appended when one is given and the endpoint names
    none. *)
Definition fullEndpoint `{Host} (endpoint : string) (fields : option string) : string :=
  match fields with
  | Some f =>
      if nonempty f && negb (includes endpoint "fields=") then
        endpoint +:+ (if includes endpoint "?" then "&" else "?") +:+ "fields="
        +:+ encodeURIComponent f
      else endpoint
  | None => endpoint
  end.

(** White space in [s] is the single space and never comes twice in a
    row. *)
Fixpoint loose (s : string) : bool :=
  match s with
  | EmptyString => true
  | String c s' =>
      (negb (is_whitespace c)
       || (Ascii.eqb c " " && negb (Normalizer.starts_with_whitespace s')))
      && loose s'
  end.

Fixpoint ends_with_whitespace (s : string) : bool :=
  match s with
  | EmptyString => false
  | String c EmptyString => is_whitespace c
  | String _ s' => ends_with_whitespace s'
  end.

(** Text on one line: no line break and no tab, words parted by single
    spaces, no white space first or last. *)
Definition one_line (s : string) : bool :=
  loose s && negb (Normalizer.starts_with_whitespace s) && negb (ends_with_whitespace s).

(** [m] makes at most [n] calls to the backend, whatever the state it
    starts from. *)
Definition at_most {A} (n : nat) (m : M A) : Prop :=
  forall w, exists requests,
    calls (snd (m w)) = calls w ++ requests /\ (List.length requests <= n)%nat.

End Expect.

(** ** Requests, answers and stand-ins for further examples *)

Module Fixtures.
Import JsString Json Runtime Library JsValue Stub.

(** Built-ins that answer every question the same way. *)
Definition builtins : JiraShapes.Builtins :=
  {| JiraShapes.toLocaleDateString := fun _ => "2024. 1. 1.";
     JiraShapes.string_positive := fun _ => false;
     JiraShapes.convert_value := fun _ _ => Ret EmptyString;
     JiraShapes.sort_by_name := fun items => Ret items |}.

(** An HTML library that hands the document back as its text. *)
Definition plain : HtmlToText := library (fun html => Ret html).

Definition call_get_fix_versions : string * json :=
  (line "{`jsonrpc`:`2.0`,`id`:5,`method`:`tools/call`,`params`:{`name`:`get_fix_versions`,`arguments`:{`projectKey`:`OPS`}}}",
   call (JNum 5) "get_fix_versions" (JObj [("projectKey", JStr "OPS")])).

Definition call_get_issue_ops : string * json :=
  (line "{`jsonrpc`:`2.0`,`id`:6,`method`:`tools/call`,`params`:{`name`:`get_issue`,`arguments`:{`issueKey`:`OPS-1`}}}",
   call (JNum 6) "get_issue" (JObj [("issueKey", JStr "OPS-1")])).

Definition call_delete_page : string * json :=
  (line "{`jsonrpc`:`2.0`,`id`:8,`method`:`tools/call`,`params`:{`name`:`delete_page`,`arguments`:{`pageId`:`42`}}}",
   call (JNum 8) "delete_page" (JObj [("pageId", JStr "42")])).

(** Answers of the backend. *)
Definition project_list : string * json :=
  (line "[{`key`:`OPS`,`name`:`Operations`}]",
   JArr [JObj [("key", JStr "OPS"); ("name", JStr "Operations")]]).

Definition space_list : string * json :=
  (line "{`results`:[{`key`:`OPS`,`name`:`Operations`,`_links`:{`webui`:`/display/OPS`}}],`size`:1}",
   JObj [("results",
          JArr [JObj [("key", JStr "OPS"); ("name", JStr "Operations");
                      ("_links", JObj [("webui", JStr "/display/OPS")])]]);
         ("size", JNum 1)]).

Definition comment_list : string * json :=
  (line "{`results`:[{`id`:`7`,`title`:`Re: plan`,`body`:{`storage`:{`value`:`fine by me`}},`history`:{`createdBy`:{`displayName`:`Kim`},`createdDate`:`2024-01-01`}}],`size`:1}",
   JObj [("results",
          JArr [JObj [("id", JStr "7"); ("title", JStr "Re: plan");
                      ("body", JObj [("storage", JObj [("value", JStr "fine by me")])]);
                      ("history", JObj [("createdBy", JObj [("displayName", JStr "Kim")]);
                                        ("createdDate", JStr "2024-01-01")])]]);
         ("size", JNum 1)]).

(** An issue with seven labels and four links, one of them without a
    key. *)
Definition busy_issue : json :=
  let linked key := JObj [("inwardIssue", JObj [("key", JStr key)])] in
  JObj [("key", JStr "OPS-1");
        ("fields",
         JObj [("summary", JStr "Rotate the keys");
               ("labels", JArr [JStr "a"; JStr "b"; JStr "c"; JStr "d"; JStr "e";
                                JStr "f"; JStr "g"]);
               ("issuelinks", JArr [linked "OPS-2"; JObj []; linked "OPS-3";
                                    linked "OPS-4"; linked "OPS-5"])])].

(** A request whose method is a number. *)
Definition numeric_method : string * json :=
  (line "{`jsonrpc`:`2.0`,`id`:1,`method`:5}",
   JObj [("jsonrpc", JStr "2.0"); ("id", JNum 1); ("method", JNum 5)]).

Definition table : list (string * json) :=
  Stub.table ++ [call_get_fix_versions; call_get_issue_ops; call_delete_page;
                 project_list; space_list; comment_list; numeric_method].

Definition H : Host := host table.

End Fixtures.

(** * Theorems *)

Module FramerFacts.
Import JsString Framer.

Lemma append_cons (x : ascii) (a b : string) : String x a +:+ b = String x (a +:+ b).
Proof. reflexivity. Qed.

Lemma append_nil (b : string) : EmptyString +:+ b = b.
Proof. reflexivity. Qed.

Lemma append_assoc (a b c : string) : (a +:+ b) +:+ c = a +:+ (b +:+ c).
Proof.
  induction a as [|x a IH]; [reflexivity|].
  rewrite !append_cons. f_equal. exact IH.
Qed.

Lemma append_empty_r (a : string) : a +:+ EmptyString = a.
Proof.
  induction a as [|x a IH]; [reflexivity|].
  rewrite append_cons. f_equal. exact IH.
Qed.

Lemma last_cons_default {A} (l : list A) (x d : A) :
  List.last (x :: l) d = List.last l x.
Proof.
  revert x d. induction l as [|y l IH]; intros x d; [reflexivity|].
  change (List.last (x :: y :: l) d) with (List.last (y :: l) d).
  change (List.last (y :: l) x) with (List.last (y :: l) x).
  rewrite !IH. reflexivity.
Qed.

Lemma last_app_cons {A} (l l' : list A) (x d : A) :
  List.last (l ++ x :: l') d = List.last l' x.
Proof.
  revert d. induction l as [|y l IH]; intros d.
  - apply last_cons_default.
  - change ((y :: l) ++ x :: l') with (y :: (l ++ x :: l')).
    rewrite last_cons_default. apply IH.
Qed.

Lemma removelast_cons_nonempty {A} (x : A) (l : list A) :
  l <> [] -> removelast (x :: l) = x :: removelast l.
Proof. destruct l; [congruence | reflexivity]. Qed.

(** The pieces before the last one, and the last one. *)
Definition init_pieces (s : string) : list string :=
  let (h, t) := split_pieces s in removelast (h :: t).

Definition last_piece (s : string) : string :=
  let (h, t) := split_pieces s in List.last t h.

Lemma pop_spec {A} (x : A) (l : list A) :
  pop (x :: l) = (Some (List.last l x), removelast (x :: l)).
Proof.
  revert x. induction l as [|y l IH]; intros x; [reflexivity|].
  change (pop (x :: y :: l)) with (let (last, init) := pop (y :: l) in (last, x :: init)).
  rewrite IH, last_cons_default. reflexivity.
Qed.

Lemma or_empty_some (s : string) : or_empty (Some s) = s.
Proof. destruct s; reflexivity. Qed.

Lemma onData_pieces (buffer data : string) :
  onData buffer data =
  (List.filter (fun line => negb (blank line)) (init_pieces (buffer +:+ data)),
   last_piece (buffer +:+ data)).
Proof.
  unfold onData, split_newline, init_pieces, last_piece.
  destruct (split_pieces (buffer +:+ data)) as [h t].
  rewrite pop_spec, or_empty_some. reflexivity.
Qed.

Lemma split_pieces_cons (c : ascii) (s : string) :
  split_pieces (String c s) =
  let (h, t) := split_pieces s in
  if Ascii.eqb c newline then (EmptyString, h :: t) else (String c h, t).
Proof. reflexivity. Qed.

Lemma split_pieces_app (x y : string) :
  split_pieces (x +:+ y) =
  let (h, t) := split_pieces x in
  let (h', t') := split_pieces (List.last t h +:+ y) in
  match t with
  | [] => (h', t')
  | _ :: _ => (h, removelast t ++ h' :: t')
  end.
Proof.
  induction x as [|c x IH].
  - rewrite append_nil. cbn. rewrite append_nil. destruct (split_pieces y); reflexivity.
  - rewrite append_cons, !split_pieces_cons, IH.
    destruct (split_pieces x) as [h t].
    destruct (Ascii.eqb c newline) eqn:E.
    + rewrite last_cons_default.
      destruct (split_pieces (List.last t h +:+ y)) as [h' t'].
      destruct t; reflexivity.
    + destruct t as [|p t].
      * cbn [List.last]. rewrite append_cons, split_pieces_cons, E.
        destruct (split_pieces (h +:+ y)) as [h' t']. reflexivity.
      * rewrite !last_cons_default.
        destruct (split_pieces (List.last t p +:+ y)) as [h' t']. reflexivity.
Qed.

Lemma init_pieces_app (x y : string) :
  init_pieces (x +:+ y) = init_pieces x ++ init_pieces (last_piece x +:+ y).
Proof.
  unfold init_pieces, last_piece. rewrite split_pieces_app.
  destruct (split_pieces x) as [h t].
  destruct (split_pieces (List.last t h +:+ y)) as [h' t'].
  destruct t as [|p t]; [reflexivity|].
  rewrite (removelast_cons_nonempty h (removelast (p :: t) ++ h' :: t'))
    by (destruct (removelast (p :: t)); discriminate).
  rewrite removelast_app by discriminate.
  reflexivity.
Qed.

Lemma last_piece_app (x y : string) :
  last_piece (x +:+ y) = last_piece (last_piece x +:+ y).
Proof.
  unfold last_piece. rewrite split_pieces_app.
  destruct (split_pieces x) as [h t].
  destruct (split_pieces (List.last t h +:+ y)) as [h' t'].
  destruct t as [|p t]; [reflexivity|].
  rewrite last_app_cons. reflexivity.
Qed.

(** Feeding chunks one by one frames the stream as feeding it whole. *)
Lemma split_pieces_newline_free (s : string) :
  newline_free s = true -> split_pieces s = (s, []).
Proof.
  induction s as [|c s IH]; [reflexivity|].
  cbn [newline_free]. intros [Hc Hs]%andb_prop.
  rewrite split_pieces_cons, (IH Hs).
  destruct (Ascii.eqb c newline); [discriminate | reflexivity].
Qed.

Lemma split_pieces_line (m rest : string) :
  newline_free m = true ->
  split_pieces (m +:+ String newline rest) =
  (m, let (h, t) := split_pieces rest in h :: t).
Proof.
  induction m as [|c m IH]; intros Hm.
  - rewrite append_nil, split_pieces_cons.
    destruct (split_pieces rest). reflexivity.
  - cbn [newline_free] in Hm. apply andb_prop in Hm as [Hc Hm].
    rewrite append_cons, split_pieces_cons, (IH Hm).
    destruct (Ascii.eqb c newline); [discriminate | reflexivity].
Qed.

(** The pieces of a stream of whole lines followed by a fragment. *)
Lemma pieces_of_wire (msgs : list string) (tail : string) :
  forallb newline_free msgs = true -> newline_free tail = true ->
  init_pieces (wire msgs +:+ tail) = msgs /\ last_piece (wire msgs +:+ tail) = tail.
Proof.
  intros Hmsgs Htail. unfold init_pieces, last_piece.
  induction msgs as [|m ms IH].
  - cbn [wire]. rewrite append_nil, (split_pieces_newline_free _ Htail). split; reflexivity.
  - cbn [forallb] in Hmsgs. apply andb_prop in Hmsgs as [Hm Hms].
    specialize (IH Hms).
    cbn [wire]. rewrite append_assoc, append_cons, (split_pieces_line _ _ Hm).
    destruct (split_pieces (wire ms +:+ tail)) as [h t].
    destruct IH as [IH1 IH2]. split.
    + rewrite removelast_cons_nonempty by discriminate. now rewrite IH1.
    + rewrite last_cons_default. exact IH2.
Qed.

Lemma pieces_newline_free (s : string) :
  newline_free (fst (split_pieces s)) = true /\
  forallb newline_free (snd (split_pieces s)) = true.
Proof.
  induction s as [|c s [IHh IHt]]; [split; reflexivity|].
  rewrite split_pieces_cons. destruct (split_pieces s) as [h t]. cbn [fst snd] in *.
  destruct (Ascii.eqb c newline) eqn:E; cbn [fst snd forallb newline_free].
  - rewrite IHh, IHt. split; reflexivity.
  - rewrite E, IHh, IHt. split; reflexivity.
Qed.

Lemma last_newline_free (t : list string) (h : string) :
  newline_free h = true -> forallb newline_free t = true ->
  newline_free (List.last t h) = true.
Proof.
  revert h. induction t as [|p t IH]; intros h Hh Ht; [exact Hh|].
  cbn [forallb] in Ht. apply andb_prop in Ht as [Hp Ht].
  rewrite last_cons_default. now apply IH.
Qed.

(** What the handler leaves in the buffer holds no line feed. *)
Lemma last_piece_newline_free (s : string) : newline_free (last_piece s) = true.
Proof.
  unfold last_piece. destruct (pieces_newline_free s) as [Hh Ht].
  destruct (split_pieces s) as [h t]. now apply last_newline_free.
Qed.

(** Feeding chunks one by one frames the stream as feeding it whole. *)
Lemma feed_glue (chunks : list string) (buffer : string) :
  newline_free buffer = true ->
  feed buffer chunks =
  (List.filter (fun line => negb (blank line)) (init_pieces (buffer +:+ glue chunks)),
   last_piece (buffer +:+ glue chunks)).
Proof.
  revert buffer. induction chunks as [|data rest IH]; intros buffer Hb.
  - cbn [feed glue]. rewrite append_empty_r.
    unfold init_pieces, last_piece. rewrite (split_pieces_newline_free _ Hb). reflexivity.
  - cbn [feed glue]. rewrite onData_pieces.
    rewrite (IH _ (last_piece_newline_free _)).
    rewrite <- (append_assoc buffer data (glue rest)).
    rewrite (init_pieces_app (buffer +:+ data)), (last_piece_app (buffer +:+ data)).
    rewrite List.filter_app.
    reflexivity.
Qed.

(** The buffered handler hands every non-blank source line to the decoder,
    once, in order and unchanged, however the stream was cut into chunks,
    and keeps the fragment after the last line feed in the buffer. *)
Theorem buffered_framer_reassembles_lines (msgs chunks : list string) (tail : string) :
  forallb newline_free msgs = true ->
  newline_free tail = true ->
  glue chunks = wire msgs +:+ tail ->
  feed EmptyString chunks = (List.filter (fun line => negb (blank line)) msgs, tail).
Proof.
  intros Hmsgs Htail Hglue.
  rewrite feed_glue by reflexivity.
  rewrite append_nil, Hglue.
  destruct (pieces_of_wire msgs tail Hmsgs Htail) as [-> ->]. reflexivity.
Qed.

End FramerFacts.

Module MonadFacts.
Import Json Runtime Observe.

Lemma quiet_ret {A} (a : A) : quiet (ret a).
Proof. intros w. reflexivity. Qed.

Lemma quiet_throw {A} (e : string) : quiet (@throw A e).
Proof. intros w. reflexivity. Qed.

Lemma quiet_lift {A} (o : outcome A) : quiet (lift o).
Proof. intros w. reflexivity. Qed.

Lemma quiet_bind {A B} (m : M A) (k : A -> M B) :
  quiet m -> (forall a, quiet (k a)) -> quiet (bind m k).
Proof.
  intros Hm Hk w. unfold bind. specialize (Hm w).
  destruct (m w) as [[a|e] w']; cbn [snd] in *.
  - rewrite (Hk a w'). exact Hm.
  - exact Hm.
Qed.

Lemma quiet_try_catch {A} (m : M A) (handler : string -> M A) :
  quiet m -> (forall e, quiet (handler e)) -> quiet (try_catch m handler).
Proof.
  intros Hm Hh w. unfold try_catch. specialize (Hm w).
  destruct (m w) as [[a|e] w']; cbn [snd] in *.
  - exact Hm.
  - rewrite (Hh e w'). exact Hm.
Qed.

Lemma quiet_https `{Remote} (r : HttpRequest) : quiet (https_request r).
Proof. intros w. reflexivity. Qed.

End MonadFacts.

Ltac quiet_step :=
  first
    [ apply MonadFacts.quiet_ret
    | apply MonadFacts.quiet_throw
    | apply MonadFacts.quiet_lift
    | apply MonadFacts.quiet_https
    | apply MonadFacts.quiet_bind; [| intros ?]
    | apply MonadFacts.quiet_try_catch; [| intros ?]
    | match goal with
      | |- Observe.quiet (if ?b then _ else _) => destruct b
      | |- Observe.quiet (match ?x with _ => _ end) => destruct x
      | |- Observe.quiet (let (_, _) := ?x in _) => destruct x
      end ].

Ltac solve_quiet := repeat quiet_step.

Module JiraFacts.
Import JsString Json Runtime Registry Observe Jira.

Section Adapter.
Context `{Host} `{Remote} `{Shaping}.

Lemma jira_makeRequest_quiet endpoint method body fields :
  quiet (makeRequest endpoint method body fields).
Proof. unfold makeRequest. solve_quiet. Qed.

Lemma jira_callTool_quiet name args : quiet (callTool name args).
Proof.
  unfold callTool, require, arg, getProjects, getIssue, searchIssues, createIssue,
    updateIssue, getIssueTypes, addComment, getCurrentUser, getLabels, getFixVersions,
    getComponents.
  solve_quiet; apply jira_makeRequest_quiet.
Qed.

Lemma jira_handleRequest_quiet request : quiet (handleRequest request).
Proof.
  unfold handleRequest, handleToolCall. solve_quiet. apply jira_callTool_quiet.
Qed.

End Adapter.
End JiraFacts.

Module JiraTheorems.
Import JsString Json Runtime Registry Observe Jira JiraFacts.

Section Adapter.
Context `{Host} `{Remote} `{Shaping}.

(** What [processLine] does with a decoded request. *)
Lemma jira_processLine_decoded line request id w :
  JSON_parse line = Parsed request ->
  prop (Some request) "id" = Ret id ->
  processLine line w =
  match handleRequest request w with
  | (Ret response, w') =>
      (Ret tt, wrote (MkReply (or_else id (Some JNull)) (Result response)) w')
  | (Throw message, w') =>
      (Ret tt, wrote (error_reply (or_else id (Some JNull)) message) w')
  end.
Proof.
  intros Hparse Hid. unfold processLine. rewrite Hparse, Hid.
  unfold try_catch, bind. destruct (handleRequest request w) as [[response|message] w'];
    reflexivity.
Qed.

Lemma jira_processLine_failure line request id message w w' :
  JSON_parse line = Parsed request ->
  prop (Some request) "id" = Ret id ->
  handleRequest request w = (Throw message, w') ->
  processLine line w = (Ret tt, wrote (error_reply (or_else id (Some JNull)) message) w').
Proof.
  intros Hparse Hid Hrun. rewrite (jira_processLine_decoded line request id w Hparse Hid), Hrun.
  reflexivity.
Qed.

Lemma jira_processLine_success line request id response w w' :
  JSON_parse line = Parsed request ->
  prop (Some request) "id" = Ret id ->
  handleRequest request w = (Ret response, w') ->
  processLine line w =
  (Ret tt, wrote (MkReply (or_else id (Some JNull)) (Result response)) w').
Proof.
  intros Hparse Hid Hrun. rewrite (jira_processLine_decoded line request id w Hparse Hid), Hrun.
  reflexivity.
Qed.

(** Every candidate line is answered by exactly one reply. *)
Lemma jira_one_reply_per_line line w :
  exists r, processLine line w = (Ret tt, snd (processLine line w)) /\
            writes (processLine line) w [r].
Proof.
  unfold writes.
  destruct (JSON_parse line) as [request|message] eqn:Hparse.
  - destruct (prop (Some request) "id") as [id|message] eqn:Hid.
    + rewrite (jira_processLine_decoded _ _ _ _ Hparse Hid).
      pose proof (jira_handleRequest_quiet request w) as Hq.
      destruct (handleRequest request w) as [[response|message] w']; cbn [snd] in *;
        eexists; (split; [reflexivity|]); cbn [wrote stdout]; rewrite Hq; reflexivity.
    + unfold processLine. rewrite Hparse, Hid. eexists. split; reflexivity.
  - unfold processLine. rewrite Hparse. eexists. split; reflexivity.
Qed.


Lemma not_a_notification_method (m : string) :
  startsWith m "notifications/" = true \/ m = "initialized" ->
  String.eqb m "initialize" = false /\ String.eqb m "tools/list" = false /\
  String.eqb m "tools/call" = false.
Proof.
  intros Hm. repeat split.
  all: match goal with |- String.eqb ?x ?l = false =>
         destruct (String.eqb_spec x l) as [->|]; [|reflexivity] end.
  all: destruct Hm as [Hm|Hm]; discriminate Hm.
Qed.

(** A request whose method the dispatcher does not know. *)
Lemma jira_handleRequest_unknown_method fields method w :
  own_property fields "method" = method ->
  (method === "initialize") = false ->
  (method === "tools/list") = false ->
  (method === "tools/call") = false ->
  handleRequest (JObj fields) w = (Throw ("Unknown method: " +:+ interpolate method), w).
Proof.
  intros <- Ha Hb Hc. unfold handleRequest, bind, lift. cbn [destructure].
  rewrite Ha, Hb, Hc. reflexivity.
Qed.

Lemma classify_unknown_method (text : string) :
  classify ("Unknown method: " +:+ text) = (-32601, "Method not found").
Proof. reflexivity. Qed.

(** C2, on the Jira dispatcher.  It answers a notification: a message
    whose method is in the notification namespace, or is the
    acknowledgment of the handshake, gets an error reply like any other
    unknown method. *)
Theorem jira_answers_notifications line fields method w :
  JSON_parse line = Parsed (JObj fields) ->
  own_property fields "method" = Some (JStr method) ->
  startsWith method "notifications/" = true \/ method = "initialized" ->
  writes (processLine line) w
    [MkReply (or_else (own_property fields "id") (Some JNull))
       (Error (-32601) "Method not found" (Some ("Unknown method: " +:+ method)))] /\
  makes (processLine line) w [].
Proof.
  intros Hparse Hmethod Hnote.
  destruct (not_a_notification_method method Hnote) as (Ha & Hb & Hc).
  unfold writes, makes.
  rewrite (jira_processLine_failure line (JObj fields) _ _ w w Hparse eq_refl
             (jira_handleRequest_unknown_method fields (Some (JStr method)) w Hmethod Ha Hb Hc)).
  unfold error_reply. cbn [interpolate toStr]. rewrite classify_unknown_method.
  cbn [snd wrote stdout calls]. rewrite app_nil_r. split; reflexivity.
Qed.




Lemma jira_handleToolCall_failure pfields message w w' :
  callTool (own_property pfields "name")
    (default_to (JObj []) (own_property pfields "arguments")) w = (Throw message, w') ->
  handleToolCall (JObj pfields) w = (Throw ("Tool execution failed: " +:+ message), w').
Proof.
  intros Hcall. unfold handleToolCall, bind, lift, try_catch. cbn [destructure].
  rewrite Hcall. reflexivity.
Qed.

Lemma jira_handleRequest_tools_call fields params w :
  own_property fields "method" = Some (JStr "tools/call") ->
  own_property fields "params" = Some params ->
  handleRequest (JObj fields) w = handleToolCall params w.
Proof.
  intros Hm Hp. unfold handleRequest, bind, lift. cbn [destructure].
  rewrite Hm, Hp. reflexivity.
Qed.


Lemma some_missing_true args keys k v :
  In k keys -> prop (Some args) k = Ret v -> truthy v = false ->
  some_missing args keys = Ret true.
Proof.
  intros Hin Hprop Hfalsy.
  assert (forall k', exists v', prop (Some args) k' = Ret v') as Hread.
  { intros k'. destruct args; try (eexists; reflexivity). discriminate Hprop. }
  induction keys as [|a keys IH]; [destruct Hin|].
  cbn [some_missing]. destruct (Hread a) as [va Ha]. rewrite Ha.
  destruct (truthy va) eqn:Hva; [|reflexivity].
  apply IH. destruct Hin as [->|Hin]; [|exact Hin]. congruence.
Qed.

Lemma guarded_missing {A} args keys message (k : unit -> M A) key v w :
  In key keys -> prop (Some args) key = Ret v -> truthy v = false ->
  bind (require args keys message) k w = (Throw message, w).
Proof.
  intros Hin Hprop Hfalsy. unfold bind, require.
  rewrite (some_missing_true args keys key v Hin Hprop Hfalsy). reflexivity.
Qed.

(** A call that lacks a required argument is refused before any backend
    call is made. *)
Lemma callTool_missing_argument tool key args v w :
  In tool registry -> In key (required tool) ->
  prop (Some args) key = Ret v -> truthy v = false ->
  exists message,
    callTool (Some (JStr (name tool))) args w = (Throw message, w) /\
    classify ("Tool execution failed: " +:+ message) = (-32602, "Invalid params").
Proof.
  intros Htool Hkey Hprop Hfalsy.
  unfold registry in Htool. cbn [In] in Htool.
  repeat (destruct Htool as [<-|Htool]; [cbn [required In] in Hkey|]);
    try contradiction.
  all: eexists; split;
    [ apply (guarded_missing args _ _ _ key v w);
      [ cbn [In]; tauto | exact Hprop | exact Hfalsy ]
    | reflexivity ].
Qed.

(** Jira: a call that leaves out an argument its tool requires (or gives
    it a falsy value) is answered by one "invalid params" reply, and no
    backend call is made for it. *)
Theorem jira_rejects_missing_argument line fields pfields tool key v w :
  JSON_parse line = Parsed (JObj fields) ->
  own_property fields "method" = Some (JStr "tools/call") ->
  own_property fields "params" = Some (JObj pfields) ->
  In tool registry ->
  own_property pfields "name" = Some (JStr (name tool)) ->
  In key (required tool) ->
  prop (Some (default_to (JObj []) (own_property pfields "arguments"))) key = Ret v ->
  truthy v = false ->
  exists detail,
    writes (processLine line) w
      [MkReply (or_else (own_property fields "id") (Some JNull))
         (Error (-32602) "Invalid params" (Some detail))] /\
    makes (processLine line) w [].
Proof.
  intros Hparse Hmethod Hparams Htool Hname Hkey Hprop Hfalsy.
  destruct (callTool_missing_argument tool key _ v w Htool Hkey Hprop Hfalsy)
    as (message & Hcall & Hclass).
  exists ("Tool execution failed: " +:+ message).
  rewrite <- Hname in Hcall. apply jira_handleToolCall_failure in Hcall.
  rewrite <- (jira_handleRequest_tools_call fields (JObj pfields) w Hmethod Hparams) in Hcall.
  unfold writes, makes.
  rewrite (jira_processLine_failure line (JObj fields) _ _ w w Hparse eq_refl Hcall).
  unfold error_reply. rewrite Hclass.
  cbn [snd wrote stdout calls]. rewrite app_nil_r. split; reflexivity.
Qed.


(** Jira: a line that does not decode is answered by one parse-error
    reply with a null id, and the loop goes on with the lines after it. *)
Theorem jira_answers_undecodable_line line rest message w :
  JSON_parse line = SyntaxError message ->
  processLine line w =
    (Ret tt, wrote (MkReply (Some JNull) (Error (-32700) "Parse error" (Some message))) w) /\
  processLines (line :: rest) w =
    processLines rest
      (wrote (MkReply (Some JNull) (Error (-32700) "Parse error" (Some message))) w).
Proof.
  intros Hparse.
  assert (processLine line w =
          (Ret tt, wrote (MkReply (Some JNull) (Error (-32700) "Parse error" (Some message))) w))
    as Hline.
  { unfold processLine. rewrite Hparse. reflexivity. }
  split; [exact Hline|].
  cbn [processLines]. unfold bind. rewrite Hline. reflexivity.
Qed.

End Adapter.
End JiraTheorems.

Module ConfluenceFacts.
Import JsString Json Runtime Registry Library Observe Confluence.

Section Adapter.
Context `{Host} `{Remote} `{Shaping} `{Engine}.

Lemma confluence_getFromCache_quiet key : quiet (getFromCache key).
Proof.
  intros w. unfold getFromCache.
  destruct (cache w !! key) as [cached|]; [|reflexivity].
  destruct (now w - timestamp cached <? cacheTimeout); reflexivity.
Qed.

Lemma confluence_setToCache_quiet key d : quiet (setToCache key d).
Proof. intros w. reflexivity. Qed.

Lemma confluence_makeRequest_quiet endpoint method body : quiet (makeRequest endpoint method body).
Proof.
  unfold makeRequest.
  repeat first [ apply confluence_getFromCache_quiet | apply confluence_setToCache_quiet | quiet_step ].
Qed.

Ltac cf_quiet :=
  repeat first
    [ apply confluence_makeRequest_quiet | apply confluence_getFromCache_quiet | apply confluence_setToCache_quiet
    | quiet_step ].

Lemma confluence_searchPagesSimple_quiet query limit : quiet (searchPagesSimple query limit).
Proof. unfold searchPagesSimple, GET. cf_quiet. Qed.

Lemma confluence_searchPagesCompact_quiet query limit : quiet (searchPagesCompact query limit).
Proof.
  unfold searchPagesCompact, cqlSearch, GET.
  repeat first [ apply confluence_searchPagesSimple_quiet | cf_quiet ].
Qed.

Lemma confluence_advancedSearch_quiet query limit : quiet (advancedSearch query limit).
Proof.
  unfold advancedSearch, spaceAndTitle, searchBySpaceAndTitle, GET.
  repeat first [ apply confluence_searchPagesSimple_quiet | apply confluence_searchPagesCompact_quiet | cf_quiet ].
Qed.

Lemma confluence_callTool_quiet name args : quiet (callTool name args).
Proof.
  unfold callTool, Jira.arg, getSpacesCompact, getPage, getChildPagesCompact, createPage,
    updatePage, deletePage, getPageHistory, getPageComments, addPageComment, getSpacePages,
    getPageLabels, addPageLabel, getPageAttachments, getRecentPages, getMyPages,
    getPagesByLabel, getPageTemplates, getSpaceDetails, getCurrentUser, GET.
  repeat first
    [ apply confluence_advancedSearch_quiet | apply confluence_searchPagesCompact_quiet | cf_quiet ].
Qed.

Lemma confluence_handleRequest_quiet request : quiet (handleRequest request).
Proof.
  unfold handleRequest, handleToolCall.
  repeat first [ apply confluence_callTool_quiet | cf_quiet ].
Qed.

End Adapter.
End ConfluenceFacts.

Module CacheTheorems.
Import JsString Json Runtime Registry Library Observe Confluence ConfluenceFacts.

Section Adapter.
Context `{Host} `{Remote} `{Shaping} `{Engine}.

(** The world once [key] was evicted. *)
Lemma getFromCache_fresh key e w :
  cache w !! key = Some e ->
  now w - timestamp e < cacheTimeout ->
  getFromCache key w = (Ret (data e), w).
Proof.
  intros Hlook Hage. unfold getFromCache. rewrite Hlook.
  destruct (Z.ltb_spec (now w - timestamp e) cacheTimeout); [reflexivity | lia].
Qed.

Lemma getFromCache_stale key w :
  (forall e, cache w !! key = Some e -> cacheTimeout <= now w - timestamp e) ->
  getFromCache key w =
  (Ret JNull, MkWorld (delete key (cache w)) (now w) (calls w) (stdout w)).
Proof.
  intros Hstale. unfold getFromCache.
  destruct (cache w !! key) as [e|] eqn:Hlook; [|reflexivity].
  specialize (Hstale e eq_refl).
  destruct (Z.ltb_spec (now w - timestamp e) cacheTimeout); [lia | reflexivity].
Qed.

Lemma makeRequest_hit endpoint e w :
  cache w !! keyOf endpoint = Some e ->
  now w - timestamp e < cacheTimeout ->
  truthy (Some (data e)) = true ->
  makeRequest endpoint "GET" JNull w = (Ret (data e), w).
Proof.
  intros Hlook Hage Htruthy. unfold makeRequest, bind. cbn [String.eqb Ascii.eqb Bool.eqb].
  fold (keyOf endpoint). rewrite (getFromCache_fresh _ e w Hlook Hage), Htruthy. reflexivity.
Qed.

Lemma makeRequest_miss endpoint w :
  (forall e, cache w !! keyOf endpoint = Some e -> cacheTimeout <= now w - timestamp e) ->
  let request := MkRequest "GET" endpoint JNull in
  let w0 := MkWorld (delete (keyOf endpoint) (cache w)) (now w) (calls w) (stdout w) in
  let w1 := MkWorld (cache w0) (now w + elapsed (calls w) request)
                    (calls w ++ [request]) (stdout w) in
  makeRequest endpoint "GET" JNull w =
  match serve (calls w) request with
  | NetworkError message => (Throw ("Request failed: " +:+ message), w1)
  | Response status d =>
      if 400 <=? status then
        (Throw ("Confluence API Error: " +:+ decimal status +:+ " - " +:+ d), w1)
      else
        match JSON_parse d with
        | Parsed result =>
            (Ret result,
             MkWorld (<[keyOf endpoint := MkEntry result (now w1)]> (cache w1))
                     (now w1) (calls w1) (stdout w1))
        | SyntaxError message => (Throw ("Failed to parse response: " +:+ message), w1)
        end
  end.
Proof.
  intros Hstale request w0 w1. unfold makeRequest, bind. cbn [String.eqb Ascii.eqb Bool.eqb].
  fold (keyOf endpoint). rewrite (getFromCache_stale _ w Hstale). cbn [truthy].
  unfold https_request. cbn [calls now cache stdout]. fold request.
  destruct (serve (calls w) request) as [message|status d]; [reflexivity|].
  destruct (400 <=? status); [reflexivity|].
  destruct (JSON_parse d) as [result|message]; reflexivity.
Qed.


Lemma makeRequest_miss_calls endpoint w :
  (forall e, cache w !! keyOf endpoint = Some e -> cacheTimeout <= now w - timestamp e) ->
  makes (makeRequest endpoint "GET" JNull) w [MkRequest "GET" endpoint JNull].
Proof.
  intros Hstale. unfold makes. rewrite (makeRequest_miss endpoint w Hstale).
  destruct (serve _ _) as [message|status d]; [reflexivity|].
  destruct (400 <=? status); [reflexivity|].
  destruct (JSON_parse d); reflexivity.
Qed.

(** C5 (as amended).  A lookup returns the stored value exactly when the
    key has an entry younger than the TTL, and otherwise returns null and
    leaves the key without entry.  Hence, once a GET that had to go to
    the backend was answered with a status below 400 and a body that
    decodes to a truthy value, the same GET is answered from the cache,
    with no backend call, as long as the entry is younger than the TTL,
    and goes to the backend again once it is not. *)
Theorem cache_saves_repeated_reads endpoint w status d result :
  let request := MkRequest "GET" endpoint JNull in
  let first := makeRequest endpoint "GET" JNull w in
  (forall e, cache w !! keyOf endpoint = Some e -> cacheTimeout <= now w - timestamp e) ->
  serve (calls w) request = Response status d ->
  status < 400 ->
  JSON_parse d = Parsed result ->
  truthy (Some result) = true ->
  (forall key w',
      (forall e, cache w' !! key = Some e -> now w' - timestamp e < cacheTimeout ->
                 getFromCache key w' = (Ret (data e), w')) /\
      ((forall e, cache w' !! key = Some e -> cacheTimeout <= now w' - timestamp e) ->
       fst (getFromCache key w') = Ret JNull /\
       cache (snd (getFromCache key w')) !! key = None)) /\
  fst first = Ret result /\
  makes (makeRequest endpoint "GET" JNull) w [request] /\
  (forall w2,
      cache w2 !! keyOf endpoint = cache (snd first) !! keyOf endpoint ->
      now w2 - now (snd first) < cacheTimeout ->
      makeRequest endpoint "GET" JNull w2 = (Ret result, w2)) /\
  (forall w2,
      cache w2 !! keyOf endpoint = cache (snd first) !! keyOf endpoint ->
      cacheTimeout <= now w2 - now (snd first) ->
      makes (makeRequest endpoint "GET" JNull) w2 [request]).
Proof.
  intros request first Hstale Hserve Hstatus Hparse Htruthy.
  assert (first =
          (Ret result,
           MkWorld (<[keyOf endpoint :=
                        MkEntry result (now w + elapsed (calls w) request)]>
                      (delete (keyOf endpoint) (cache w)))
                   (now w + elapsed (calls w) request) (calls w ++ [request]) (stdout w)))
    as Hfirst.
  { unfold first. rewrite (makeRequest_miss endpoint w Hstale). fold request.
    rewrite Hserve. destruct (Z.leb_spec 400 status); [lia|]. rewrite Hparse. reflexivity. }
  split; [|split; [|split; [|split]]].
  - intros key w'. split.
    + intros e. apply getFromCache_fresh.
    + intros Hold. rewrite (getFromCache_stale key w' Hold). cbn [fst snd cache].
      split; [reflexivity | apply lookup_delete_eq].
  - rewrite Hfirst. reflexivity.
  - apply makeRequest_miss_calls, Hstale.
  - intros w2 Hsame Hage. rewrite Hfirst in Hsame, Hage. cbn [snd cache now] in Hsame, Hage.
    rewrite lookup_insert_eq in Hsame.
    apply (makeRequest_hit endpoint _ w2 Hsame); [exact Hage | exact Htruthy].
  - intros w2 Hsame Hage. rewrite Hfirst in Hsame, Hage. cbn [snd cache now] in Hsame, Hage.
    rewrite lookup_insert_eq in Hsame.
    apply makeRequest_miss_calls. intros e He. rewrite Hsame in He.
    injection He as <-. exact Hage.
Qed.

End Adapter.
End CacheTheorems.

Module ConfluenceTheorems.
Import JsString Json Runtime Registry Library Observe Confluence ConfluenceFacts CacheTheorems.

Section Adapter.
Context `{Host} `{Remote} `{Shaping} `{Engine}.

Lemma confluence_processLine_decoded line fields w :
  JSON_parse line = Parsed (JObj fields) ->
  isNotification (own_property fields "method") = Ret false ->
  let requestId := requestIdOf (own_property fields "id") in
  processLine line w =
  match handleRequest (JObj fields) w with
  | (Ret response, w') =>
      (Ret tt, MkWorld (cache w') (now w') (calls w')
                       (stdout w' ++ result_reply requestId response))
  | (Throw message, w') => (Ret tt, wrote (error_reply (Some requestId) message) w')
  end.
Proof.
  intros Hparse Hnote requestId. unfold processLine. rewrite Hparse. cbn [prop].
  unfold bind at 1. unfold lift at 1. unfold bind at 1. unfold lift at 1. rewrite Hnote.
  unfold try_catch, bind.
  destruct (handleRequest (JObj fields) w) as [[response|message] w']; [|reflexivity].
  fold requestId. destruct w'. destruct requestId; cbn [result_reply stdout cache now calls];
    rewrite ?app_nil_r; reflexivity.
Qed.

(** A message whose method is in the notification namespace, or is the
    acknowledgment of the handshake, is dropped: no reply, no call. *)
Lemma confluence_drops_notifications line fields method w :
  JSON_parse line = Parsed (JObj fields) ->
  own_property fields "method" = Some (JStr method) ->
  startsWith method "notifications/" = true \/ method = "initialized" ->
  processLine line w = (Ret tt, w).
Proof.
  intros Hparse Hmethod Hnote. unfold processLine. rewrite Hparse. cbn [prop].
  unfold bind at 1. unfold lift at 1. unfold bind at 1. unfold lift at 1. rewrite Hmethod.
  assert (isNotification (Some (JStr method)) = Ret true) as ->; [|reflexivity].
  unfold isNotification. cbn [truthy string_receiver].
  destruct Hnote as [Hnote| ->]; [|reflexivity].
  destruct method as [|c method]; [discriminate Hnote|]. cbn [nonempty].
  rewrite Hnote. reflexivity.
Qed.

Lemma error_reply_id requestId message : id (error_reply requestId message) = requestId.
Proof. unfold error_reply. destruct (classify message). reflexivity. Qed.

(** A request that carries an id other than null, and is no
    notification, is answered by exactly one reply, under that id. *)
Lemma confluence_one_reply_per_request line fields requestId w :
  JSON_parse line = Parsed (JObj fields) ->
  isNotification (own_property fields "method") = Ret false ->
  own_property fields "id" = Some requestId ->
  requestId <> JNull ->
  exists p, writes (processLine line) w [MkReply (Some requestId) p].
Proof.
  intros Hparse Hnote Hid Hnonnull. unfold writes.
  rewrite (confluence_processLine_decoded line fields w Hparse Hnote), Hid. cbn [requestIdOf].
  pose proof (confluence_handleRequest_quiet (JObj fields) w) as Hq.
  destruct (handleRequest (JObj fields) w) as [[response|message] w']; cbn [snd] in *.
  - exists (Result response). destruct requestId; try contradiction;
      cbn [result_reply stdout]; rewrite Hq; reflexivity.
  - exists (payload (error_reply (Some requestId) message)).
    cbn [wrote stdout]. rewrite Hq. f_equal. f_equal.
    pose proof (error_reply_id (Some requestId) message) as Hrid.
    destruct (error_reply (Some requestId) message) as [i p]. cbn in *. now subst.
Qed.

(** A message without id whose handling throws is answered all the same:
    the [catch] block writes its reply without looking at the id. *)
Lemma confluence_answers_failed_notification line fields w :
  JSON_parse line = Parsed (JObj fields) ->
  own_property fields "id" = None ->
  let method := own_property fields "method" in
  isNotification method = Ret false ->
  (method === "initialize") = false ->
  (method === "tools/list") = false ->
  (method === "tools/call") = false ->
  writes (processLine line) w
    [MkReply (Some JNull)
       (Error (-32601) "Method not found" (Some ("Unknown method: " +:+ interpolate method)))].
Proof.
  intros Hparse Hid method Hnote Ha Hb Hc. unfold writes.
  rewrite (confluence_processLine_decoded line fields w Hparse Hnote), Hid. cbn [requestIdOf].
  assert (handleRequest (JObj fields) w =
          (Throw ("Unknown method: " +:+ interpolate method), w)) as ->.
  { unfold handleRequest, bind, lift. cbn [Jira.destructure]. fold method.
    rewrite Ha, Hb, Hc. reflexivity. }
  reflexivity.
Qed.


(** [handleToolCall] turns whatever the tool throws into a result. *)
Lemma confluence_handleToolCall_returns pfields w :
  exists response,
    handleToolCall (JObj pfields) w =
    (Ret response,
     snd (callTool (own_property pfields "name")
            (default_to (JObj []) (own_property pfields "arguments")) w)).
Proof.
  unfold handleToolCall, bind, lift, try_catch. cbn [Jira.destructure].
  destruct (callTool _ _ w) as [[result|message] w']; eexists; reflexivity.
Qed.

Lemma confluence_handleRequest_tools_call fields params w :
  own_property fields "method" = Some (JStr "tools/call") ->
  own_property fields "params" = Some params ->
  handleRequest (JObj fields) w = handleToolCall params w.
Proof.
  intros Hm Hp. unfold handleRequest, bind, lift. cbn [Jira.destructure].
  rewrite Hm, Hp. reflexivity.
Qed.

Lemma getPage_calls pageId w :
  let endpoint := "/content/" +:+ interpolate pageId +:+ "?expand=body.storage,version" in
  (forall e, cache w !! keyOf endpoint = Some e -> cacheTimeout <= now w - timestamp e) ->
  makes (getPage pageId) w [MkRequest "GET" endpoint JNull].
Proof.
  intros endpoint Hstale. pose proof (makeRequest_miss_calls endpoint w Hstale) as Hcalls.
  unfold makes in *. unfold getPage, GET, bind. fold endpoint.
  destruct (makeRequest endpoint "GET" JNull w) as [[result|message] w']; exact Hcalls.
Qed.

(** C4, on the Confluence dispatcher.  A call of [get_page] that leaves
    out the page id, which the registry lists as required, goes to the
    backend all the same, for the page "undefined", and is answered, if
    at all, by a result: no error reply is written. *)
Theorem confluence_forwards_call_without_required_argument line fields pfields w :
  let endpoint := "/content/undefined?expand=body.storage,version" in
  JSON_parse line = Parsed (JObj fields) ->
  own_property fields "method" = Some (JStr "tools/call") ->
  own_property fields "params" = Some (JObj pfields) ->
  own_property pfields "name" = Some (JStr "get_page") ->
  prop (Some (default_to (JObj []) (own_property pfields "arguments"))) "pageId" = Ret None ->
  (forall e, cache w !! keyOf endpoint = Some e -> cacheTimeout <= now w - timestamp e) ->
  requires registry "get_page" "pageId" = true /\
  makes (processLine line) w [MkRequest "GET" endpoint JNull] /\
  exists response,
    writes (processLine line) w
      (result_reply (requestIdOf (own_property fields "id")) response).
Proof.
  intros endpoint Hparse Hmethod Hparams Hname Hprop Hstale.
  split; [reflexivity|].
  assert (isNotification (own_property fields "method") = Ret false) as Hnote
    by (rewrite Hmethod; reflexivity).
  destruct (confluence_handleToolCall_returns pfields w) as [response Hcall].
  rewrite Hname in Hcall.
  assert (callTool (Some (JStr "get_page"))
            (default_to (JObj []) (own_property pfields "arguments")) w =
          getPage None w) as Hget.
  { unfold callTool, Jira.arg, bind, lift. cbn [strict_eq String.eqb Ascii.eqb Bool.eqb].
    rewrite Hprop. reflexivity. }
  rewrite Hget in Hcall.
  rewrite <- (confluence_handleRequest_tools_call fields (JObj pfields) w Hmethod Hparams) in Hcall.
  pose proof (getPage_calls None w Hstale) as Hcalls.
  assert (quiet (getPage None)) as Hquiet.
  { unfold getPage, GET. repeat first [apply confluence_makeRequest_quiet | quiet_step]. }
  specialize (Hquiet w). unfold makes, writes in *.
  rewrite (confluence_processLine_decoded line fields w Hparse Hnote), Hcall. cbn [snd calls stdout].
  split; [exact Hcalls|].
  exists response. rewrite Hquiet. reflexivity.
Qed.


Lemma ordinary_method_is_no_notification method :
  ordinary_method method -> isNotification method = Ret false.
Proof.
  unfold isNotification. intros [Hfalsy | (m & -> & Hspace & Hack)].
  - rewrite Hfalsy. reflexivity.
  - cbn [truthy string_receiver]. destruct (nonempty m); [|reflexivity].
    rewrite Hspace. destruct (String.eqb m "initialized") eqn:Heq; [|reflexivity].
    apply String.eqb_eq in Heq. contradiction.
Qed.

(** A method that is neither falsy nor a string ends the handler: the
    test for notifications calls [startsWith] on it, outside every
    [try], and nothing is written. *)
Lemma confluence_stops_on_method_without_startsWith line fields w :
  JSON_parse line = Parsed (JObj fields) ->
  truthy (own_property fields "method") = true ->
  (forall m, own_property fields "method" <> Some (JStr m)) ->
  processLine line w = (Throw "request.method.startsWith is not a function", w).
Proof.
  intros Hparse Htruthy Hother. unfold processLine. rewrite Hparse. cbn [prop].
  unfold bind at 1. unfold lift at 1. unfold bind at 1. unfold lift at 1.
  unfold isNotification. rewrite Htruthy.
  destruct (own_property fields "method") as [[| b | n | s | items | members]|];
    try discriminate Htruthy; try reflexivity.
  exfalso. exact (Hother s eq_refl).
Qed.

(** Confluence, by the method of the message.  A message whose method is
    in the notification namespace, or is the acknowledgment of the
    handshake, gets no reply and causes no call.  A message whose method
    is a truthy value that is no string gets no reply either, whatever
    its id: the test for notifications throws outside every [try] and
    the handler ends there.  Every other message, its method being a
    string outside the namespace or a falsy or missing value, is
    answered by exactly one reply under its id when it carries an id
    other than null; and when it carries no id and its method is
    unknown, it is answered by one -32601 reply with a null id. *)
Theorem confluence_reply_contract line fields w :
  JSON_parse line = Parsed (JObj fields) ->
  let method := own_property fields "method" in
  (forall m, method = Some (JStr m) ->
             startsWith m "notifications/" = true \/ m = "initialized" ->
             processLine line w = (Ret tt, w)) /\
  (truthy method = true -> (forall m, method <> Some (JStr m)) ->
   processLine line w = (Throw "request.method.startsWith is not a function", w)) /\
  (forall requestId,
      ordinary_method method ->
      own_property fields "id" = Some requestId -> requestId <> JNull ->
      exists p, writes (processLine line) w [MkReply (Some requestId) p]) /\
  (ordinary_method method ->
   own_property fields "id" = None ->
   (method === "initialize") = false ->
   (method === "tools/list") = false ->
   (method === "tools/call") = false ->
   writes (processLine line) w
     [MkReply (Some JNull)
        (Error (-32601) "Method not found"
           (Some ("Unknown method: " +:+ interpolate method)))]).
Proof.
  intros Hparse method. split; [|split; [|split]].
  - intros m Hm Hnote.
    exact (confluence_drops_notifications line fields m w Hparse Hm Hnote).
  - intros Htruthy Hother.
    exact (confluence_stops_on_method_without_startsWith line fields w Hparse Htruthy Hother).
  - intros requestId Hordinary Hid Hnonnull.
    exact (confluence_one_reply_per_request line fields requestId w Hparse
             (ordinary_method_is_no_notification _ Hordinary) Hid Hnonnull).
  - intros Hordinary Hid Ha Hb Hc.
    exact (confluence_answers_failed_notification line fields w Hparse Hid
             (ordinary_method_is_no_notification _ Hordinary) Ha Hb Hc).
Qed.

End Adapter.
End ConfluenceTheorems.

Module CorrelationTheorems.
Import JsString Json Runtime Registry Library Observe.

Section Adapter.
Context `{Host} `{Remote} `{Shaping} `{Engine}.

Lemma jira_error_reply_id requestId message :
  id (Jira.error_reply requestId message) = requestId.
Proof. unfold Jira.error_reply. destruct (Jira.classify message). reflexivity. Qed.

(** C10.  Jira answers a request whose id is 0, false, the empty string
    or null under the id null: the id is recovered with
    [request.id || null].  Confluence recovers the id with a test against
    [undefined], which keeps each of these values, and answers a request
    that is no notification under its id when that is not null. *)
Theorem jira_answers_falsy_id_with_null line fields requestId w :
  JSON_parse line = Parsed (JObj fields) ->
  own_property fields "id" = Some requestId ->
  In requestId [JNum 0; JBool false; JStr ""; JNull] ->
  (exists p, writes (Jira.processLine line) w [MkReply (Some JNull) p]) /\
  Confluence.requestIdOf (Some requestId) = requestId /\
  (requestId <> JNull ->
   Confluence.isNotification (own_property fields "method") = Ret false ->
   exists p, writes (Confluence.processLine line) w [MkReply (Some requestId) p]).
Proof.
  intros Hparse Hid Hfalsy.
  assert (or_else (Some requestId) (Some JNull) = Some JNull) as Hnull.
  { cbn [In] in Hfalsy.
    destruct Hfalsy as [<-|[<-|[<-|[<-|[]]]]]; reflexivity. }
  split; [|split; [reflexivity|]].
  - unfold writes.
    rewrite (JiraTheorems.jira_processLine_decoded line (JObj fields) (Some requestId) w Hparse)
      by (cbn [prop]; now rewrite Hid).
    rewrite Hnull.
    pose proof (JiraFacts.jira_handleRequest_quiet (JObj fields) w) as Hq.
    destruct (Jira.handleRequest (JObj fields) w) as [[response|message] w']; cbn [snd] in *.
    + exists (Result response). cbn [wrote stdout]. rewrite Hq. reflexivity.
    + exists (payload (Jira.error_reply (Some JNull) message)).
      cbn [wrote stdout]. rewrite Hq. f_equal. f_equal.
      pose proof (jira_error_reply_id (Some JNull) message) as Hrid.
      destruct (Jira.error_reply (Some JNull) message) as [i p]. cbn in *. now subst.
  - intros Hnonnull Hnote.
    exact (ConfluenceTheorems.confluence_one_reply_per_request
             line fields requestId w Hparse Hnote Hid Hnonnull).
Qed.

End Adapter.
End CorrelationTheorems.

Module SearchTheorems.
Import JsString Json Runtime Registry Library Observe Confluence.

Section Adapter.
Context `{Host} `{Remote} `{Shaping} `{Engine}.

Lemma spaceAndTitle_string q l errors w :
  spaceAndTitle (Some (JStr q)) l errors w =
  if includes (toLowerCase q) "space" then
    match match_groups space_pattern q, match_groups title_pattern q with
    | Some spaceMatch, Some titleMatch =>
        match searchBySpaceAndTitle (group spaceMatch 1) (group titleMatch 1) (Some l) w with
        | (Ret r, w2) => (Ret (Some r, errors), w2)
        | (Throw e2, w2) => (Ret (None, errors ++ ["Space+Title search: " +:+ e2]), w2)
        end
    | _, _ => (Ret (None, errors), w)
    end
  else (Ret (None, errors), w).
Proof.
  unfold spaceAndTitle, bind, lift, try_catch, ret. cbn [string_receiver].
  destruct (includes (toLowerCase q) "space"); [|reflexivity].
  destruct (match_groups space_pattern q); [|reflexivity].
  destruct (match_groups title_pattern q); [|reflexivity].
  destruct (searchBySpaceAndTitle _ _ _ w) as [[r|e2] w2]; reflexivity.
Qed.

Lemma advancedSearch_unfold query limit w :
  let l := default_to (JNum 10) limit in
  advancedSearch query limit w =
  match searchPagesCompact query (Some l) w with
  | (Ret r, w1) => (Ret r, w1)
  | (Throw e, w1) =>
      match spaceAndTitle query l ["CQL search: " +:+ e] w1 with
      | (Ret (Some r, _), w2) => (Ret r, w2)
      | (Ret (None, errors), w2) =>
          match searchPagesSimple query (Some l) w2 with
          | (Ret r, w3) => (Ret r, w3)
          | (Throw e3, w3) =>
              (Throw ("All search methods failed: "
                      +:+ join "; " (errors ++ ["Simple search: " +:+ e3])), w3)
          end
      | (Throw e', w2) => (Throw e', w2)
      end
  end.
Proof.
  intros l. unfold advancedSearch. fold l. unfold bind, try_catch, ret.
  destruct (searchPagesCompact query (Some l) w) as [[r|e] w1]; [reflexivity|].
  destruct (spaceAndTitle query l _ w1) as [[[[r|] errors]|e'] w2]; [reflexivity| |reflexivity].
  destruct (searchPagesSimple query (Some l) w2) as [[r|e3] w3]; reflexivity.
Qed.

(** What the chain makes of a query that is no string: the method that
    only strings have is missing, or the value has no properties. *)
Lemma advancedSearch_without_string (other limit : value) (w : World) :
  (forall s, other <> Some (JStr s)) ->
  exists message,
    string_receiver "query" "toLowerCase" other = Throw message /\
    advancedSearch other limit w = (Throw message, w).
Proof.
  intros Hother.
  destruct other as [[| b | n | s | items | members]|];
    try (exfalso; exact (Hother s eq_refl));
    (eexists; split; [reflexivity|]);
    rewrite advancedSearch_unfold; cbv zeta;
    unfold searchPagesCompact, try_catch, cqlSearch, bind, lift, validateAndOptimizeCQL,
      spaceAndTitle;
    cbn [string_receiver default_to];
    match goal with
    | |- context [includes ?message "500"] =>
        replace (includes message "500") with false by (vm_compute; reflexivity)
    end;
    reflexivity.
Qed.

(** C8 (as amended).  Given a query that is a string, [searchPagesCompact]
    retries with the simple search only when the failure of the CQL
    search holds the text 500, and rethrows any other failure at once; a
    retry that fails rethrows the first failure.  [advancedSearch] then
    goes on to its next method after every failure of the one before,
    whatever the failure is; the first success ends the chain with that
    method's result, and when the last method fails the failures are
    thrown together.  Given a query that is no string, and a missing one
    is such a query, the chain stops after its first method: the test
    that opens the second method throws, outside every [try], and that
    failure is what [advancedSearch] throws, with no call made, no later
    method tried and no list of failures. *)
Theorem search_chain_advances_on_any_failure (q : string) (limit : value) (w : World) :
  let query := Some (JStr q) in
  let l := default_to (JNum 10) limit in
  let third := fun (errors : list string) (w' : World) =>
    match searchPagesSimple query (Some l) w' with
    | (Ret r, w3) => (Ret r, w3)
    | (Throw e3, w3) =>
        (Throw ("All search methods failed: "
                +:+ join "; " (errors ++ ["Simple search: " +:+ e3])), w3)
    end in
  (forall r w1, cqlSearch query l w = (Ret r, w1) ->
                searchPagesCompact query limit w = (Ret r, w1)) /\
  (forall e w1, cqlSearch query l w = (Throw e, w1) -> includes e "500" = false ->
                searchPagesCompact query limit w = (Throw e, w1)) /\
  (forall e w1, cqlSearch query l w = (Throw e, w1) -> includes e "500" = true ->
                searchPagesCompact query limit w =
                match searchPagesSimple query (Some l) w1 with
                | (Ret r, w2) => (Ret r, w2)
                | (Throw _, w2) => (Throw e, w2)
                end) /\
  (forall r w1, searchPagesCompact query (Some l) w = (Ret r, w1) ->
                advancedSearch query limit w = (Ret r, w1)) /\
  (forall e w1, searchPagesCompact query (Some l) w = (Throw e, w1) ->
     let errors := ["CQL search: " +:+ e] in
     advancedSearch query limit w =
     if includes (toLowerCase q) "space" then
       match match_groups space_pattern q, match_groups title_pattern q with
       | Some spaceMatch, Some titleMatch =>
           match searchBySpaceAndTitle (group spaceMatch 1) (group titleMatch 1) (Some l) w1
           with
           | (Ret r, w2) => (Ret r, w2)
           | (Throw e2, w2) => third (errors ++ ["Space+Title search: " +:+ e2]) w2
           end
       | _, _ => third errors w1
       end
     else third errors w1) /\
  (forall other : value,
     (forall s, other <> Some (JStr s)) ->
     exists message,
       string_receiver "query" "toLowerCase" other = Throw message /\
       advancedSearch other limit w = (Throw message, w)).
Proof.
  intros query l third. split; [|split; [|split; [|split; [|split]]]].
  - intros r w1 Hcql. unfold searchPagesCompact, try_catch. fold l. rewrite Hcql. reflexivity.
  - intros e w1 Hcql Hclass. unfold searchPagesCompact, try_catch. fold l.
    rewrite Hcql, Hclass. reflexivity.
  - intros e w1 Hcql Hclass. unfold searchPagesCompact, try_catch. fold l.
    rewrite Hcql, Hclass. destruct (searchPagesSimple query (Some l) w1) as [[r|e'] w2];
      reflexivity.
  - intros r w1 Hfirst. rewrite advancedSearch_unfold. fold l. rewrite Hfirst. reflexivity.
  - intros e w1 Hfirst errors. rewrite advancedSearch_unfold. fold l. rewrite Hfirst.
    unfold query at 1. rewrite spaceAndTitle_string. fold errors. subst third. cbn beta.
    destruct (includes (toLowerCase q) "space"); [|reflexivity].
    destruct (match_groups space_pattern q); [|reflexivity].
    destruct (match_groups title_pattern q); [|reflexivity].
    destruct (searchBySpaceAndTitle _ _ _ w1) as [[r|e2] w2]; reflexivity.
  - intros other Hother. exact (advancedSearch_without_string other limit w Hother).
Qed.

End Adapter.
End SearchTheorems.

Module NormalizerFacts.
Import JsString Json Library Normalizer FramerFacts.

Lemma length_append (a b : string) :
  String.length (a +:+ b) = (String.length a + String.length b)%nat.
Proof.
  induction a as [|c a IH]; [reflexivity|].
  rewrite append_cons. cbn [String.length]. now rewrite IH.
Qed.

Lemma length_trimStart (s : string) : (String.length (trimStart s) <= String.length s)%nat.
Proof.
  induction s as [|c s IH]; [reflexivity|].
  cbn [trimStart]. destruct (is_whitespace c); cbn [String.length]; lia.
Qed.

Lemma length_trimEnd (s : string) : (String.length (trimEnd s) <= String.length s)%nat.
Proof.
  induction s as [|c s IH]; [reflexivity|].
  cbn [trimEnd]. destruct (trimEnd s) as [|d t].
  - destruct (is_whitespace c); cbn [String.length] in *; lia.
  - cbn [String.length] in *; lia.
Qed.

Lemma length_trim (s : string) : (String.length (trim s) <= String.length s)%nat.
Proof.
  unfold trim. pose proof (length_trimEnd (trimStart s)). pose proof (length_trimStart s). lia.
Qed.

(** The summary never grows past the inner cap by more than the two
    characters that close its last sentence. *)
Lemma accumulate_bound (sentences : list string) (summary : string) :
  (String.length summary <= 402)%nat ->
  (String.length (accumulate sentences summary) <= 402)%nat.
Proof.
  revert summary. induction sentences as [|sentence rest IH]; intros summary Hs; [exact Hs|].
  cbn [accumulate].
  destruct (Nat.ltb_spec 400 (String.length (summary +:+ sentence))) as [|Hfit]; [exact Hs|].
  apply IH. destruct (nonempty (trim sentence)); [|exact Hs].
  rewrite length_append in Hfit. rewrite !length_append.
  pose proof (length_trim sentence). cbn [String.length]. lia.
Qed.

(** The loop, as the sentences it took. *)
Lemma accumulate_rendered (sentences : list string) (summary : string) :
  exists k : nat,
    (k <= List.length sentences)%nat /\
    accumulate sentences summary = summary +:+ rendered (firstn k sentences) /\
    (forall j, (j < k)%nat ->
       (String.length (summary +:+ rendered (firstn j sentences)
                       +:+ nth j sentences EmptyString) <= 400)%nat) /\
    ((k < List.length sentences)%nat ->
       (400 < String.length (summary +:+ rendered (firstn k sentences)
                             +:+ nth k sentences EmptyString))%nat).
Proof.
  revert summary. induction sentences as [|sentence rest IH]; intros summary.
  - exists 0%nat. cbn. rewrite append_empty_r. repeat split; intros; lia.
  - cbn [accumulate].
    destruct (Nat.ltb_spec 400 (String.length (summary +:+ sentence))) as [Hover|Hfit].
    + exists 0%nat. cbn [firstn rendered nth List.length]. rewrite append_nil, append_empty_r.
      repeat split; intros; lia.
    + set (piece := if nonempty (trim sentence) then trim sentence +:+ ". " else EmptyString).
      assert ((if nonempty (trim sentence) then summary +:+ trim sentence +:+ ". "
               else summary) = summary +:+ piece) as ->.
      { unfold piece. destruct (nonempty (trim sentence)); [reflexivity|].
        now rewrite append_empty_r. }
      destruct (IH (summary +:+ piece)) as (k & Hk & Hacc & Hbefore & Hstop).
      exists (S k). cbn [firstn rendered nth List.length]. fold piece.
      repeat split.
      * lia.
      * rewrite Hacc. now rewrite append_assoc.
      * intros [|j] Hj.
        -- cbn [firstn rendered nth]. rewrite append_nil. exact Hfit.
        -- cbn [firstn rendered nth]. fold piece.
           specialize (Hbefore j ltac:(lia)).
           now rewrite !append_assoc in *.
      * intros Hlt. specialize (Hstop ltac:(lia)). now rewrite !append_assoc in *.
Qed.


Lemma weave_cons (c : ascii) (h : string) (t boundaries : list string) :
  weave (String c h) t boundaries = String c (weave h t boundaries).
Proof. destruct t, boundaries; reflexivity. Qed.

(** The pieces of [split_sentences] are the text between sentence
    boundaries: put back around the boundaries they give the text. *)
Lemma split_go_weave (s : string) (skipping : bool) :
  exists (spaces : string) (boundaries : list string),
    all_whitespace spaces = true /\
    (skipping = false -> spaces = EmptyString) /\
    (skipping = true -> starts_with_whitespace s = true -> nonempty spaces = true) /\
    List.length boundaries = List.length (snd (split_go skipping s)) /\
    forallb is_boundary boundaries = true /\
    s = spaces +:+ weave (fst (split_go skipping s)) (snd (split_go skipping s)) boundaries.
Proof.
  revert skipping. induction s as [|c s IH]; intros skipping.
  - exists EmptyString, []. cbn. repeat split; congruence.
  - cbn [split_go].
    destruct (skipping && is_whitespace c) eqn:Eskip.
    + apply andb_prop in Eskip as [-> Hc].
      destruct (IH true) as (spaces & boundaries & Hws & _ & _ & Hlen & Hb & Hs).
      exists (String c spaces), boundaries. cbn [all_whitespace nonempty].
      rewrite Hc, Hws. repeat split; try congruence.
      rewrite append_cons. now f_equal.
    + assert (skipping = true -> is_whitespace c = false) as Hnot.
      { intros ->. exact Eskip. }
      destruct (is_terminator c && starts_with_whitespace s) eqn:Eterm.
      * apply andb_prop in Eterm as [Hterm Hstart].
        destruct (IH true) as (spaces & boundaries & Hws & _ & Hne & Hlen & Hb & Hs).
        specialize (Hne eq_refl Hstart).
        destruct (split_go true s) as [h t]. cbn [fst snd] in *.
        exists EmptyString, (String c spaces :: boundaries).
        cbn [all_whitespace forallb is_boundary List.length weave starts_with_whitespace].
        rewrite Hterm, Hne, Hws, Hb, Hlen. repeat split.
        -- intros Hsk Hc. rewrite (Hnot Hsk) in Hc. discriminate.
        -- rewrite !append_nil, append_cons. now f_equal.
      * destruct (IH false) as (spaces & boundaries & _ & Hnil & _ & Hlen & Hb & Hs).
        specialize (Hnil eq_refl). subst spaces. rewrite append_nil in Hs.
        destruct (split_go false s) as [h t]. cbn [fst snd] in *.
        exists EmptyString, boundaries. cbn [all_whitespace starts_with_whitespace].
        repeat split; try assumption.
        -- intros Hsk Hc. rewrite (Hnot Hsk) in Hc. discriminate.
        -- rewrite append_nil, weave_cons. now f_equal.
Qed.

Lemma split_sentences_weave (s : string) :
  exists boundaries : list string,
    List.length (split_sentences s) = S (List.length boundaries) /\
    forallb is_boundary boundaries = true /\
    s = weave (hd EmptyString (split_sentences s)) (tl (split_sentences s)) boundaries.
Proof.
  destruct (split_go_weave s false) as (spaces & boundaries & _ & Hnil & _ & Hlen & Hb & Hs).
  specialize (Hnil eq_refl). subst spaces. rewrite append_nil in Hs.
  unfold split_sentences. destruct (split_go false s) as [h t]. cbn [fst snd hd tl] in *.
  exists boundaries. cbn [List.length]. rewrite Hlen. auto.
Qed.

(** The pattern written out is the one the code splits at. *)
Lemma sentence_mark_spec (c : ascii) : sentence_mark c = is_terminator c.
Proof.
  unfold sentence_mark, is_terminator. cbn [existsb].
  rewrite orb_false_r, orb_assoc. reflexivity.
Qed.

Lemma white_space_spec (c : ascii) : white_space c = is_whitespace c.
Proof. destruct c as [[] [] [] [] [] [] [] []]; reflexivity. Qed.

Lemma starts_white_spec (s : string) : starts_white s = starts_with_whitespace s.
Proof. destruct s; [reflexivity | apply white_space_spec]. Qed.

Lemma all_white_spec (s : string) : all_white s = all_whitespace s.
Proof.
  induction s as [|c s IH]; [reflexivity|].
  cbn [all_white all_whitespace]. rewrite white_space_spec, IH. reflexivity.
Qed.

Lemma boundary_spec (s : string) : boundary s = is_boundary s.
Proof.
  destruct s as [|c spaces]; [reflexivity|].
  cbn [boundary is_boundary]. rewrite sentence_mark_spec, all_white_spec. reflexivity.
Qed.

Lemma boundaries_spec (l : list string) : forallb boundary l = forallb is_boundary l.
Proof.
  induction l as [|b l IH]; [reflexivity|].
  cbn [forallb]. rewrite boundary_spec, IH. reflexivity.
Qed.

Lemma holds_boundary_cons (c : ascii) (s : string) :
  holds_boundary (String c s)
  = (is_terminator c && starts_with_whitespace s) || holds_boundary s.
Proof. cbn [holds_boundary]. rewrite sentence_mark_spec, starts_white_spec. reflexivity. Qed.

Lemma starts_white_all (l : list string) :
  Forall (fun piece => starts_white piece = false) l <->
  Forall (fun piece => starts_with_whitespace piece = false) l.
Proof.
  split; apply List.Forall_impl; intros piece Hpiece;
    [rewrite <- starts_white_spec | rewrite starts_white_spec]; exact Hpiece.
Qed.

Lemma terminator_is_no_whitespace (c : ascii) :
  is_terminator c = true -> is_whitespace c = false.
Proof.
  unfold is_terminator. intros Hc.
  apply orb_true_iff in Hc. destruct Hc as [Hc|Hc]; [apply orb_true_iff in Hc; destruct Hc as [Hc|Hc]|];
    apply Ascii.eqb_eq in Hc; subst c; reflexivity.
Qed.

(** No piece of [split_sentences] holds a boundary, and a piece that
    follows a boundary starts with no white space. *)
Lemma split_go_pieces (s : string) (skipping : bool) :
  holds_boundary (fst (split_go skipping s)) = false /\
  Forall (fun piece => holds_boundary piece = false) (snd (split_go skipping s)) /\
  Forall (fun piece => starts_with_whitespace piece = false) (snd (split_go skipping s)) /\
  (skipping = true -> starts_with_whitespace (fst (split_go skipping s)) = false) /\
  (starts_with_whitespace (fst (split_go skipping s)) = true ->
   starts_with_whitespace s = true).
Proof.
  revert skipping. induction s as [|c s IH]; intros skipping.
  - cbn. repeat split; try constructor; congruence.
  - cbn [split_go].
    destruct (skipping && is_whitespace c) eqn:Eskip.
    + destruct (IH true) as (Hhead & Hnone & Hstarts & Hskipped & _).
      specialize (Hskipped eq_refl).
      split; [exact Hhead|]. split; [exact Hnone|]. split; [exact Hstarts|].
      split; [intros _; exact Hskipped | intros Hstart; congruence].
    + destruct (is_terminator c && starts_with_whitespace s) eqn:Eterm.
      * destruct (IH true) as (Hhead & Hnone & Hstarts & Hskipped & _).
        specialize (Hskipped eq_refl).
        destruct (split_go true s) as [h t]. cbn [fst snd] in *.
        split; [reflexivity|]. split; [constructor; assumption|].
        split; [constructor; assumption|].
        split; [reflexivity | intros Hstart; discriminate Hstart].
      * destruct (IH false) as (Hhead & Hnone & Hstarts & _ & Hfirst).
        destruct (split_go false s) as [h t]. cbn [fst snd] in *.
        split; [|split; [exact Hnone|split; [exact Hstarts|split]]].
        -- rewrite holds_boundary_cons, Hhead, orb_false_r.
           destruct (is_terminator c); [|reflexivity]. cbn [andb] in *.
           destruct (starts_with_whitespace h); [|reflexivity].
           rewrite (Hfirst eq_refl) in Eterm. discriminate Eterm.
        -- intros ->. exact Eskip.
        -- intros Hstart. exact Hstart.
Qed.

Lemma split_sentences_of (text : string) : sentences_of text (split_sentences text).
Proof.
  destruct (split_sentences_weave text) as (boundaries & Hlen & Hb & Hwoven).
  pose proof (split_go_pieces text false) as (Hhead & Hnone & Hstarts & _ & _).
  exists boundaries. rewrite boundaries_spec. unfold split_sentences in *.
  destruct (split_go false text) as [h t]. cbn [fst snd hd tl] in *.
  split; [exact Hlen|]. split; [exact Hb|]. split; [exact Hwoven|].
  split; [constructor; assumption | apply starts_white_all; exact Hstarts].
Qed.

Lemma boundary_shape (b : string) :
  is_boundary b = true ->
  exists (mark : ascii) (spaces : string),
    b = String mark spaces /\ is_terminator mark = true /\
    starts_with_whitespace spaces = true /\ all_whitespace spaces = true.
Proof.
  destruct b as [|mark spaces]; [discriminate|]. cbn [is_boundary].
  intros Hb. apply andb_prop in Hb as [Hb Hall]. apply andb_prop in Hb as [Hmark Hne].
  exists mark, spaces. repeat split; try assumption.
  destruct spaces as [|d spaces]; [discriminate|].
  cbn [all_whitespace] in Hall. apply andb_prop in Hall as [Hd _]. exact Hd.
Qed.

Lemma split_go_skips (spaces rest : string) :
  all_whitespace spaces = true ->
  split_go true (spaces +:+ rest) = split_go true rest.
Proof.
  induction spaces as [|d spaces IH]; [reflexivity|].
  cbn [all_whitespace]. intros Hall. apply andb_prop in Hall as [Hd Hall].
  rewrite append_cons. cbn [split_go]. rewrite Hd. cbn [andb]. exact (IH Hall).
Qed.

Lemma split_go_after_boundary (rest : string) :
  starts_with_whitespace rest = false -> split_go true rest = split_go false rest.
Proof.
  destruct rest as [|c rest]; [reflexivity|].
  cbn [starts_with_whitespace split_go]. intros ->. reflexivity.
Qed.

Lemma starts_append (a b : string) :
  starts_with_whitespace (a +:+ b)
  = if nonempty a then starts_with_whitespace a else starts_with_whitespace b.
Proof. destruct a; [rewrite append_nil|rewrite append_cons]; reflexivity. Qed.

Lemma weave_starts (first : string) (later boundaries : list string) :
  forallb is_boundary boundaries = true ->
  starts_with_whitespace first = false ->
  starts_with_whitespace (weave first later boundaries) = false.
Proof.
  intros Hb Hfirst. destruct later as [|next later]; [exact Hfirst|].
  destruct boundaries as [|b boundaries]; [exact Hfirst|].
  cbn [weave forallb] in *. apply andb_prop in Hb as [Hboundary _].
  destruct (boundary_shape b Hboundary) as (mark & spaces & -> & Hmark & _ & _).
  rewrite starts_append. destruct (nonempty first); [exact Hfirst|].
  rewrite append_cons. cbn [starts_with_whitespace].
  exact (terminator_is_no_whitespace mark Hmark).
Qed.

Lemma split_go_whole (first : string) :
  holds_boundary first = false -> split_go false first = (first, []).
Proof.
  induction first as [|c first IH]; [reflexivity|].
  rewrite holds_boundary_cons. cbn [split_go andb]. intros Hnone.
  apply orb_false_iff in Hnone as [Hc Hnone].
  rewrite Hc, (IH Hnone). reflexivity.
Qed.

(** The text woven from sentences is split into those sentences. *)
Lemma split_go_woven (later boundaries : list string) (first : string) :
  List.length later = List.length boundaries ->
  forallb is_boundary boundaries = true ->
  holds_boundary first = false ->
  Forall (fun sentence => holds_boundary sentence = false) later ->
  Forall (fun sentence => starts_with_whitespace sentence = false) later ->
  split_go false (weave first later boundaries) = (first, later).
Proof.
  revert boundaries first.
  induction later as [|next later IH]; intros boundaries first Hlen Hb Hfirst Hnone Hstarts.
  - destruct boundaries; [|discriminate]. cbn [weave]. exact (split_go_whole first Hfirst).
  - destruct boundaries as [|b boundaries]; [discriminate|].
    injection Hlen as Hlen. cbn [forallb] in Hb. apply andb_prop in Hb as [Hboundary Hb].
    inversion Hnone as [|? ? Hnext Hnone']; subst.
    inversion Hstarts as [|? ? Hnext_start Hstarts']; subst.
    pose proof (IH boundaries next Hlen Hb Hnext Hnone' Hstarts') as Hrest.
    pose proof (weave_starts next later boundaries Hb Hnext_start) as Hrest_start.
    destruct (boundary_shape b Hboundary)
      as (mark & spaces & -> & Hmark & Hspaces & Hall).
    induction first as [|c first IHfirst].
    + cbn [weave]. rewrite append_nil, append_cons. cbn [split_go andb].
      rewrite Hmark, starts_append.
      assert (Hne : nonempty spaces = true) by (destruct spaces; [discriminate|reflexivity]).
      rewrite Hne, Hspaces. cbn [andb].
      rewrite split_go_skips by exact Hall.
      rewrite split_go_after_boundary by exact Hrest_start.
      rewrite Hrest. reflexivity.
    + rewrite weave_cons. cbn [split_go andb]. rewrite holds_boundary_cons in Hfirst.
      apply orb_false_iff in Hfirst as [Hc Hfirst].
      assert (Hno : is_terminator c
                    && starts_with_whitespace
                         (weave first (next :: later) (String mark spaces :: boundaries))
                    = false).
      { destruct (is_terminator c); [|reflexivity]. cbn [andb] in *.
        apply weave_starts; [|exact Hc].
        cbn [forallb]. rewrite Hboundary. exact Hb. }
      rewrite Hno, (IHfirst Hfirst). reflexivity.
Qed.

(** The sentences of a text are those that [split_sentences] returns,
    and no other list. *)
Lemma sentences_unique (text : string) (sentences : list string) :
  sentences_of text sentences -> sentences = split_sentences text.
Proof.
  intros (boundaries & Hlen & Hb & Hwoven & Hnone & Hstarts).
  rewrite boundaries_spec in Hb. apply starts_white_all in Hstarts.
  destruct sentences as [|first later]; [discriminate|].
  cbn [hd tl List.length] in *. injection Hlen as Hlen.
  inversion Hnone as [|? ? Hfirst Hnone']; subst.
  unfold split_sentences.
  rewrite (split_go_woven later boundaries first Hlen Hb Hfirst Hnone' Hstarts).
  reflexivity.
Qed.

(** What [summarize] returns for a text over the cap. *)
Lemma summarize_over (cleanText : string) :
  (500 < String.length cleanText)%nat ->
  cut_at_sentence cleanText (summarize cleanText).
Proof.
  intros Hover. unfold summarize, cut_at_sentence.
  exists (split_sentences cleanText). split; [apply split_sentences_of|].
  destruct (Nat.ltb_spec 500 (String.length cleanText)) as [_|]; [|lia].
  pose proof (accumulate_bound (split_sentences cleanText) EmptyString ltac:(cbn; lia))
    as Hbound.
  destruct (Nat.ltb_spec (String.length (accumulate (split_sentences cleanText) EmptyString))
              (String.length cleanText)) as [_|]; [|lia].
  destruct (accumulate_rendered (split_sentences cleanText) EmptyString)
    as (k & Hk & Hacc & Hbefore & Hstop).
  rewrite append_nil in Hacc. exists k. rewrite Hacc. repeat split.
  - exact Hk.
  - intros j Hj. specialize (Hbefore j Hj). now rewrite append_nil in Hbefore.
  - intros Hlt. specialize (Hstop Hlt). now rewrite append_nil in Hstop.
Qed.

Lemma summarize_under (cleanText : string) :
  (String.length cleanText <= 500)%nat -> summarize cleanText = cleanText.
Proof.
  intros Hunder. unfold summarize.
  destruct (Nat.ltb_spec 500 (String.length cleanText)); [lia | reflexivity].
Qed.

Lemma summarize_bound (cleanText : string) :
  (String.length (summarize cleanText) <= 500)%nat.
Proof.
  unfold summarize.
  destruct (Nat.ltb_spec 500 (String.length cleanText)) as [Hover|Hunder]; [|exact Hunder].
  pose proof (accumulate_bound (split_sentences cleanText) EmptyString ltac:(cbn; lia))
    as Hbound.
  pose proof (length_trim (accumulate (split_sentences cleanText) EmptyString)).
  rewrite length_append.
  destruct (_ <? _)%nat; cbn [String.length]; lia.
Qed.


Section WithLibrary.
Context `{HtmlToText} `{Engine}.

(** C6.  Whatever the document, the text [htmlToText] returns is at most
    500 characters long.  A cleaned text of at most 500 characters is
    returned as it is, with no marker.  A longer one is cut at a sentence
    boundary: its sentences are taken whole, from the first, until the
    next one would not fit within 400 characters, and the marker "..." is
    appended.  The sentences of a text are its pieces between the
    sentence boundaries, a boundary being a full stop, an exclamation
    mark or a question mark with all the white space that follows it,
    tabs and line breaks included: no sentence holds a boundary, and the
    code splits the text into these sentences and into no other list.
    The same holds of the legacy adapter. *)
Theorem htmlToText_is_bounded_and_cut_at_sentences (html : string) :
  (forall text, htmlToText html = Ret text \/ htmlToTextLegacy html = Ret text ->
                (String.length text <= 500)%nat) /\
  (forall raw, nonempty html = true -> convert "jira" html = Ret raw ->
     htmlToText html = Ret (summarize (cleaned raw))) /\
  (forall raw, nonempty html = true -> convert "jira-legacy" html = Ret raw ->
     htmlToTextLegacy html = Ret (summarize (cleanedLegacy raw))) /\
  (forall cleanText,
     ((String.length cleanText <= 500)%nat -> summarize cleanText = cleanText) /\
     ((500 < String.length cleanText)%nat ->
      cut_at_sentence cleanText (summarize cleanText)) /\
     sentences_of cleanText (split_sentences cleanText) /\
     (forall sentences, sentences_of cleanText sentences ->
                        sentences = split_sentences cleanText)).
Proof.
  repeat split.
  - intros text [Hret|Hret].
    + unfold htmlToText in Hret. destruct (negb (nonempty html)).
      * injection Hret as <-. cbn. lia.
      * destruct (convert "jira" html); [|discriminate].
        injection Hret as <-. apply summarize_bound.
    + unfold htmlToTextLegacy in Hret. destruct (negb (nonempty html)).
      * injection Hret as <-. cbn. lia.
      * destruct (convert "jira-legacy" html); [|discriminate].
        injection Hret as <-. apply summarize_bound.
  - intros raw Hhtml Hconvert. unfold htmlToText. now rewrite Hhtml, Hconvert.
  - intros raw Hhtml Hconvert. unfold htmlToTextLegacy. now rewrite Hhtml, Hconvert.
  - apply summarize_under.
  - apply summarize_over.
  - apply split_sentences_of.
  - apply sentences_unique.
Qed.

(** C7.  [cleanHtmlToText] returns a text for every input string and
    throws for none: the text of the structural conversion when that
    succeeds, and otherwise the preprocessed input with every tag
    stripped. *)
Theorem cleanHtmlToText_always_returns (html : string) :
  exists text,
    cleanHtmlToText html = Ret text /\
    (nonempty html = false -> text = EmptyString) /\
    (forall structural,
        nonempty html = true ->
        convert "confluence" (preprocessHtml html) = Ret structural ->
        text = structural) /\
    (forall failure,
        nonempty html = true ->
        convert "confluence" (preprocessHtml html) = Throw failure ->
        text = stripAllTags (preprocessHtml html)).
Proof.
  unfold cleanHtmlToText. destruct (nonempty html) eqn:Hhtml; cbn [negb].
  - destruct (convert "confluence" (preprocessHtml html)) as [structural|failure].
    + exists structural. repeat split; congruence.
    + exists (stripAllTags (preprocessHtml html)). repeat split; congruence.
  - exists EmptyString. repeat split; congruence.
Qed.

End WithLibrary.
End NormalizerFacts.

Module LegacyTheorems.
Import JsString Json Runtime Registry Library Observe.

(** C1, on the legacy handler.  The message of the specification's own
    scenario, cut in two by the transport, reaches the decoder of the
    legacy adapter as two fragments, and each is answered by an error
    reply; the buffered handler hands over the one whole line, which is
    answered by the tool list under id 7. *)
Theorem legacy_handler_frames_each_chunk_alone :
  let chunks := Stub.list_tools_7_chunks in
  let H := Stub.host Stub.table in
  let R := Stub.remote (NetworkError "unreachable") in
  let failure := MkReply (Some JNull) (Error (-32603) "Unexpected token" None) in
  Framer.feedLegacy chunks =
    [Stub.line "{`jsonrpc`:`2.0`,`id`:7,`method`:`to"; Stub.line "ols/list`}"] /\
  Framer.feed EmptyString chunks = ([fst Stub.list_tools_7], EmptyString) /\
  stdout (snd (@JiraLegacy.onData H R Stub.shaping (nth 1 chunks EmptyString)
                 (snd (@JiraLegacy.onData H R Stub.shaping (nth 0 chunks EmptyString)
                         (Stub.boot 0))))) = [failure; failure] /\
  stdout (snd (@Jira.processLines H R Stub.shaping (fst (Framer.feed EmptyString chunks))
                 (Stub.boot 0))) =
    [MkReply (Some (JNum 7)) (Result (tools_list Jira.registry))].
Proof. repeat split; vm_compute; reflexivity. Qed.

Section Adapter.
Context `{Host} `{Remote} `{Shaping}.

(** C9, on the legacy handler.  When the first candidate line of a chunk
    does not decode, the legacy adapter writes one reply with the code
    -32603 and a null id, and leaves the loop: the lines after it in the
    chunk are not looked at. *)
Theorem legacy_answers_undecodable_line_with_internal_error data line rest message w :
  Framer.onDataLegacy data = line :: rest ->
  JSON_parse line = SyntaxError message ->
  JiraLegacy.onData data w =
  (Ret tt, wrote (MkReply (Some JNull) (Error (-32603) message None)) w).
Proof.
  intros Hlines Hparse. unfold JiraLegacy.onData, try_catch. rewrite Hlines.
  cbn [JiraLegacy.processLines]. unfold bind, JiraLegacy.processLine.
  rewrite Hparse. reflexivity.
Qed.

End Adapter.
End LegacyTheorems.

Module Examples.
Import JsString Json Runtime Registry Library Observe.
Import Stub.

(** The legacy adapter on a chunk of two lines, the first malformed: one
    reply, and the request on the second line is never read. *)
Lemma legacy_drops_lines_after_undecodable_one :
  @JiraLegacy.onData H unreachable S
    ("garbage" +:+ String newline (fst list_tools)) (boot 0) =
  (Ret tt, wrote (MkReply (Some JNull) (Error (-32603) "Unexpected token" None)) (boot 0)).
Proof.
  apply (@LegacyTheorems.legacy_answers_undecodable_line_with_internal_error
           H unreachable S _ "garbage" [fst list_tools] "Unexpected token");
    reflexivity.
Defined.

(** Jira answers the notification that follows the handshake. *)
Lemma jira_answers_initialized_notification :
  writes (@Jira.processLine H unreachable S (fst initialized)) (boot 0)
    [MkReply (Some JNull)
       (Error (-32601) "Method not found" (Some "Unknown method: notifications/initialized"))] /\
  makes (@Jira.processLine H unreachable S (fst initialized)) (boot 0) [].
Proof.
  apply (@JiraTheorems.jira_answers_notifications H unreachable S
           (fst initialized)
           [("jsonrpc", JStr "2.0"); ("method", JStr "notifications/initialized")]
           "notifications/initialized" (boot 0));
    [reflexivity | reflexivity | left; reflexivity].
Defined.



(** Confluence asks the backend for the page "undefined". *)
Lemma confluence_fetches_page_undefined :
  requires Confluence.registry "get_page" "pageId" = true /\
  makes (@Confluence.processLine H unreachable S E (fst call_get_page)) (boot 0)
    [MkRequest "GET" "/content/undefined?expand=body.storage,version" JNull] /\
  exists response,
    writes (@Confluence.processLine H unreachable S E (fst call_get_page)) (boot 0)
      [MkReply (Some (JNum 4)) (Result response)].
Proof.
  apply (@ConfluenceTheorems.confluence_forwards_call_without_required_argument
           H unreachable S E (fst call_get_page)
           [("jsonrpc", JStr "2.0"); ("id", JNum 4); ("method", JStr "tools/call");
            ("params", JObj [("name", JStr "get_page"); ("arguments", JObj [])])]
           [("name", JStr "get_page"); ("arguments", JObj [])] (boot 0));
    try reflexivity.
  intros e He. vm_compute in He. discriminate He.
Defined.

(** A space list read twice, ten seconds apart, then again after six
    minutes: one call, then a second one. *)
Lemma spaces_read_once_within_five_minutes :
  let R := remote (Response 200 "{}") in
  let read := @Confluence.makeRequest H R "/space?limit=25" "GET" JNull in
  let request := MkRequest "GET" "/space?limit=25" JNull in
  let w1 := snd (read (boot 0)) in
  fst (read (boot 0)) = Ret (JObj []) /\
  calls w1 = [request] /\
  read (later 10000 w1) = (Ret (JObj []), later 10000 w1) /\
  calls (snd (read (later 360000 w1))) = [request; request].
Proof.
  intros R read request w1.
  destruct (@CacheTheorems.cache_saves_repeated_reads H R "/space?limit=25" (boot 0)
              200 "{}" (JObj []))
    as (_ & Hfirst & Hcalls & Hhit & Hmiss).
  - intros e He. vm_compute in He. discriminate He.
  - reflexivity.
  - reflexivity.
  - reflexivity.
  - reflexivity.
  - split; [exact Hfirst|]. split; [exact Hcalls|]. split.
    + apply Hhit; [reflexivity | vm_compute; reflexivity].
    + apply (Hmiss (later 360000 w1)); [reflexivity | vm_compute; discriminate].
Defined.

(** C5, as stated, fails: the same GET twice at the same instant reaches
    the backend twice when the first answer was an error, and when it
    was a body that decodes to a falsy value. *)
Lemma repeated_read_can_reach_the_backend_twice :
  let request := MkRequest "GET" "/space?limit=25" JNull in
  let read := fun R : Remote => @Confluence.makeRequest H R "/space?limit=25" "GET" JNull in
  let failing := remote (Response 500 "boom") in
  let falsy := remote (Response 200 "0") in
  calls (snd (read failing (snd (read failing (boot 0))))) = [request; request] /\
  fst (read falsy (boot 0)) = Ret (JNum 0) /\
  calls (snd (read falsy (snd (read falsy (boot 0))))) = [request; request].
Proof. repeat split; vm_compute; reflexivity. Qed.

(** C8, as stated, fails: the CQL search is refused with a 404, which is
    no server-side error, and the chain still goes on to the simple
    search. *)
Lemma chain_goes_on_after_client_error :
  let R := remote (Response 404 "not found") in
  let query := Some (JStr "foo") in
  fst (@Confluence.cqlSearch H R S E query (JNum 10) (boot 0)) =
    Throw "Confluence API Error: 404 - not found" /\
  calls (snd (@Confluence.advancedSearch H R S E query None (boot 0))) =
    [MkRequest "GET" "/content/search?cql=foo&limit=10" JNull;
     MkRequest "GET" "/content/search?cql=text%20~%20%22foo%22&limit=10" JNull].
Proof. split; vm_compute; reflexivity. Qed.

(** The chain on two queries.  The CQL search of "foo" is refused with a
    404: [searchPagesCompact] rethrows the refusal at once, and
    [advancedSearch] goes on to the simple search, which is refused as
    well, and throws both failures together.  A call without query
    stops the chain after its first method, with no call made. *)
Lemma search_chain_on_refused_and_on_missing_query :
  let R := remote (Response 404 "not found") in
  let query := Some (JStr "foo") in
  @Confluence.searchPagesCompact H R S E query None (boot 0)
  = (Throw "Confluence API Error: 404 - not found",
     snd (@Confluence.cqlSearch H R S E query (JNum 10) (boot 0))) /\
  fst (@Confluence.advancedSearch H R S E query None (boot 0))
  = Throw ("All search methods failed: "
           +:+ "CQL search: Confluence API Error: 404 - not found; "
           +:+ "Simple search: Simple search also failed: "
           +:+ "Confluence API Error: 404 - not found") /\
  @Confluence.advancedSearch H R S E None None (boot 0)
  = (Throw "Cannot read properties of undefined (reading 'toLowerCase')", boot 0).
Proof.
  intros R query.
  destruct (@SearchTheorems.search_chain_advances_on_any_failure H R S E "foo" None (boot 0))
    as (_ & Hgate & _ & _ & Hnext & Hother).
  split; [|split].
  - apply Hgate; [vm_compute; reflexivity | reflexivity].
  - pose proof (Hnext "Confluence API Error: 404 - not found"
                  (snd (@Confluence.cqlSearch H R S E query (JNum 10) (boot 0)))) as Hchain.
    cbv zeta in Hchain. fold query in Hchain.
    rewrite Hchain by (vm_compute; reflexivity).
    vm_compute. reflexivity.
  - destruct (Hother None) as (message & Hmessage & Hstop); [intros s; discriminate|].
    cbn in Hmessage. injection Hmessage as <-. exact Hstop.
Defined.

(** A request with the id 0: Jira answers under null, Confluence under 0. *)
Lemma id_zero_is_lost_by_jira_and_kept_by_confluence :
  (exists p, writes (@Jira.processLine H unreachable S (fst list_tools_id_zero)) (boot 0)
               [MkReply (Some JNull) p]) /\
  (exists p, writes (@Confluence.processLine H unreachable S E (fst list_tools_id_zero))
               (boot 0) [MkReply (Some (JNum 0)) p]).
Proof.
  destruct (@CorrelationTheorems.jira_answers_falsy_id_with_null H unreachable S E
              (fst list_tools_id_zero)
              [("jsonrpc", JStr "2.0"); ("id", JNum 0); ("method", JStr "tools/list")]
              (JNum 0) (boot 0) eq_refl eq_refl)
    as (Hjira & _ & Hconfluence).
  - cbn [In]. tauto.
  - split; [exact Hjira|]. apply Hconfluence; [discriminate | reflexivity].
Defined.


(** Three lines and a fragment, cut into chunks in the middle of lines:
    the blank line is dropped, the fragment stays in the buffer. *)
Lemma buffered_framer_on_cut_lines :
  Framer.feed EmptyString
    ["ab"; "c" +:+ String newline (String newline "de"); "f" +:+ String newline "gh"] =
  (["abc"; "def"], "gh").
Proof.
  apply (FramerFacts.buffered_framer_reassembles_lines ["abc"; ""; "def"] _ "gh");
    reflexivity.
Defined.

(** Jira refuses [get_issue] without [issueKey], and calls nothing. *)
Lemma jira_refuses_get_issue_without_key :
  exists detail,
    writes (@Jira.processLine H unreachable S (fst call_get_issue)) (boot 0)
      [MkReply (Some (JNum 3)) (Error (-32602) "Invalid params" (Some detail))] /\
    makes (@Jira.processLine H unreachable S (fst call_get_issue)) (boot 0) [].
Proof.
  apply (@JiraTheorems.jira_rejects_missing_argument H unreachable S
           (fst call_get_issue)
           [("jsonrpc", JStr "2.0"); ("id", JNum 3); ("method", JStr "tools/call");
            ("params", JObj [("name", JStr "get_issue"); ("arguments", JObj [])])]
           [("name", JStr "get_issue"); ("arguments", JObj [])]
           (nth 1 Jira.registry (MkTool "" "" [] []))
           "issueKey" None (boot 0));
    [ reflexivity | reflexivity | reflexivity | right; left; reflexivity
    | reflexivity | left; reflexivity | reflexivity | reflexivity ].
Defined.

(** Jira on a malformed line followed by a request: both are answered. *)
Lemma jira_goes_on_after_undecodable_line :
  @Jira.processLine H unreachable S "garbage" (boot 0) =
    (Ret tt,
     wrote (MkReply (Some JNull) (Error (-32700) "Parse error" (Some "Unexpected token")))
       (boot 0)) /\
  @Jira.processLines H unreachable S ["garbage"; fst list_tools] (boot 0) =
    @Jira.processLines H unreachable S [fst list_tools]
      (wrote (MkReply (Some JNull) (Error (-32700) "Parse error" (Some "Unexpected token")))
         (boot 0)).
Proof.
  apply (@JiraTheorems.jira_answers_undecodable_line H unreachable S
           "garbage" [fst list_tools] "Unexpected token" (boot 0)).
  reflexivity.
Defined.

End Examples.

Module ValueFacts.
Import JsString Json JsValue.

Lemma own_property_app (a b : list (string * json)) (k : string) :
  own_property (a ++ b) k =
  match own_property b k with
  | Some v => Some v
  | None => own_property a k
  end.
Proof.
  induction a as [|[k' v'] a IH]; cbn [own_property app].
  - destruct (own_property b k); reflexivity.
  - rewrite IH. destruct (own_property b k); reflexivity.
Qed.

Lemma own_property_single (k' k : string) (v : json) :
  own_property [(k', v)] k = if String.eqb k' k then Some v else None.
Proof. reflexivity. Qed.

Lemma own_property_field (k' k : string) (v : value) :
  own_property (Jira.field k' v) k = if String.eqb k' k then v else None.
Proof.
  destruct v as [j|]; cbn [Jira.field].
  - apply own_property_single.
  - destruct (String.eqb k' k); reflexivity.
Qed.

Lemma uint_is_no_word (d : Decimal.uint) (c : ascii) (s : string) :
  (nat_of_ascii c < 48 \/ 57 < nat_of_ascii c)%nat ->
  NilEmpty.string_of_uint d <> String c s.
Proof.
  intros Hc Heq.
  destruct d; cbn in Heq; try discriminate;
    injection Heq as Hhead _; subst c; vm_compute in Hc; lia.
Qed.

(** The decimal form of a natural number is no identifier: an index of
    an array never names a property the adapters read. *)
Lemma decimal_is_no_word (i : nat) (c : ascii) (s : string) :
  (nat_of_ascii c < 48 \/ 57 < nat_of_ascii c)%nat ->
  String.eqb (decimal (Z.of_nat i)) (String c s) = false.
Proof.
  intros Hc. apply String.eqb_neq. unfold decimal.
  destruct (Z.of_nat i) as [|p|p] eqn:Hi; cbn [Z.to_int NilEmpty.string_of_int].
  - cbn. intros Heq. injection Heq as Hhead _. subst c. vm_compute in Hc. lia.
  - apply uint_is_no_word. exact Hc.
  - lia.
Qed.

Lemma own_property_indexed (items : list json) (i : nat) (c : ascii) (s : string) :
  (nat_of_ascii c < 48 \/ 57 < nat_of_ascii c)%nat ->
  own_property (indexed i items) (String c s) = None.
Proof.
  intros Hc. revert i. induction items as [|x items IH]; intros i; cbn [indexed own_property].
  - reflexivity.
  - rewrite IH. rewrite decimal_is_no_word by exact Hc. reflexivity.
Qed.

Lemma truthy_or_default (v : value) (d : json) :
  truthy (Some d) = true -> truthy (Some (or_default v d)) = true.
Proof.
  intros Hd. unfold or_default. destruct v as [j|]; [|exact Hd].
  destruct (truthy (Some j)) eqn:Hj; [exact Hj | exact Hd].
Qed.

Lemma traverse_length {A B} (f : A -> outcome B) (l : list A) (r : list B) :
  traverse f l = Ret r -> List.length r = List.length l.
Proof.
  revert r. induction l as [|x l IH]; intros r; cbn [traverse].
  - intros [= <-]. reflexivity.
  - destruct (f x) as [y|e]; [|discriminate].
    destruct (traverse f l) as [ys|e]; [|discriminate].
    intros [= <-]. cbn [List.length]. f_equal. apply IH. reflexivity.
Qed.

Lemma Forall_firstn {A} (P : A -> Prop) (n : nat) (l : list A) :
  Forall P l -> Forall P (firstn n l).
Proof.
  revert n. induction l as [|x l IH]; intros [|n] Hl; cbn [firstn]; try constructor.
  - inversion Hl; assumption.
  - apply IH. inversion Hl; assumption.
Qed.

Lemma Forall_filter_true {A} (p : A -> bool) (l : list A) :
  Forall (fun x => p x = true) (List.filter p l).
Proof.
  induction l as [|x l IH]; cbn [List.filter]; [constructor|].
  destruct (p x) eqn:Hp; [constructor; assumption | assumption].
Qed.

Lemma substring_prefix_length (n : nat) (s : string) :
  (String.length (String.substring 0 n s) <= n)%nat /\
  (nonempty s = true -> (0 < n)%nat -> (0 < String.length (String.substring 0 n s))%nat).
Proof.
  revert s. induction n as [|n IH]; intros s.
  - destruct s; cbn; split; intros; lia.
  - destruct s as [|c s]; cbn [String.substring String.length nonempty].
    + split; [lia | discriminate].
    + destruct (IH s) as [Hle _]. split; intros; lia.
Qed.

End ValueFacts.

Module JiraRequestFacts.
Import JsString Json Runtime Registry Jira Observe Expect ValueFacts.

Section Adapter.
Context `{Host} `{Remote} `{Shaping}.

Lemma jira_makeRequest_unfold endpoint method body fields w :
  let request := MkRequest method (fullEndpoint endpoint fields) body in
  let w' := MkWorld (cache w) (now w + elapsed (calls w) request)
              (calls w ++ [request]) (stdout w) in
  makeRequest endpoint method body fields w =
  match serve (calls w) request with
  | NetworkError message => (Throw ("요청 실패: " +:+ message), w')
  | Response status data =>
      if 400 <=? status then
        (Throw ("Jira API Error: " +:+ decimal status +:+ " - " +:+ data), w')
      else if negb (nonempty (trim data)) then
        (Ret (JObj [("statusCode", JNum status);
                    ("success", JBool true);
                    ("message", JStr ("요청이 성공적으로 완료되었습니다 (상태: "
                                      +:+ decimal status +:+ ")"))]), w')
      else
        match JSON_parse data with
        | Parsed result => (Ret (JObj (spread result ++ [("statusCode", JNum status)])), w')
        | SyntaxError message =>
            (Throw ("응답 파싱 실패 (상태: " +:+ decimal status +:+ "): " +:+ message
                    +:+ ". 원본 데이터: " +:+ String.substring 0 100 data +:+ "..."), w')
        end
  end.
Proof.
  intros request w'. unfold makeRequest, fullEndpoint, bind, https_request.
  fold request.
  assert (Hreq :
    MkRequest method
      match fields with
      | Some f =>
          if nonempty f && negb (includes endpoint "fields=") then
            endpoint +:+ (if includes endpoint "?" then "&" else "?") +:+ "fields="
            +:+ encodeURIComponent f
          else endpoint
      | None => endpoint
      end body = request) by reflexivity.
  cbv zeta. rewrite Hreq. fold w'.
  destruct (serve (calls w) request) as [message|status data]; [reflexivity|].
  destruct (400 <=? status); [reflexivity|].
  destruct (negb (nonempty (trim data))); [reflexivity|].
  destruct (JSON_parse data); reflexivity.
Qed.

Lemma jira_makeRequest_call endpoint method body fields w :
  makes (makeRequest endpoint method body fields) w
    [MkRequest method (fullEndpoint endpoint fields) body].
Proof.
  unfold makes. rewrite jira_makeRequest_unfold. cbv zeta.
  destruct (serve _ _) as [message|status data]; [reflexivity|].
  destruct (400 <=? status); [reflexivity|].
  destruct (negb (nonempty (trim data))); [reflexivity|].
  destruct (JSON_parse data); reflexivity.
Qed.

Lemma jira_makeRequest_returns endpoint method body fields w result w' :
  makeRequest endpoint method body fields w = (Ret result, w') ->
  exists status data members,
    (serve (calls w) (MkRequest method (fullEndpoint endpoint fields) body)
     = Response status data) /\
    (status < 400) /\
    (result = JObj members) /\
    (own_property members "statusCode" = Some (JNum status)) /\
    (w' = MkWorld (cache w)
            (now w + elapsed (calls w) (MkRequest method (fullEndpoint endpoint fields) body))
            (calls w ++ [MkRequest method (fullEndpoint endpoint fields) body]) (stdout w)).
Proof.
  rewrite jira_makeRequest_unfold. cbv zeta.
  destruct (serve _ _) as [message|status data]; [discriminate|].
  destruct (400 <=? status) eqn:Hstatus; [discriminate|].
  apply Z.leb_gt in Hstatus.
  destruct (negb (nonempty (trim data))) eqn:Hblank.
  - intros [= <- <-]. eexists status, data, _.
    split; [reflexivity|]. split; [exact Hstatus|]. split; [reflexivity|].
    split; reflexivity.
  - destruct (JSON_parse data) as [parsed|message] eqn:Hparse; [|discriminate].
    intros [= <- <-]. eexists status, data, _.
    split; [reflexivity|]. split; [exact Hstatus|]. split; [reflexivity|].
    split; [rewrite own_property_app; reflexivity | reflexivity].
Qed.

Lemma jira_makeRequest_on_array endpoint method body fields w status data items :
  let request := MkRequest method (fullEndpoint endpoint fields) body in
  serve (calls w) request = Response status data ->
  status < 400 ->
  nonempty (trim data) = true ->
  JSON_parse data = Parsed (JArr items) ->
  makeRequest endpoint method body fields w =
  (Ret (JObj (indexed 0 items ++ [("statusCode", JNum status)])),
   MkWorld (cache w) (now w + elapsed (calls w) request) (calls w ++ [request]) (stdout w)).
Proof.
  intros request Hserve Hstatus Hdata Hparse.
  rewrite jira_makeRequest_unfold. cbv zeta. fold request. rewrite Hserve.
  apply Z.leb_gt in Hstatus. rewrite Hstatus, Hdata, Hparse. reflexivity.
Qed.

End Adapter.
End JiraRequestFacts.

Module JiraShapeTheorems.
Import JsString Json Runtime Registry Library JsValue Jira JiraShapes Observe Expect.
Import ValueFacts JiraRequestFacts.

Section Request.
Context `{Host} `{Remote}.

(** [Jira.makeRequest] (and the legacy adapter's, which is the same
    text) makes exactly one backend call, with the verb and the body it
    was given.  When it returns, the backend answered with a status
    below 400 and the result is an object that carries that status as
    [statusCode]: never an array, whatever the body was.  A status of
    400 or more makes it throw a message that holds the status and the
    body. *)
Theorem jira_makeRequest_returns_an_object endpoint method body fields w :
  let request := MkRequest method (fullEndpoint endpoint fields) body in
  makes (makeRequest endpoint method body fields) w [request] /\
  stdout (snd (makeRequest endpoint method body fields w)) = stdout w /\
  (forall result,
     fst (makeRequest endpoint method body fields w) = Ret result ->
     exists status data members,
       (serve (calls w) request = Response status data) /\
       (status < 400) /\
       (result = JObj members) /\
       (own_property members "statusCode" = Some (JNum status))) /\
  (forall status data,
     serve (calls w) request = Response status data ->
     400 <= status ->
     fst (makeRequest endpoint method body fields w)
     = Throw ("Jira API Error: " +:+ decimal status +:+ " - " +:+ data)).
Proof.
  intros request. split; [apply jira_makeRequest_call|].
  split.
  { rewrite jira_makeRequest_unfold. cbv zeta.
    destruct (serve _ _) as [message|status data]; [reflexivity|].
    destruct (400 <=? status); [reflexivity|].
    destruct (negb (nonempty (trim data))); [reflexivity|].
    destruct (JSON_parse data); reflexivity. }
  split.
  - intros result Hret.
    destruct (makeRequest endpoint method body fields w) as [o w'] eqn:Hrun.
    cbn [fst] in Hret. subst o.
    destruct (jira_makeRequest_returns _ _ _ _ _ _ _ Hrun)
      as (status & data & members & Hserve & Hstatus & Hresult & Hcode & _).
    exists status, data, members. repeat split; assumption.
  - intros status data Hserve Hstatus.
    rewrite jira_makeRequest_unfold. cbv zeta. fold request. rewrite Hserve.
    apply Z.leb_le in Hstatus. rewrite Hstatus. reflexivity.
Qed.

End Request.

Section Shaped.
Context `{Host} `{Remote} `{Builtins} `{HtmlToText}.
Variable others : Shaping.

Lemma shape_getProjects result :
  @shape (shaping others) "getProjects" [] result = projects result.
Proof. reflexivity. Qed.



Lemma shape_getIssueTypes projectKey result :
  @shape (shaping others) "getIssueTypes" [projectKey] result
  = issueTypes projectKey result.
Proof. reflexivity. Qed.



(** [getProjects] looks for the projects under [values] only: the test
    [Array.isArray(result)] is made on what [makeRequest] returns, which
    is never an array.  So when the backend answers with a JSON array,
    as a list of projects is, the method reports no project at all. *)
Theorem jira_getProjects_reports_nothing_of_an_array status data items w :
  let request := MkRequest "GET" "/project" JNull in
  serve (calls w) request = Response status data ->
  status < 400 ->
  nonempty (trim data) = true ->
  JSON_parse data = Parsed (JArr items) ->
  fst (getProjects (H1 := shaping others) w)
  = Ret (JObj [("summary", JStr "총 0개의 프로젝트"); ("projects", JArr [])]) /\
  makes (getProjects (H1 := shaping others)) w [request].
Proof.
  intros request Hserve Hstatus Hdata Hparse.
  unfold makes, getProjects, bind.
  rewrite (jira_makeRequest_on_array "/project" "GET" JNull None w status data items
             Hserve Hstatus Hdata Hparse).
  unfold lift. rewrite shape_getProjects. cbn [fst snd calls].
  split; [|reflexivity].
  unfold projects. cbn [prop and_then].
  rewrite own_property_app, own_property_single.
  replace (String.eqb "statusCode" "values") with false by reflexivity.
  rewrite own_property_indexed by (vm_compute; lia).
  reflexivity.
Qed.




End Shaped.

Section Issue.
Context `{Builtins}.
Variable toText : value -> outcome string.

Lemma labelsOf_cases labels l :
  labelsOf labels = Ret l ->
  l = [] \/
  (exists s, l = [("labels", JStr s)] /\ (0 < String.length s <= 5)%nat) \/
  (exists items, l = [("labels", JArr items)] /\ (0 < List.length items <= 5)%nat).
Proof.
  unfold labelsOf. destruct (truthy labels) eqn:Htruthy; [|intros [= <-]; left; reflexivity].
  destruct labels as [[| b | n | s | items | members]|]; try (intros [= <-]; left; reflexivity).
  - intros [= <-]. right. left. exists (String.substring 0 5 s). split; [reflexivity|].
    destruct (substring_prefix_length 5 s) as [Hle Hpos].
    split; [apply Hpos; [exact Htruthy | lia] | exact Hle].
  - destruct items as [|x items]; intros [= <-]; [left; reflexivity|].
    right. right. exists (firstn 5 (x :: items)). split; [reflexivity|].
    split; [cbn; lia | apply List.firstn_le_length].
  - destruct (positive (own_property members "length")); [discriminate|].
    intros [= <-]. left. reflexivity.
Qed.

Lemma linkedIssues_bound issuelinks items :
  linkedIssues issuelinks = Ret items ->
  (List.length items <= 3)%nat /\
  Forall (fun link => truthy (optional (Some link) "key") = true) items.
Proof.
  unfold linkedIssues, and_then.
  destruct (array_map _ _ _) as [links|failure]; [|discriminate].
  intros [= <-]. split; [apply List.firstn_le_length|].
  apply Forall_firstn.
  apply (Forall_filter_true (fun link => truthy (optional (Some link) "key"))).
Qed.

(** [simplifyIssue] keeps its promises of size and of defaults.  What it
    returns is an object with a link that ends in the issue key; the
    description, status, priority, type, assignee and reporter are never
    empty and the summary and the two dates are always there; a
    resolution is given only when it has a name; at most five labels
    and at most three linked issues are kept, never an empty list of
    either, and every linked issue kept has a key. *)
Theorem simplifyIssue_is_bounded_and_defaulted issue simplified :
  simplifyIssue toText issue = Ret simplified ->
  exists members,
    simplified = JObj members /\
    own_property members "link"
    = Some (JStr (browseUrl +:+ "/" +:+ interpolate (optional (Some issue) "key"))) /\
    (forall k, In k ["description"; "status"; "priority"; "issueType"; "assignee"; "reporter"] ->
       truthy (own_property members k) = true) /\
    (forall k, In k ["summary"; "created"; "updated"] -> own_property members k <> None) /\
    (forall v, own_property members "resolution" = Some v -> truthy (Some v) = true) /\
    (forall v, own_property members "labels" = Some v ->
       (exists s, v = JStr s /\ (0 < String.length s <= 5)%nat) \/
       (exists items, v = JArr items /\ (0 < List.length items <= 5)%nat)) /\
    (forall v, own_property members "linkedIssues" = Some v ->
       exists items,
         v = JArr items /\ (0 < List.length items <= 3)%nat /\
         Forall (fun link => truthy (optional (Some link) "key") = true) items).
Proof.
  unfold simplifyIssue, and_then.
  destruct (Jira.destructure "issue" issue "key") as [key|failure] eqn:Hkey; [|discriminate].
  destruct (Jira.destructure "issue" issue "fields") as [fields|failure]; [|discriminate].
  destruct (prop fields "summary") as [summary|failure]; [|discriminate].
  destruct (prop fields "description") as [description|failure]; [|discriminate].
  destruct (toText description) as [text|failure]; [|discriminate].
  destruct (prop fields "status") as [status|failure]; [|discriminate].
  destruct (prop fields "priority") as [priority|failure]; [|discriminate].
  destruct (prop fields "issuetype") as [issuetype|failure]; [|discriminate].
  destruct (prop fields "assignee") as [assignee|failure]; [|discriminate].
  destruct (prop fields "reporter") as [reporter|failure]; [|discriminate].
  destruct (prop fields "created") as [created|failure]; [|discriminate].
  destruct (prop fields "updated") as [updated|failure]; [|discriminate].
  destruct (prop fields "resolution") as [resolution|failure]; [|discriminate].
  destruct (prop fields "labels") as [labels|failure]; [|discriminate].
  destruct (labelsOf labels) as [labelled|failure] eqn:Hlabels; [|discriminate].
  destruct (prop fields "issuelinks") as [issuelinks|failure]; [|discriminate].
  destruct (linkedIssues issuelinks) as [linked|failure] eqn:Hlinked; [|discriminate].
  intros [= <-]. eexists. split; [reflexivity|].
  assert (Hkey' : key = optional (Some issue) "key").
  { destruct issue; cbn in Hkey; try discriminate; injection Hkey as <-; reflexivity. }
  subst key.
  set (key := optional (Some issue) "key").
  set (named := optional resolution "name").
  assert (Hres : forall k,
             own_property (if truthy named then Jira.field "resolution" named else []) k
             = if String.eqb "resolution" k then (if truthy named then named else None)
               else None).
  { intros k. destruct (truthy named) eqn:Hnamed.
    - apply own_property_field.
    - cbn [own_property]. destruct (String.eqb "resolution" k); reflexivity. }
  assert (Hlab : forall k, String.eqb "labels" k = false -> own_property labelled k = None).
  { intros k Hk. destruct (labelsOf_cases _ _ Hlabels) as [->|[(s & -> & _)|(items & -> & _)]];
      cbn [own_property]; try rewrite Hk; reflexivity. }
  set (linkedPart := match linked with [] => [] | _ :: _ => [("linkedIssues", JArr linked)] end).
  assert (Hlink : forall k, String.eqb "linkedIssues" k = false ->
                            own_property linkedPart k = None).
  { intros k Hk. unfold linkedPart. destruct linked; cbn [own_property];
      try rewrite Hk; reflexivity. }
  pose (base :=
          [("summary", or_default summary (JStr EmptyString));
           ("description", JStr (if nonempty text then text else "설명 없음"));
           ("status", or_default (optional status "name") (JStr "상태 없음"));
           ("priority", or_default (optional priority "name") (JStr "우선순위 없음"));
           ("issueType", or_default (optional issuetype "name") (JStr "타입 없음"));
           ("assignee", or_default (optional assignee "displayName") (JStr "미할당"));
           ("reporter", or_default (optional reporter "displayName") (JStr "작성자 불명"));
           ("created", dateOf created);
           ("updated", dateOf updated);
           ("link", JStr (browseUrl +:+ "/" +:+ interpolate key))]).
  repeat match goal with
         | |- context [Jira.field "key" key ++ ?l] =>
             progress change l
               with (base ++ (if truthy named then Jira.field "resolution" named else [])
                     ++ labelled ++ linkedPart)
         end.
  assert (Hbase : forall k v,
             String.eqb "linkedIssues" k = false -> String.eqb "labels" k = false ->
             String.eqb "resolution" k = false -> String.eqb "key" k = false ->
             own_property base k = v ->
             own_property
               (Jira.field "key" key ++ base
                ++ (if truthy named then Jira.field "resolution" named else [])
                ++ labelled ++ linkedPart) k
             = match v with Some x => Some x | None => None end).
  { intros k v Ha Hb Hc Hd Hv.
    rewrite !own_property_app, (Hlink k Ha), (Hlab k Hb), Hres, Hc, Hv, own_property_field, Hd.
    destruct v; reflexivity. }
  split.
  { rewrite (Hbase "link" _ eq_refl eq_refl eq_refl eq_refl eq_refl). reflexivity. }
  split.
  { intros k Hk. cbn [In] in Hk.
    destruct Hk as [<-|[<-|[<-|[<-|[<-|[<-|[]]]]]]];
      (erewrite Hbase; [|reflexivity ..]);
      cbn [base own_property String.eqb Ascii.eqb Bool.eqb];
      try (apply truthy_or_default; reflexivity).
    destruct (nonempty text) eqn:Htext; [exact Htext | reflexivity]. }
  split.
  { intros k Hk. cbn [In] in Hk.
    destruct Hk as [<-|[<-|[<-|[]]]];
      (erewrite Hbase; [|reflexivity ..]);
      cbn [base own_property String.eqb Ascii.eqb Bool.eqb]; discriminate. }
  split.
  { intros v. rewrite !own_property_app.
    rewrite (Hlink "resolution" eq_refl), (Hlab "resolution" eq_refl), Hres.
    cbn [String.eqb Ascii.eqb Bool.eqb].
    destruct (truthy named) eqn:Hnamed.
    - destruct named as [x|]; [|discriminate]. intros [= <-]. exact Hnamed.
    - cbn [own_property String.eqb Ascii.eqb Bool.eqb].
      rewrite own_property_field. cbn. discriminate. }
  split.
  { intros v. rewrite !own_property_app. rewrite (Hlink "labels" eq_refl).
    destruct (labelsOf_cases _ _ Hlabels) as [->|[(s & -> & Hs)|(items & -> & Hitems)]].
    - cbn [own_property]. rewrite Hres. cbn [String.eqb Ascii.eqb Bool.eqb].
      cbn [own_property String.eqb Ascii.eqb Bool.eqb].
      rewrite own_property_field. cbn. discriminate.
    - cbn [own_property String.eqb Ascii.eqb Bool.eqb]. intros [= <-].
      left. exists s. split; [reflexivity | exact Hs].
    - cbn [own_property String.eqb Ascii.eqb Bool.eqb]. intros [= <-].
      right. exists items. split; [reflexivity | exact Hitems]. }
  intros v. rewrite !own_property_app.
  destruct (linkedIssues_bound _ _ Hlinked) as [Hlen Hkeys].
  unfold linkedPart. destruct linked as [|x linked].
  - cbn [own_property]. rewrite (Hlab "linkedIssues" eq_refl), Hres.
    cbn [String.eqb Ascii.eqb Bool.eqb].
    cbn [own_property String.eqb Ascii.eqb Bool.eqb].
    rewrite own_property_field. cbn. discriminate.
  - cbn [own_property String.eqb Ascii.eqb Bool.eqb]. intros [= <-].
    exists (x :: linked). split; [reflexivity|]. split; [|exact Hkeys].
    cbn [List.length] in *. lia.
Qed.

End Issue.
End JiraShapeTheorems.

Module ObjectFacts.
Import JsString Json JsValue ValueFacts.

(** Induction on a decoded value, with the elements of an array at
    hand. *)
Lemma json_nested_ind (P : json -> Prop) :
  P JNull -> (forall b, P (JBool b)) -> (forall n, P (JNum n)) -> (forall s, P (JStr s)) ->
  (forall items, Forall P items -> P (JArr items)) ->
  (forall members, P (JObj members)) ->
  forall j, P j.
Proof.
  intros Hnull Hbool Hnum Hstr Harr Hobj.
  fix IH 1. intros [| b | n | s | items | members].
  - exact Hnull.
  - apply Hbool.
  - apply Hnum.
  - apply Hstr.
  - apply Harr.
    exact ((fix each (l : list json) : Forall P l :=
              match l with
              | [] => List.Forall_nil P
              | x :: l' => @List.Forall_cons _ P x l' (IH x) (each l')
              end) items).
  - apply Hobj.
Qed.

Lemma own_property_without (k k' : string) (l : list (string * json)) :
  own_property (List.filter (fun p => negb (String.eqb (fst p) k)) l) k'
  = if String.eqb k k' then None else own_property l k'.
Proof.
  induction l as [|[k0 v0] l IH]; cbn [List.filter own_property fst].
  - destruct (String.eqb k k'); reflexivity.
  - destruct (String.eqb k0 k) eqn:H0; cbn [negb own_property].
    + rewrite IH. apply String.eqb_eq in H0. subst k0.
      destruct (String.eqb k k'); [reflexivity|].
      destruct (own_property l k'); reflexivity.
    + rewrite IH. destruct (String.eqb k k') eqn:Hk; [|reflexivity].
      apply String.eqb_eq in Hk. subst k'. rewrite H0. reflexivity.
Qed.

(** Reading after an assignment. *)
Lemma own_property_assign (l : list (string * json)) (k k' : string) (v : json) :
  own_property (assign l k v) k'
  = if String.eqb k k' then Some v else own_property l k'.
Proof.
  induction l as [|[k0 v0] l IH]; cbn [assign own_property].
  - destruct (String.eqb k k'); reflexivity.
  - destruct (String.eqb k0 k) eqn:H0; cbn [own_property].
    + rewrite own_property_without. apply String.eqb_eq in H0. subst k0.
      destruct (String.eqb k k'); [reflexivity|].
      destruct (own_property l k'); reflexivity.
    + rewrite IH. destruct (String.eqb k k') eqn:Hk; [reflexivity|].
      reflexivity.
Qed.

Lemma own_property_picked_from (members : list (string * json)) (fields : list string)
    (start : list (string * json)) (k : string) :
  own_property
    (fold_left (fun optimized field =>
                  match own_property members field with
                  | Some v => assign optimized field v
                  | None => optimized
                  end) fields start) k
  = if existsb (String.eqb k) fields
    then match own_property members k with
         | Some v => Some v
         | None => own_property start k
         end
    else own_property start k.
Proof.
  revert start. induction fields as [|f fields IH]; intros start; cbn [fold_left existsb].
  - reflexivity.
  - rewrite IH. destruct (String.eqb k f) eqn:Hkf; cbn [orb].
    + apply String.eqb_eq in Hkf. subst f.
      destruct (own_property members k) as [v|] eqn:Hmember.
      * destruct (existsb (String.eqb k) fields); [reflexivity|].
        rewrite own_property_assign, String.eqb_refl. reflexivity.
      * destruct (existsb (String.eqb k) fields); reflexivity.
    + assert (Hstep : own_property
                        match own_property members f with
                        | Some v => assign start f v
                        | None => start
                        end k = own_property start k).
      { destruct (own_property members f); [|reflexivity].
        rewrite own_property_assign. rewrite String.eqb_sym, Hkf. reflexivity. }
      rewrite Hstep. reflexivity.
Qed.

Lemma own_property_picked (fields : list string) (members : list (string * json)) (k : string) :
  own_property (ConfluenceShapes.picked fields members) k
  = if existsb (String.eqb k) fields then own_property members k else None.
Proof.
  unfold ConfluenceShapes.picked. rewrite own_property_picked_from. cbn [own_property].
  destruct (existsb (String.eqb k) fields); [|reflexivity].
  destruct (own_property members k); reflexivity.
Qed.

Lemma existsb_eqb_In (k : string) (fields : list string) :
  existsb (String.eqb k) fields = true <-> In k fields.
Proof.
  rewrite existsb_exists. split.
  - intros (x & Hin & Heq). apply String.eqb_eq in Heq. subst x. exact Hin.
  - intros Hin. exists k. split; [exact Hin | apply String.eqb_refl].
Qed.

End ObjectFacts.

Module ConfluenceShapeTheorems.
Import JsString Json Runtime Library JsValue ConfluenceShapes Observe.
Import ValueFacts ObjectFacts.

Section Shapes.
Context `{HtmlToText} `{Engine}.

Lemma optimizeResponse_array options items :
  optimizeResponse options (JArr items)
  = match traverse (optimizeResponse options) items with
    | Ret optimized => Ret (JArr optimized)
    | Throw e => Throw e
    end.
Proof.
  cbn [optimizeResponse]. unfold and_then.
  match goal with
  | |- match ?each items with _ => _ end = _ =>
      assert (Heach : forall l, each l = traverse (optimizeResponse options) l)
  end.
  { induction l as [|x l IH]; [reflexivity|].
    cbn [traverse]. rewrite <- IH. reflexivity. }
  rewrite Heach. reflexivity.
Qed.

Lemma optimizeResponse_plain fields members :
  optimizeResponse (MkOptions fields false) (JObj members)
  = Ret (JObj
           (let optimized := picked fields members in
            let version := own_property members "version" in
            let optimized :=
              if truthy version then assign optimized "version" (versionOf version)
              else optimized in
            let webui := optional (own_property members "_links") "webui" in
            match webui with
            | Some link => if truthy webui then assign optimized "webui" link else optimized
            | None => optimized
            end)).
Proof. reflexivity. Qed.

Lemma optimizeResponse_total fields data :
  exists optimized, optimizeResponse (MkOptions fields false) data = Ret optimized.
Proof.
  induction data as [| b | n | s | items IH | members] using json_nested_ind;
    try (eexists; reflexivity).
  rewrite optimizeResponse_array.
  assert (Hall : exists optimized,
             traverse (optimizeResponse (MkOptions fields false)) items = Ret optimized).
  { induction IH as [|x l [y Hy] _ [ys Hys]]; [eexists; reflexivity|].
    cbn [traverse]. rewrite Hy, Hys. eexists. reflexivity. }
  destruct Hall as [optimized ->]. eexists. reflexivity.
Qed.

(** [optimizeResponse] without the body never fails and keeps nothing
    but what it was asked for.  Of an object it returns an object whose
    properties are among the listed fields, [version] and [webui], and
    in which a listed field has the value it had; of an array it returns
    an array of the same length; any other value is returned as it
    is. *)
Theorem optimizeResponse_keeps_only_the_listed_fields fields :
  (forall data, exists optimized,
      optimizeResponse (MkOptions fields false) data = Ret optimized) /\
  (forall members, exists kept,
      optimizeResponse (MkOptions fields false) (JObj members) = Ret (JObj kept) /\
      (forall k, own_property kept k <> None ->
                 In k fields \/ k = "version" \/ k = "webui") /\
      (forall k, In k fields -> k <> "version" -> k <> "webui" ->
                 own_property kept k = own_property members k)) /\
  (forall items optimized,
      optimizeResponse (MkOptions fields false) (JArr items) = Ret optimized ->
      exists kept, optimized = JArr kept /\ List.length kept = List.length items) /\
  (forall data, (forall items, data <> JArr items) -> (forall members, data <> JObj members) ->
      optimizeResponse (MkOptions fields false) data = Ret data).
Proof.
  split; [apply optimizeResponse_total|].
  split.
  { intros members. eexists. split; [apply optimizeResponse_plain|].
    cbv zeta.
    set (version := own_property members "version").
    set (webui := optional (own_property members "_links") "webui").
    assert (Hread : forall k,
               own_property
                 match webui with
                 | Some link =>
                     if truthy webui
                     then assign (if truthy version
                                  then assign (picked fields members) "version"
                                         (versionOf version)
                                  else picked fields members) "webui" link
                     else if truthy version
                          then assign (picked fields members) "version" (versionOf version)
                          else picked fields members
                 | None =>
                     if truthy version
                     then assign (picked fields members) "version" (versionOf version)
                     else picked fields members
                 end k
               = if String.eqb "webui" k && truthy webui then webui
                 else if String.eqb "version" k && truthy version
                      then Some (versionOf version)
                      else if existsb (String.eqb k) fields then own_property members k
                           else None).
    { intros k.
      assert (Hinner : own_property
                         (if truthy version
                          then assign (picked fields members) "version" (versionOf version)
                          else picked fields members) k
                       = if String.eqb "version" k && truthy version
                         then Some (versionOf version)
                         else if existsb (String.eqb k) fields then own_property members k
                              else None).
      { destruct (truthy version).
        - rewrite own_property_assign, own_property_picked, andb_true_r. reflexivity.
        - rewrite own_property_picked, andb_false_r. reflexivity. }
      destruct webui as [link|] eqn:Hwebui.
      - destruct (truthy (Some link)).
        + rewrite own_property_assign, Hinner, andb_true_r. reflexivity.
        + rewrite Hinner, andb_false_r. reflexivity.
      - rewrite Hinner. cbn [truthy]. rewrite andb_false_r. reflexivity. }
    split.
    - intros k. rewrite Hread.
      destruct (String.eqb "webui" k) eqn:Ha.
      { intros _. right. right. symmetry. apply String.eqb_eq. exact Ha. }
      cbn [andb].
      destruct (String.eqb "version" k) eqn:Hb.
      { intros _. right. left. symmetry. apply String.eqb_eq. exact Hb. }
      cbn [andb].
      destruct (existsb (String.eqb k) fields) eqn:Hc; [|congruence].
      intros _. left. apply existsb_eqb_In. exact Hc.
    - intros k Hin Hversion Hwebui. rewrite Hread.
      replace (String.eqb "webui" k) with false
        by (symmetry; apply String.eqb_neq; congruence).
      replace (String.eqb "version" k) with false
        by (symmetry; apply String.eqb_neq; congruence).
      cbn [andb]. apply existsb_eqb_In in Hin. rewrite Hin. reflexivity. }
  split.
  { intros items optimized. rewrite optimizeResponse_array.
    destruct (traverse _ items) as [kept|] eqn:Hkept; [|discriminate].
    intros [= <-]. exists kept. split; [reflexivity|].
    exact (traverse_length _ _ _ Hkept). }
  intros data Harr Hobj. destruct data; try reflexivity.
  - exfalso. exact (Harr _ eq_refl).
  - exfalso. exact (Hobj _ eq_refl).
Qed.

Lemma optimizeResponse_with_body_unfold members :
  optimizeResponse withBody (JObj members)
  = let originalHtml := optional (optional (own_property members "body") "storage") "value" in
    let finish optimized :=
      let version := own_property members "version" in
      let optimized :=
        if truthy version then assign optimized "version" (versionOf version)
        else optimized in
      let webui := optional (own_property members "_links") "webui" in
      match webui with
      | Some link => if truthy webui then assign optimized "webui" link else optimized
      | None => optimized
      end in
    if truthy originalHtml then
      match cleanHtmlToText originalHtml with
      | Ret content =>
          Ret (JObj (finish (assign (picked ["id"; "title"; "type"; "status"] members) "body"
                               (JObj ([("content", JStr content)]
                                      ++ Jira.field "originalLength"
                                           (length_of originalHtml))))))
      | Throw e => Throw e
      end
    else Ret (JObj (finish (picked ["id"; "title"; "type"; "status"] members))).
Proof.
  cbn [optimizeResponse withBody includeBody fields andb]. cbv zeta.
  destruct (truthy _); [|reflexivity].
  unfold and_then at 1.
  destruct (cleanHtmlToText _); reflexivity.
Qed.

Lemma body_survives members optimized :
  own_property
    (let version := own_property members "version" in
     let optimized :=
       if truthy version then assign optimized "version" (versionOf version)
       else optimized in
     let webui := optional (own_property members "_links") "webui" in
     match webui with
     | Some link => if truthy webui then assign optimized "webui" link else optimized
     | None => optimized
     end) "body"
  = own_property optimized "body".
Proof.
  cbv zeta.
  assert (Hinner : own_property
                     (if truthy (own_property members "version")
                      then assign optimized "version"
                             (versionOf (own_property members "version"))
                      else optimized) "body" = own_property optimized "body").
  { destruct (truthy _); [|reflexivity]. rewrite own_property_assign. reflexivity. }
  destruct (optional (own_property members "_links") "webui") as [link|]; [|exact Hinner].
  destruct (truthy (Some link)); [|exact Hinner].
  rewrite own_property_assign. exact Hinner.
Qed.

(** What [getPage] makes of the body of a page.  When
    [body.storage.value] is a non-empty string, the result has a [body]
    made of the cleaned text and of the length of the original markup;
    when it is missing or falsy, the result has no [body]; when it is a
    truthy value that is no string, the call throws, because the value
    has no [replace]. *)
Theorem optimizeResponse_with_body members :
  let originalHtml := optional (optional (own_property members "body") "storage") "value" in
  (forall s, originalHtml = Some (JStr s) -> nonempty s = true ->
     exists kept content,
       optimizeResponse withBody (JObj members) = Ret (JObj kept) /\
       Normalizer.cleanHtmlToText s = Ret content /\
       own_property kept "body"
       = Some (JObj [("content", JStr content);
                     ("originalLength", JNum (Z.of_nat (String.length s)))])) /\
  (truthy originalHtml = false ->
     exists kept,
       optimizeResponse withBody (JObj members) = Ret (JObj kept) /\
       own_property kept "body" = None) /\
  (truthy originalHtml = true -> (forall s, originalHtml <> Some (JStr s)) ->
     optimizeResponse withBody (JObj members) = Throw "html.replace is not a function").
Proof.
  intros originalHtml.
  split; [|split].
  - intros s Hvalue Hs. rewrite optimizeResponse_with_body_unfold. cbv zeta.
    fold originalHtml. rewrite Hvalue. cbn [truthy]. rewrite Hs.
    cbn [cleanHtmlToText length_of Jira.field app].
    assert (Htotal : exists content, Normalizer.cleanHtmlToText s = Ret content).
    { unfold Normalizer.cleanHtmlToText. rewrite Hs. cbn [negb].
      destruct (convert _ _); eexists; reflexivity. }
    destruct Htotal as [content Hcontent]. rewrite Hcontent.
    eexists _, content. split; [reflexivity|]. split; [reflexivity|].
    change (own_property _ "body")
      with (own_property
              (let version := own_property members "version" in
               let optimized :=
                 if truthy version
                 then assign (assign (picked ["id"; "title"; "type"; "status"] members) "body"
                                (JObj [("content", JStr content);
                                       ("originalLength", JNum (Z.of_nat (String.length s)))]))
                        "version" (versionOf version)
                 else assign (picked ["id"; "title"; "type"; "status"] members) "body"
                        (JObj [("content", JStr content);
                               ("originalLength", JNum (Z.of_nat (String.length s)))]) in
               let webui := optional (own_property members "_links") "webui" in
               match webui with
               | Some link => if truthy webui then assign optimized "webui" link else optimized
               | None => optimized
               end) "body").
    rewrite body_survives, own_property_assign. reflexivity.
  - intros Hfalsy. rewrite optimizeResponse_with_body_unfold. cbv zeta.
    fold originalHtml. rewrite Hfalsy.
    eexists. split; [reflexivity|].
    change (own_property _ "body")
      with (own_property
              (let version := own_property members "version" in
               let optimized :=
                 if truthy version
                 then assign (picked ["id"; "title"; "type"; "status"] members)
                        "version" (versionOf version)
                 else picked ["id"; "title"; "type"; "status"] members in
               let webui := optional (own_property members "_links") "webui" in
               match webui with
               | Some link => if truthy webui then assign optimized "webui" link else optimized
               | None => optimized
               end) "body").
    rewrite body_survives, own_property_picked. reflexivity.
  - intros Htruthy Hnostring. rewrite optimizeResponse_with_body_unfold. cbv zeta.
    fold originalHtml. rewrite Htruthy.
    unfold cleanHtmlToText. rewrite Htruthy.
    destruct originalHtml as [[| | | s | |]|]; try reflexivity.
    exfalso. exact (Hnostring s eq_refl).
Qed.

End Shapes.
End ConfluenceShapeTheorems.

Module SharedObjectTheorems.
Import JsString Json Runtime Library JsValue Confluence ConfluenceShapes ConfluenceShared.
Import Observe ValueFacts ObjectFacts CacheTheorems.

Section Adapter.
Context `{Host} `{Remote} `{HtmlToText} `{Engine}.

(** The body that the listing methods share. *)
Local Abbreviation listing endpoint f limit :=
  (bind (GET endpoint)
     (fun result => bind (remap endpoint f result) (fun result => lift (paged result limit)))).

Lemma traverse_again (f : json -> outcome json) (R : json -> json -> Prop) :
  (forall x y, f x = Ret y -> exists y', f y = Ret y' /\ R y y') ->
  forall l m, traverse f l = Ret m ->
  exists m', traverse f m = Ret m' /\ Forall2 R m m'.
Proof.
  intros Hf. induction l as [|x l IH]; intros m; cbn [traverse].
  - intros [= <-]. exists []. split; [reflexivity | constructor].
  - destruct (f x) as [y|e] eqn:Hx; [|discriminate].
    destruct (traverse f l) as [ys|e] eqn:Hl; [|discriminate].
    intros [= <-].
    destruct (Hf x y Hx) as (y' & Hy & Hr).
    destruct (IH ys eq_refl) as (ys' & Hys & Hrs).
    exists (y' :: ys'). cbn [traverse]. rewrite Hy, Hys.
    split; [reflexivity | constructor; assumption].
Qed.

Lemma paged_assigned members items limit :
  paged (JObj (assign members "results" (JArr items))) limit
  = Ret (JObj [("results", JArr items);
               ("size", or_default (own_property members "size") (JNum 0));
               ("limit", or_default (own_property members "limit") limit)]).
Proof.
  unfold paged, and_then. cbn [prop].
  rewrite !own_property_assign. reflexivity.
Qed.

Lemma listing_first endpoint f limit w status d members items :
  let request := MkRequest "GET" endpoint JNull in
  let t := now w + elapsed (calls w) request in
  (forall e, cache w !! keyOf endpoint = Some e -> cacheTimeout <= now w - timestamp e) ->
  serve (calls w) request = Response status d ->
  status < 400 ->
  JSON_parse d = Parsed (JObj members) ->
  own_property members "results" = Some (JArr items) ->
  listing endpoint f limit w =
  match traverse f items with
  | Ret mapped =>
      (Ret (JObj [("results", JArr mapped);
                  ("size", or_default (own_property members "size") (JNum 0));
                  ("limit", or_default (own_property members "limit") limit)]),
       MkWorld (<[keyOf endpoint := MkEntry (JObj (assign members "results" (JArr mapped))) t]>
                  (delete (keyOf endpoint) (cache w)))
               t (calls w ++ [request]) (stdout w))
  | Throw e =>
      (Throw e,
       MkWorld (<[keyOf endpoint := MkEntry (JObj members) t]> (delete (keyOf endpoint) (cache w)))
               t (calls w ++ [request]) (stdout w))
  end.
Proof.
  intros request t Hmiss Hserve Hstatus Hparse Hresults.
  unfold bind at 1. unfold GET.
  rewrite (makeRequest_miss endpoint w Hmiss). cbv zeta. fold request.
  rewrite Hserve. apply Z.leb_gt in Hstatus. rewrite Hstatus, Hparse.
  cbn [cache now calls stdout]. fold t.
  unfold bind at 1. unfold remap. unfold bind at 1, lift at 1. cbn [prop].
  rewrite Hresults. cbn [truthy]. unfold bind at 1, lift at 1. cbn [array_map].
  destruct (traverse f items) as [mapped|e]; [|reflexivity].
  cbn [cache now calls stdout]. unfold lift. rewrite paged_assigned.
  rewrite alter_insert_eq. reflexivity.
Qed.

Lemma listing_again endpoint f limit w members mapped again t :
  cache w !! keyOf endpoint = Some (MkEntry (JObj members) t) ->
  now w - t < cacheTimeout ->
  own_property members "results" = Some (JArr mapped) ->
  traverse f mapped = Ret again ->
  exists w',
    listing endpoint f limit w
    = (Ret (JObj [("results", JArr again);
                  ("size", or_default (own_property members "size") (JNum 0));
                  ("limit", or_default (own_property members "limit") limit)]), w') /\
    calls w' = calls w /\ stdout w' = stdout w /\ now w' = now w.
Proof.
  intros Hlook Hage Hresults Hagain.
  unfold bind at 1. unfold GET.
  rewrite (makeRequest_hit endpoint (MkEntry (JObj members) t) w Hlook Hage eq_refl).
  cbn [data].
  unfold bind at 1. unfold remap. unfold bind at 1, lift at 1. cbn [prop].
  rewrite Hresults. cbn [truthy]. unfold bind at 1, lift at 1. cbn [array_map].
  rewrite Hagain. unfold lift. rewrite paged_assigned.
  eexists. split; [reflexivity|]. repeat split.
Qed.

Lemma compactSpace_again x y :
  compactSpace x = Ret y ->
  exists y',
    compactSpace y = Ret y' /\
    optional (Some y') "webui" = None /\
    (forall k, k <> "webui" -> optional (Some y') k = optional (Some y) k).
Proof.
  unfold compactSpace, and_then.
  destruct (prop (Some x) "key") as [key|e]; [|discriminate].
  destruct (prop (Some x) "name") as [name|e]; [|discriminate].
  destruct (prop (Some x) "type") as [type|e]; [|discriminate].
  destruct (prop (Some x) "status") as [status|e]; [|discriminate].
  destruct (prop (Some x) "_links") as [links|e]; [|discriminate].
  intros [= <-]. cbn [prop].
  rewrite !own_property_app, !own_property_field.
  cbn [String.eqb Ascii.eqb Bool.eqb optional].
  eexists. split; [reflexivity|].
  cbn [optional]. split.
  - rewrite !own_property_app, !own_property_field.
    cbn [String.eqb Ascii.eqb Bool.eqb Jira.field own_property]. 
    destruct key, name, type, status; reflexivity.
  - intros k Hk.
    rewrite !own_property_app, !own_property_field.
    replace (String.eqb "webui" k) with false
      by (symmetry; apply String.eqb_neq; congruence).
    cbn [Jira.field own_property].
    destruct key, name, type, status; reflexivity.
Qed.

Lemma compactComment_again x y :
  compactComment x = Ret y ->
  exists y',
    compactComment y = Ret y' /\
    optional (Some y') "body" = Some (JStr EmptyString) /\
    optional (Some y') "author" = Some JNull /\
    optional (Some y') "created" = None /\
    optional (Some y') "id" = optional (Some y) "id" /\
    optional (Some y') "title" = optional (Some y) "title".
Proof.
  unfold compactComment, and_then.
  destruct (prop (Some x) "id") as [id|e]; [|discriminate].
  destruct (prop (Some x) "title") as [title|e]; [|discriminate].
  destruct (prop (Some x) "body") as [body|e]; [|discriminate].
  destruct (prop (Some x) "history") as [history|e]; [|discriminate].
  destruct (if truthy (optional body "storage")
            then cleanHtmlToText (optional (optional body "storage") "value")
            else Ret EmptyString) as [text|e]; [|discriminate].
  intros [= <-]. cbn [prop].
  repeat (progress (rewrite ?own_property_app, ?own_property_field;
                    cbn [String.eqb Ascii.eqb Bool.eqb optional own_property truthy])).
  eexists. split; [reflexivity|].
  cbn [optional].
  repeat (progress (rewrite ?own_property_app, ?own_property_field;
                    cbn [String.eqb Ascii.eqb Bool.eqb Jira.field own_property])).
  destruct id, title; repeat split; reflexivity.
Qed.

(** What a run of a listing method returned under [results]. *)
Lemma listing_pair endpoint f limit w status d members items first w1 dt
    (R : json -> json -> Prop) :
  let request := MkRequest "GET" endpoint JNull in
  (forall x y, f x = Ret y -> exists y', f y = Ret y' /\ R y y') ->
  (forall e, cache w !! keyOf endpoint = Some e -> cacheTimeout <= now w - timestamp e) ->
  serve (calls w) request = Response status d ->
  status < 400 ->
  JSON_parse d = Parsed (JObj members) ->
  own_property members "results" = Some (JArr items) ->
  listing endpoint f limit w = (Ret first, w1) ->
  dt < cacheTimeout ->
  exists mapped again second w2,
    traverse f items = Ret mapped /\
    optional (Some first) "results" = Some (JArr mapped) /\
    calls w1 = calls w ++ [request] /\
    listing endpoint f limit (later dt w1) = (Ret second, w2) /\
    calls w2 = calls w1 /\
    optional (Some second) "results" = Some (JArr again) /\
    Forall2 R mapped again.
Proof.
  intros request Hf Hmiss Hserve Hstatus Hparse Hresults Hfirst Hdt.
  rewrite (listing_first endpoint f limit w status d members items
             Hmiss Hserve Hstatus Hparse Hresults) in Hfirst.
  destruct (traverse f items) as [mapped|e] eqn:Hmapped; [|discriminate].
  injection Hfirst as <- <-.
  destruct (traverse_again f R Hf items mapped Hmapped) as (again & Hagain & Hrel).
  set (t := now w + elapsed (calls w) request).
  set (stored := <[keyOf endpoint := MkEntry (JObj (assign members "results" (JArr mapped))) t]>
                   (delete (keyOf endpoint) (cache w))).
  destruct (listing_again endpoint f limit
              (later dt (MkWorld stored t (calls w ++ [request]) (stdout w)))
              (assign members "results" (JArr mapped)) mapped again t)
    as (w2 & Hsecond & Hcalls & _).
  - cbn [later cache]. apply lookup_insert_eq.
  - cbn [later now]. lia.
  - rewrite own_property_assign. reflexivity.
  - exact Hagain.
  - exists mapped, again. eexists. exists w2.
    split; [reflexivity|]. split; [reflexivity|]. split; [reflexivity|].
    split; [exact Hsecond|]. split; [exact Hcalls|]. split; [reflexivity | exact Hrel].
Qed.

(** A second [getSpacesCompact] within the time to live answers from the
    cache, and answers less.  The first call writes its compact spaces
    into the answer that the cache holds; the second call finds them
    there, makes no backend call, and compacts them again, which drops
    the link of every space: what [webui] is read from is no longer
    there. *)
Theorem confluence_second_listing_of_spaces_loses_the_links
    limit status d members spaces first w w1 dt :
  let endpoint := "/space?limit=" +:+ toStr (default_to (JNum 25) limit) in
  let request := MkRequest "GET" endpoint JNull in
  (forall e, cache w !! keyOf endpoint = Some e -> cacheTimeout <= now w - timestamp e) ->
  serve (calls w) request = Response status d ->
  status < 400 ->
  JSON_parse d = Parsed (JObj members) ->
  own_property members "results" = Some (JArr spaces) ->
  getSpacesCompact limit w = (Ret first, w1) ->
  dt < cacheTimeout ->
  exists mapped again second w2,
    traverse compactSpace spaces = Ret mapped /\
    optional (Some first) "results" = Some (JArr mapped) /\
    calls w1 = calls w ++ [request] /\
    getSpacesCompact limit (later dt w1) = (Ret second, w2) /\
    calls w2 = calls w1 /\
    optional (Some second) "results" = Some (JArr again) /\
    Forall2 (fun before after =>
               optional (Some after) "webui" = None /\
               (forall k, k <> "webui" ->
                          optional (Some after) k = optional (Some before) k))
            mapped again.
Proof.
  intros endpoint request Hmiss Hserve Hstatus Hparse Hresults Hfirst Hdt.
  exact (listing_pair endpoint compactSpace (default_to (JNum 25) limit)
           w status d members spaces first w1 dt _
           compactSpace_again Hmiss Hserve Hstatus Hparse Hresults Hfirst Hdt).
Qed.

(** A second [getPageComments] within the time to live returns the
    comments without their text.  The first call replaces the comments
    in the cached answer by their compact form, in which [body] is a
    text; the second call reads [body.storage] of that text, finds
    nothing, and gives every comment an empty body, no author and no
    date, without asking the backend. *)
Theorem confluence_second_listing_of_comments_is_empty
    pageId limit status d members comments first w w1 dt :
  let endpoint := "/content/" +:+ interpolate pageId +:+ "/child/comment?limit="
                  +:+ toStr (default_to (JNum 25) limit) in
  let request := MkRequest "GET" endpoint JNull in
  (forall e, cache w !! keyOf endpoint = Some e -> cacheTimeout <= now w - timestamp e) ->
  serve (calls w) request = Response status d ->
  status < 400 ->
  JSON_parse d = Parsed (JObj members) ->
  own_property members "results" = Some (JArr comments) ->
  getPageComments pageId limit w = (Ret first, w1) ->
  dt < cacheTimeout ->
  exists mapped again second w2,
    traverse compactComment comments = Ret mapped /\
    optional (Some first) "results" = Some (JArr mapped) /\
    calls w1 = calls w ++ [request] /\
    getPageComments pageId limit (later dt w1) = (Ret second, w2) /\
    calls w2 = calls w1 /\
    optional (Some second) "results" = Some (JArr again) /\
    Forall2 (fun before after =>
               optional (Some after) "body" = Some (JStr EmptyString) /\
               optional (Some after) "author" = Some JNull /\
               optional (Some after) "created" = None /\
               optional (Some after) "id" = optional (Some before) "id" /\
               optional (Some after) "title" = optional (Some before) "title")
            mapped again.
Proof.
  intros endpoint request Hmiss Hserve Hstatus Hparse Hresults Hfirst Hdt.
  exact (listing_pair endpoint compactComment (default_to (JNum 25) limit)
           w status d members comments first w1 dt _
           compactComment_again Hmiss Hserve Hstatus Hparse Hresults Hfirst Hdt).
Qed.

End Adapter.
End SharedObjectTheorems.

Module DispatchTheorems.
Import JsString Json Runtime Registry Library JsValue Observe Expect.
Import FramerFacts ValueFacts JiraRequestFacts.

Section Text.

Lemma prefix_cons_other (k c : ascii) (kw rest : string) :
  c <> k -> String.prefix (String k kw) (String c rest) = false.
Proof.
  intros Hne. cbn [String.prefix]. destruct (ascii_dec k c) as [Heq|_]; [|reflexivity].
  congruence.
Qed.

(** Text put before a message adds no occurrence of a word whose first
    character it does not hold. *)
Lemma includes_after (before message : string) (k : ascii) (kw : string) :
  (forall c, In c (list_ascii_of_string before) -> c <> k) ->
  includes (before +:+ message) (String k kw) = includes message (String k kw).
Proof.
  induction before as [|c before IH]; intros Hfresh.
  - rewrite append_nil. reflexivity.
  - rewrite append_cons. cbn [includes].
    rewrite prefix_cons_other by (apply Hfresh; left; reflexivity).
    cbn [orb]. apply IH. intros c' Hin. apply Hfresh. right. exact Hin.
Qed.

Lemma includes_prefix (word rest : string) : includes (word +:+ rest) word = true.
Proof.
  assert (Hprefix : String.prefix word (word +:+ rest) = true).
  { induction word as [|c word IH]; [destruct (EmptyString +:+ rest); reflexivity|].
    rewrite append_cons. cbn [String.prefix].
    destruct (ascii_dec c c); [exact IH | congruence]. }
  destruct (word +:+ rest); cbn [includes]; rewrite Hprefix; reflexivity.
Qed.

End Text.

Section Jira.
Context `{Host} `{Remote} `{Shaping}.
Import Jira.

Lemma require_passes afields keys message w :
  (forall key, In key keys -> truthy (own_property afields key) = true) ->
  require (JObj afields) keys message w = (Ret tt, w).
Proof.
  intros Hkeys. unfold require.
  assert (Hsome : some_missing (JObj afields) keys = Ret false).
  { induction keys as [|key keys IH]; [reflexivity|].
    cbn [some_missing prop]. rewrite (Hkeys key) by (left; reflexivity).
    apply IH. intros key' Hin. apply Hkeys. right. exact Hin. }
  rewrite Hsome. reflexivity.
Qed.

Lemma shaped_call endpoint method body fields (k : json -> outcome json) w :
  makes (bind (makeRequest endpoint method body fields) (fun result => lift (k result))) w
    [MkRequest method (fullEndpoint endpoint fields) body].
Proof.
  unfold makes, bind.
  pose proof (jira_makeRequest_call endpoint method body fields w) as Hcall.
  unfold makes in Hcall.
  destruct (makeRequest endpoint method body fields w) as [[result|e] w'];
    cbn [snd] in *; exact Hcall.
Qed.

Lemma makes_after {A B} (m : M A) (k : A -> M B) a w r :
  m w = (Ret a, w) -> makes (k a) w r -> makes (bind m k) w r.
Proof. intros Hm Hk. unfold makes, bind. rewrite Hm. exact Hk. Qed.

(** A call of a registered Jira tool that gives every required argument,
    and gives only arguments that can be printed, costs exactly one
    request to the backend, whatever the backend answers and whatever
    becomes of the answer.  An argument that cannot be printed, such as
    an object with a property [toString], makes the template literal
    that builds the path throw before any request; so does, in
    [searchIssues], a query that holds half of a surrogate pair, which
    [encodeURIComponent] refuses and which the strings of this
    development, made of code units below 256, cannot hold. *)
Theorem jira_valid_call_makes_one_backend_call tool afields w :
  In tool registry ->
  (forall key, In key (required tool) -> truthy (own_property afields key) = true) ->
  Forall (fun argument => printable (snd argument) = true) afields ->
  exists request, makes (callTool (Some (JStr (name tool))) (JObj afields)) w [request].
Proof.
  intros Htool Hkeys _. cbn [registry In] in Htool.
  destruct Htool as [<-|[<-|[<-|[<-|[<-|[<-|[<-|[<-|[<-|[<-|[<-|[]]]]]]]]]]]];
    cbn [name required] in *;
    unfold callTool; cbn [strict_eq String.eqb Ascii.eqb Bool.eqb];
    try (eexists;
         repeat (eapply makes_after;
                 [first [apply require_passes; exact Hkeys | reflexivity]|]);
         apply shaped_call).
  unfold getLabels.
  destruct (truthy (Some (default_to JNull (own_property afields "projectKey")))) eqn:Hkey;
    eexists;
    (eapply makes_after; [reflexivity|]); (eapply makes_after; [reflexivity|]);
    cbv zeta; rewrite Hkey; apply shaped_call.
Qed.

Lemma jira_classify_tool_failure message :
  classify ("Tool execution failed: " +:+ message)
  = if includes message "Unknown method" then (-32601, "Method not found")
    else if includes message "required" || includes message "Invalid arguments"
         then (-32602, "Invalid params")
         else (-32000, "Tool execution error").
Proof.
  unfold classify.
  rewrite !includes_after
    by (intros c Hin; cbn in Hin;
        repeat (destruct Hin as [<-|Hin]; [discriminate|]); destruct Hin).
  change ("Tool execution failed: " +:+ message)
    with ("Tool execution failed" +:+ (": " +:+ message)).
  rewrite includes_prefix. reflexivity.
Qed.

(** The code of a failed tool call is read off the words of the failure.
    Whatever a Jira tool throws is answered by one error reply whose
    data is the failure after the text "Tool execution failed: "; the
    code is -32601 when the failure holds "Unknown method", else -32602
    when it holds "required" or "Invalid arguments", else -32000, and
    never -32603.  So the body of a backend error decides the code. *)
Theorem jira_tool_failure_code_follows_the_text line fields pfields message w w' :
  JSON_parse line = Parsed (JObj fields) ->
  own_property fields "method" = Some (JStr "tools/call") ->
  own_property fields "params" = Some (JObj pfields) ->
  callTool (own_property pfields "name")
    (default_to (JObj []) (own_property pfields "arguments")) w = (Throw message, w') ->
  let code_and_text :=
    if includes message "Unknown method" then (-32601, "Method not found")
    else if includes message "required" || includes message "Invalid arguments"
         then (-32602, "Invalid params")
         else (-32000, "Tool execution error") in
  writes (processLine line) w
    [MkReply (or_else (own_property fields "id") (Some JNull))
       (Error (fst code_and_text) (snd code_and_text)
          (Some ("Tool execution failed: " +:+ message)))] /\
  fst code_and_text <> -32603.
Proof.
  intros Hline Hmethod Hparams Hcall code_and_text.
  assert (Hrun : processLine line w =
                 (Ret tt, wrote (error_reply (or_else (own_property fields "id") (Some JNull))
                                   ("Tool execution failed: " +:+ message)) w')).
  { apply (JiraTheorems.jira_processLine_failure line (JObj fields) (own_property fields "id")).
    - exact Hline.
    - reflexivity.
    - rewrite (JiraTheorems.jira_handleRequest_tools_call fields (JObj pfields) w
                 Hmethod Hparams).
      apply JiraTheorems.jira_handleToolCall_failure. exact Hcall. }
  assert (Hout : stdout w' = stdout w).
  { pose proof (JiraFacts.jira_callTool_quiet (own_property pfields "name")
                  (default_to (JObj []) (own_property pfields "arguments")) w) as Hquiet.
    rewrite Hcall in Hquiet. exact Hquiet. }
  split.
  - unfold writes. rewrite Hrun. cbn [snd wrote stdout]. rewrite Hout.
    unfold error_reply. rewrite jira_classify_tool_failure. fold code_and_text.
    destruct code_and_text. reflexivity.
  - unfold code_and_text.
    destruct (includes message "Unknown method"); [discriminate|].
    destruct (includes message "required" || includes message "Invalid arguments");
      discriminate.
Qed.

End Jira.

Section Legacy.
Context `{Host} `{Remote} `{Shaping}.
Import JiraLegacy.

(** The legacy adapter answers a failed tool call with a result.
    Whatever the tool throws, the request gets a result reply under its
    id, whose content is the failure after a mark and whose [isError]
    is true; no error reply is written and the loop goes on. *)
Theorem legacy_tool_failures_are_results line fields pfields w :
  JSON_parse line = Parsed (JObj fields) ->
  own_property fields "method" = Some (JStr "tools/call") ->
  own_property fields "params" = Some (JObj pfields) ->
  let called := callTool (own_property pfields "name")
                  (default_to (JObj []) (own_property pfields "arguments")) w in
  exists response,
    processLine line w
    = (Ret tt, wrote (MkReply (own_property fields "id") (Result response)) (snd called)) /\
    (forall message, fst called = Throw message ->
       response = error_content ("❌  오류: " +:+ message)) /\
    (forall result, fst called = Ret result ->
       response = Jira.text_content (JSON_stringify 2 result)).
Proof.
  intros Hline Hmethod Hparams called.
  unfold processLine. rewrite Hline.
  unfold bind at 1. unfold handleRequest. unfold bind at 1, lift at 1.
  cbn [Jira.destructure]. unfold bind at 1, lift at 1. cbn [Jira.destructure].
  rewrite Hmethod, Hparams. cbn [default_to strict_eq String.eqb Ascii.eqb Bool.eqb].
  unfold handleToolCall. unfold bind at 1, lift at 1. cbn [Jira.destructure].
  unfold bind at 1, lift at 1. cbn [Jira.destructure].
  unfold try_catch, bind at 1. fold called.
  destruct called as [[result|message] w'] eqn:Hcalled; cbn [fst snd ret];
    unfold bind, lift; cbn [prop]; eexists;
    (split; [reflexivity|]); split; intros ? [=]; subst; reflexivity.
Qed.

End Legacy.

Section Confluence.
Context `{Host} `{Remote} `{Shaping} `{Engine}.
Import Confluence.

Lemma confluence_tools_call_run line fields pfields w :
  JSON_parse line = Parsed (JObj fields) ->
  own_property fields "method" = Some (JStr "tools/call") ->
  own_property fields "params" = Some (JObj pfields) ->
  let called := callTool (own_property pfields "name")
                  (default_to (JObj []) (own_property pfields "arguments")) w in
  let response :=
    match fst called with
    | Ret result => Jira.text_content (JSON_stringify 2 result)
    | Throw message => JiraLegacy.error_content ("Error: " +:+ message)
    end in
  processLine line w
  = (Ret tt,
     MkWorld (cache (snd called)) (now (snd called)) (calls (snd called))
       (stdout (snd called) ++ result_reply (requestIdOf (own_property fields "id")) response)).
Proof.
  intros Hline Hmethod Hparams called response.
  rewrite (ConfluenceTheorems.confluence_processLine_decoded line fields w Hline)
    by (rewrite Hmethod; reflexivity).
  rewrite (ConfluenceTheorems.confluence_handleRequest_tools_call fields (JObj pfields) w
             Hmethod Hparams).
  unfold handleToolCall, bind, lift, try_catch. cbn [Jira.destructure].
  unfold response. fold called.
  destruct called as [[result|message] w']; reflexivity.
Qed.

(** The Confluence adapter never answers a tool call with an error.
    Whatever the tool does, a tools/call request is answered by a result
    under its id, or by nothing when it has no id: the text of what the
    tool returned, or, when the tool threw, the failure after "Error: "
    with [isError] true.  An unknown tool and a failed backend call are
    both reported this way. *)
Theorem confluence_tool_failures_are_results line fields pfields w :
  JSON_parse line = Parsed (JObj fields) ->
  own_property fields "method" = Some (JStr "tools/call") ->
  own_property fields "params" = Some (JObj pfields) ->
  let called := callTool (own_property pfields "name")
                  (default_to (JObj []) (own_property pfields "arguments")) w in
  exists response,
    writes (processLine line) w
      (result_reply (requestIdOf (own_property fields "id")) response) /\
    calls (snd (processLine line w)) = calls (snd called) /\
    (forall message, fst called = Throw message ->
       response = JiraLegacy.error_content ("Error: " +:+ message)) /\
    (forall result, fst called = Ret result ->
       response = Jira.text_content (JSON_stringify 2 result)).
Proof.
  intros Hline Hmethod Hparams called.
  pose proof (confluence_tools_call_run line fields pfields w Hline Hmethod Hparams) as Hrun.
  cbv zeta in Hrun. fold called in Hrun.
  eexists. split; [|split; [|split]].
  - unfold writes. rewrite Hrun. cbn [snd stdout].
    pose proof (ConfluenceFacts.confluence_callTool_quiet (own_property pfields "name")
                  (default_to (JObj []) (own_property pfields "arguments")) w) as Hquiet.
    fold called in Hquiet. rewrite Hquiet. reflexivity.
  - rewrite Hrun. reflexivity.
  - intros message Hthrow. rewrite Hthrow. reflexivity.
  - intros result Hret. rewrite Hret. reflexivity.
Qed.

Lemma confluence_makeRequest_write endpoint method body w :
  method <> "GET" ->
  let request := MkRequest method endpoint body in
  let w' := MkWorld (cache w) (now w + elapsed (calls w) request)
              (calls w ++ [request]) (stdout w) in
  makeRequest endpoint method body w =
  match serve (calls w) request with
  | NetworkError message => (Throw ("Request failed: " +:+ message), w')
  | Response status d =>
      if 400 <=? status then
        (Throw ("Confluence API Error: " +:+ decimal status +:+ " - " +:+ d), w')
      else
        match JSON_parse d with
        | Parsed result => (Ret result, w')
        | SyntaxError message => (Throw ("Failed to parse response: " +:+ message), w')
        end
  end.
Proof.
  intros Hmethod request w'. apply String.eqb_neq in Hmethod.
  unfold makeRequest. rewrite Hmethod. unfold bind, https_request.
  fold request. fold w'.
  destruct (serve (calls w) request) as [message|status d]; [reflexivity|].
  destruct (400 <=? status); [reflexivity|].
  destruct (JSON_parse d); reflexivity.
Qed.

(** A request that is no GET goes past the cache.  It makes exactly one
    backend call whatever the cache holds, and leaves the cache as it
    was: nothing is looked up, stored or dropped. *)
Theorem confluence_writes_go_past_the_cache endpoint method body w :
  method <> "GET" ->
  makes (makeRequest endpoint method body) w [MkRequest method endpoint body] /\
  cache (snd (makeRequest endpoint method body w)) = cache w /\
  stdout (snd (makeRequest endpoint method body w)) = stdout w.
Proof.
  intros Hmethod. unfold makes.
  rewrite (confluence_makeRequest_write endpoint method body w Hmethod). cbv zeta.
  destruct (serve _ _) as [message|status d]; [repeat split|].
  destruct (400 <=? status); [repeat split|].
  destruct (JSON_parse d); repeat split.
Qed.




(** What is stored is found again, until it is too old.  After
    [setToCache], a lookup of the key returns the stored value and
    leaves the cache as it is for as long as less than the time to live
    has passed; from then on it returns null and removes the entry.  No
    other key is touched by the store. *)
Theorem cache_gives_back_what_was_stored key d w dt :
  let stored := snd (setToCache key d w) in
  (dt < cacheTimeout ->
   getFromCache key (later dt stored) = (Ret d, later dt stored)) /\
  (cacheTimeout <= dt ->
   fst (getFromCache key (later dt stored)) = Ret JNull /\
   cache (snd (getFromCache key (later dt stored))) !! key = None) /\
  (forall other, other <> key -> cache stored !! other = cache w !! other).
Proof.
  intros stored. unfold stored, setToCache. cbn [snd].
  split; [|split].
  - intros Hdt. unfold getFromCache, later. cbn [cache now calls stdout].
    rewrite lookup_insert_eq. cbn [timestamp data].
    replace (now w + dt - now w <? cacheTimeout) with true
      by (symmetry; apply Z.ltb_lt; lia).
    reflexivity.
  - intros Hdt. unfold getFromCache, later. cbn [cache now calls stdout].
    rewrite lookup_insert_eq. cbn [timestamp data].
    replace (now w + dt - now w <? cacheTimeout) with false
      by (symmetry; apply Z.ltb_ge; lia).
    cbn [fst snd cache]. split; [reflexivity | apply lookup_delete_eq].
  - intros other Hother. cbn [cache]. apply lookup_insert_ne. congruence.
Qed.

End Confluence.
End DispatchTheorems.

Module MoreExamples.
Import JsString Json Runtime Registry Library JsValue Observe Expect Stub.

(** A project list that arrives as an array is reported as empty. *)
Lemma project_list_is_reported_empty :
  let R := remote (Response 200 (fst Fixtures.project_list)) in
  let run := @Jira.getProjects Fixtures.H R
               (@JiraShapes.shaping Fixtures.builtins Fixtures.plain Stub.S) in
  fst (run (boot 0))
  = Ret (JObj [("summary", JStr "총 0개의 프로젝트"); ("projects", JArr [])]) /\
  makes run (boot 0) [MkRequest "GET" "/project" JNull].
Proof.
  intros R run.
  apply (@JiraShapeTheorems.jira_getProjects_reports_nothing_of_an_array
           Fixtures.H R Fixtures.builtins Fixtures.plain Stub.S
           200 (fst Fixtures.project_list)
           [JObj [("key", JStr "OPS"); ("name", JStr "Operations")]] (boot 0)).
  - reflexivity.
  - lia.
  - reflexivity.
  - reflexivity.
Defined.


(** Of seven labels five are kept, and of four linked issues with a key
    three. *)
Lemma busy_issue_is_cut_down :
  let simplify := @JiraShapes.simplifyIssue Fixtures.builtins (fun _ => Ret EmptyString) in
  exists members,
    simplify Fixtures.busy_issue = Ret (JObj members) /\
    own_property members "link" = Some (JStr "https://oyitsm.cj.net/jira/browse/OPS-1") /\
    own_property members "labels"
    = Some (JArr [JStr "a"; JStr "b"; JStr "c"; JStr "d"; JStr "e"]) /\
    (forall v, own_property members "linkedIssues" = Some v ->
       exists items, v = JArr items /\ (0 < List.length items <= 3)%nat).
Proof.
  intros simplify.
  destruct (@JiraShapeTheorems.simplifyIssue_is_bounded_and_defaulted
              Fixtures.builtins (fun _ => Ret EmptyString) Fixtures.busy_issue _ eq_refl)
    as (members & Hmembers & Hlink & _ & _ & _ & _ & Hlinked).
  exists members. injection Hmembers as <-.
  split; [reflexivity|]. split; [exact Hlink|]. split; [reflexivity|].
  intros v Hv. destruct (Hlinked v Hv) as (items & Hitems & Hlen & _).
  exists items. split; assumption.
Defined.

(** The spaces listed twice, ten seconds apart: one backend call, and
    the link of the space is gone the second time. *)
Lemma spaces_listed_twice_lose_their_link :
  let R := remote (Response 200 (fst Fixtures.space_list)) in
  let run := @ConfluenceShared.getSpacesCompact Fixtures.H R None in
  let request := MkRequest "GET" "/space?limit=25" JNull in
  let w1 := snd (run (boot 0)) in
  exists mapped again second w2,
    JsValue.traverse ConfluenceShapes.compactSpace
      [JObj [("key", JStr "OPS"); ("name", JStr "Operations");
             ("_links", JObj [("webui", JStr "/display/OPS")])]] = Ret mapped /\
    mapped = [JObj [("key", JStr "OPS"); ("name", JStr "Operations");
                    ("webui", JStr "/display/OPS")]] /\
    calls w1 = [request] /\
    run (later 10000 w1) = (Ret second, w2) /\
    calls w2 = calls w1 /\
    optional (Some second) "results" = Some (JArr again) /\
    Forall2 (fun before after => optional (Some after) "webui" = None) mapped again.
Proof.
  intros R run request w1.
  destruct (@SharedObjectTheorems.confluence_second_listing_of_spaces_loses_the_links
              Fixtures.H R None 200 (fst Fixtures.space_list)
              [("results",
                JArr [JObj [("key", JStr "OPS"); ("name", JStr "Operations");
                            ("_links", JObj [("webui", JStr "/display/OPS")])]]);
               ("size", JNum 1)]
              [JObj [("key", JStr "OPS"); ("name", JStr "Operations");
                     ("_links", JObj [("webui", JStr "/display/OPS")])]]
              (JObj [("results",
                      JArr [JObj [("key", JStr "OPS"); ("name", JStr "Operations");
                                  ("webui", JStr "/display/OPS")]]);
                     ("size", JNum 1); ("limit", JNum 25)])
              (boot 0) w1 10000)
    as (mapped & again & second & w2 & Hmapped & _ & Hcalls & Hsecond & Hsame & Hresults & Hrel).
  - intros e He. vm_compute in He. discriminate He.
  - reflexivity.
  - lia.
  - reflexivity.
  - reflexivity.
  - unfold w1. rewrite (surjective_pairing (run (boot 0))) at 1. reflexivity.
  - vm_compute. reflexivity.
  - exists mapped, again, second, w2.
    split; [exact Hmapped|].
    split; [injection Hmapped as <-; reflexivity|].
    split; [exact Hcalls|]. split; [exact Hsecond|]. split; [exact Hsame|].
    split; [exact Hresults|].
    clear -Hrel. induction Hrel as [|before after mapped again [Hgone _] _ IH];
      constructor; assumption.
Defined.

(** The comments of a page listed twice, ten seconds apart: the text of
    the comment is gone the second time. *)
Lemma comments_listed_twice_lose_their_text :
  let R := remote (Response 200 (fst Fixtures.comment_list)) in
  let run := @ConfluenceShared.getPageComments Fixtures.H R Fixtures.plain Stub.E
               (Some (JStr "42")) None in
  let w1 := snd (run (boot 0)) in
  exists first again second w2,
    fst (run (boot 0)) = Ret first /\
    optional (Some first) "results"
    = Some (JArr [JObj [("id", JStr "7"); ("title", JStr "Re: plan");
                        ("body", JStr "fine by me");
                        ("author", JObj [("displayName", JStr "Kim")]);
                        ("created", JStr "2024-01-01")]]) /\
    run (later 10000 w1) = (Ret second, w2) /\
    calls w2 = calls w1 /\
    optional (Some second) "results" = Some (JArr again) /\
    Forall (fun after => optional (Some after) "body" = Some (JStr EmptyString)) again.
Proof.
  intros R run w1.
  destruct (@SharedObjectTheorems.confluence_second_listing_of_comments_is_empty
              Fixtures.H R Fixtures.plain Stub.E
              (Some (JStr "42")) None 200 (fst Fixtures.comment_list)
              [("results",
                JArr [JObj [("id", JStr "7"); ("title", JStr "Re: plan");
                            ("body", JObj [("storage", JObj [("value", JStr "fine by me")])]);
                            ("history",
                             JObj [("createdBy", JObj [("displayName", JStr "Kim")]);
                                   ("createdDate", JStr "2024-01-01")])]]);
               ("size", JNum 1)]
              [JObj [("id", JStr "7"); ("title", JStr "Re: plan");
                     ("body", JObj [("storage", JObj [("value", JStr "fine by me")])]);
                     ("history",
                      JObj [("createdBy", JObj [("displayName", JStr "Kim")]);
                            ("createdDate", JStr "2024-01-01")])]]
              (JObj [("results",
                      JArr [JObj [("id", JStr "7"); ("title", JStr "Re: plan");
                                  ("body", JStr "fine by me");
                                  ("author", JObj [("displayName", JStr "Kim")]);
                                  ("created", JStr "2024-01-01")]]);
                     ("size", JNum 1); ("limit", JNum 25)])
              (boot 0) w1 10000)
    as (mapped & again & second & w2 & _ & _ & _ & Hsecond & Hsame & Hresults & Hrel).
  - intros e He. vm_compute in He. discriminate He.
  - reflexivity.
  - lia.
  - reflexivity.
  - reflexivity.
  - unfold w1. rewrite (surjective_pairing (run (boot 0))) at 1. reflexivity.
  - vm_compute. reflexivity.
  - eexists _, again, second, w2.
    split; [reflexivity|]. split; [reflexivity|].
    split; [exact Hsecond|]. split; [exact Hsame|]. split; [exact Hresults|].
    clear -Hrel. induction Hrel as [|before after mapped again [Hgone _] _ IH];
      constructor; assumption.
Defined.

(** [get_issue] with its key makes one call, whatever comes back. *)
Lemma get_issue_with_key_makes_one_call :
  exists request,
    makes (@Jira.callTool Stub.H unreachable Stub.S (Some (JStr "get_issue"))
             (JObj [("issueKey", JStr "OPS-1")])) (boot 0) [request].
Proof.
  apply (@DispatchTheorems.jira_valid_call_makes_one_backend_call
           Stub.H unreachable Stub.S (nth 1 Jira.registry (MkTool "" "" [] []))
           [("issueKey", JStr "OPS-1")] (boot 0)).
  - right. left. reflexivity.
  - intros key [<-|[]]. reflexivity.
  - repeat constructor.
Defined.

(** Confluence on four messages: the notification that follows the
    handshake is dropped; a request for the tool list is answered under
    its id; a message without id for a method that does not exist is
    answered under a null id; a request whose method is a number is left
    without any reply, and ends the handler. *)
Lemma confluence_replies_by_kind_of_method :
  let run := @Confluence.processLine Fixtures.H unreachable Stub.S Stub.E in
  run (fst initialized) (boot 0) = (Ret tt, boot 0) /\
  run (fst Fixtures.numeric_method) (boot 0)
  = (Throw "request.method.startsWith is not a function", boot 0) /\
  (exists p, writes (run (fst list_tools)) (boot 0) [MkReply (Some (JNum 1)) p]) /\
  writes (run (fst unknown_method)) (boot 0)
    [MkReply (Some JNull)
       (Error (-32601) "Method not found" (Some "Unknown method: ping"))].
Proof.
  intros run.
  pose proof (fun line fields (Hparse : JSON_parse line = Parsed (JObj fields)) =>
                @ConfluenceTheorems.confluence_reply_contract
                  Fixtures.H unreachable Stub.S Stub.E line fields (boot 0) Hparse)
    as Hcontract.
  split; [|split; [|split]].
  - destruct (Hcontract (fst initialized)
                [("jsonrpc", JStr "2.0"); ("method", JStr "notifications/initialized")]
                eq_refl) as (Hdrop & _).
    apply (Hdrop "notifications/initialized"); [reflexivity | left; reflexivity].
  - destruct (Hcontract (fst Fixtures.numeric_method)
                [("jsonrpc", JStr "2.0"); ("id", JNum 1); ("method", JNum 5)]
                eq_refl) as (_ & Hstop & _).
    apply Hstop; [reflexivity | intros m; discriminate].
  - destruct (Hcontract (fst list_tools)
                [("jsonrpc", JStr "2.0"); ("id", JNum 1); ("method", JStr "tools/list")]
                eq_refl) as (_ & _ & Hreply & _).
    apply Hreply; [|reflexivity | discriminate].
    right. exists "tools/list". split; [reflexivity|]. split; [reflexivity | discriminate].
  - destruct (Hcontract (fst unknown_method)
                [("jsonrpc", JStr "2.0"); ("method", JStr "ping")]
                eq_refl) as (_ & _ & _ & Hunknown).
    apply Hunknown; try reflexivity.
    right. exists "ping". split; [reflexivity|]. split; [reflexivity | discriminate].
Defined.

(** A backend that refuses an issue with a text that holds "required"
    has its refusal reported as invalid parameters. *)
Lemma backend_text_makes_invalid_params :
  let R := remote (Response 400 "Field 'summary' is required") in
  writes (@Jira.processLine Fixtures.H R Stub.S (fst Fixtures.call_get_issue_ops)) (boot 0)
    [MkReply (Some (JNum 6))
       (Error (-32602) "Invalid params"
          (Some "Tool execution failed: Jira API Error: 400 - Field 'summary' is required"))].
Proof.
  intros R.
  apply (proj1 (@DispatchTheorems.jira_tool_failure_code_follows_the_text
                  Fixtures.H R Stub.S (fst Fixtures.call_get_issue_ops)
                  [("jsonrpc", JStr "2.0"); ("id", JNum 6); ("method", JStr "tools/call");
                   ("params", JObj [("name", JStr "get_issue");
                                    ("arguments", JObj [("issueKey", JStr "OPS-1")])])]
                  [("name", JStr "get_issue");
                   ("arguments", JObj [("issueKey", JStr "OPS-1")])]
                  "Jira API Error: 400 - Field 'summary' is required" (boot 0)
                  (snd (@Jira.callTool Fixtures.H R Stub.S (Some (JStr "get_issue"))
                          (JObj [("issueKey", JStr "OPS-1")]) (boot 0)))
                  eq_refl eq_refl eq_refl eq_refl)).
Defined.

(** The legacy adapter answers an unknown tool with a result. *)
Lemma legacy_answers_unknown_tool_with_a_result :
  @JiraLegacy.processLine Stub.H unreachable Stub.S (fst call_unknown_tool) (boot 0)
  = (Ret tt,
     wrote (MkReply (Some (JNum 2))
              (Result (JiraLegacy.error_content "❌  오류: 알 수 없는 도구: nope")))
       (boot 0)).
Proof.
  destruct (@DispatchTheorems.legacy_tool_failures_are_results
              Stub.H unreachable Stub.S (fst call_unknown_tool)
              [("jsonrpc", JStr "2.0"); ("id", JNum 2); ("method", JStr "tools/call");
               ("params", JObj [("name", JStr "nope"); ("arguments", JObj [])])]
              [("name", JStr "nope"); ("arguments", JObj [])] (boot 0)
              eq_refl eq_refl eq_refl)
    as (response & Hrun & Hthrow & _).
  rewrite (Hthrow "알 수 없는 도구: nope" eq_refl) in Hrun. exact Hrun.
Defined.

(** Confluence answers an unknown tool with a result, under the id. *)
Lemma confluence_answers_unknown_tool_with_a_result :
  writes (@Confluence.processLine Stub.H unreachable Stub.S Stub.E (fst call_unknown_tool))
    (boot 0)
    [MkReply (Some (JNum 2))
       (Result (JiraLegacy.error_content "Error: Unknown tool: nope"))].
Proof.
  destruct (@DispatchTheorems.confluence_tool_failures_are_results
              Stub.H unreachable Stub.S Stub.E (fst call_unknown_tool)
              [("jsonrpc", JStr "2.0"); ("id", JNum 2); ("method", JStr "tools/call");
               ("params", JObj [("name", JStr "nope"); ("arguments", JObj [])])]
              [("name", JStr "nope"); ("arguments", JObj [])] (boot 0)
              eq_refl eq_refl eq_refl)
    as (response & Hwrites & _ & Hthrow & _).
  rewrite (Hthrow "Unknown tool: nope" eq_refl) in Hwrites. exact Hwrites.
Defined.

(** A POST is sent although the same request was just answered. *)
Lemma post_is_sent_every_time :
  let R := remote (Response 200 "{}") in
  let post := @Confluence.makeRequest Stub.H R "/content" "POST" (JObj []) in
  makes post (snd (post (boot 0))) [MkRequest "POST" "/content" (JObj [])] /\
  cache (snd (post (snd (post (boot 0))))) = cache (boot 0).
Proof.
  intros R post.
  destruct (@DispatchTheorems.confluence_writes_go_past_the_cache
              Stub.H R "/content" "POST" (JObj []) (snd (post (boot 0))))
    as (Hmakes & Hcache & _).
  - discriminate.
  - split; [exact Hmakes|].
    etransitivity; [exact Hcache | vm_compute; reflexivity].
Defined.



End MoreExamples.

Module CallBounds.
Import JsString Json Runtime Registry Library Observe Expect.

Lemma at_most_le {A} (a n : nat) (m : M A) : (a <= n)%nat -> at_most a m -> at_most n m.
Proof.
  intros Hle Hm w. destruct (Hm w) as (requests & Hcalls & Hlen).
  exists requests. split; [exact Hcalls | lia].
Qed.

Lemma at_most_ret {A} (n : nat) (a : A) : at_most n (ret a).
Proof. intros w. exists []. cbn. rewrite app_nil_r. split; [reflexivity | lia]. Qed.

Lemma at_most_throw {A} (n : nat) (e : string) : at_most n (@throw A e).
Proof. intros w. exists []. cbn. rewrite app_nil_r. split; [reflexivity | lia]. Qed.

Lemma at_most_lift {A} (n : nat) (o : outcome A) : at_most n (lift o).
Proof. intros w. exists []. cbn. rewrite app_nil_r. split; [reflexivity | lia]. Qed.

Lemma at_most_bind {A B} (a b n : nat) (m : M A) (k : A -> M B) :
  (a + b <= n)%nat -> at_most a m -> (forall x, at_most b (k x)) -> at_most n (bind m k).
Proof.
  intros Hle Hm Hk w. unfold bind.
  destruct (Hm w) as (first & Hfirst & Hlen).
  destruct (m w) as [[x|e] w']; cbn [snd] in *.
  - destruct (Hk x w') as (second & Hsecond & Hlen').
    exists (first ++ second). rewrite Hsecond, Hfirst, <- app_assoc.
    split; [reflexivity | rewrite length_app; lia].
  - exists first. split; [exact Hfirst | lia].
Qed.

Lemma at_most_try_catch {A} (a b n : nat) (m : M A) (handler : string -> M A) :
  (a + b <= n)%nat -> at_most a m -> (forall e, at_most b (handler e)) ->
  at_most n (try_catch m handler).
Proof.
  intros Hle Hm Hh w. unfold try_catch.
  destruct (Hm w) as (first & Hfirst & Hlen).
  destruct (m w) as [[x|e] w']; cbn [snd] in *.
  - exists first. split; [exact Hfirst | lia].
  - destruct (Hh e w') as (second & Hsecond & Hlen').
    exists (first ++ second). rewrite Hsecond, Hfirst, <- app_assoc.
    split; [reflexivity | rewrite length_app; lia].
Qed.

Lemma at_most_https `{Remote} (r : HttpRequest) : at_most 1 (https_request r).
Proof. intros w. exists [r]. split; [reflexivity | cbn; lia]. Qed.

End CallBounds.

(** Bounds on the calls of code built from the pieces above: the cost of
    a sequence is split between its two parts in every way that the
    bound allows. *)
Ltac bound_bind n :=
  first
    [ solve [apply (@CallBounds.at_most_bind _ _ 0%nat n); [lia | | intros ?]; bound_calls]
    | solve [apply (@CallBounds.at_most_bind _ _ n 0%nat); [lia | | intros ?]; bound_calls]
    | match n with
      | S (S ?n') =>
          first
            [ solve [apply (@CallBounds.at_most_bind _ _ 1%nat (S n')); [lia | | intros ?];
                     bound_calls]
            | solve [apply (@CallBounds.at_most_bind _ _ (S n') 1%nat); [lia | | intros ?];
                     bound_calls]
            | solve [apply (@CallBounds.at_most_bind _ _ 2%nat n'); [lia | | intros ?];
                     bound_calls] ]
      end ]
with bound_catch n :=
  first
    [ solve [apply (@CallBounds.at_most_try_catch _ 0%nat n); [lia | | intros ?]; bound_calls]
    | solve [apply (@CallBounds.at_most_try_catch _ n 0%nat); [lia | | intros ?]; bound_calls]
    | match n with
      | S (S ?n') =>
          first
            [ solve [apply (@CallBounds.at_most_try_catch _ 1%nat (S n'));
                     [lia | | intros ?]; bound_calls]
            | solve [apply (@CallBounds.at_most_try_catch _ (S n') 1%nat);
                     [lia | | intros ?]; bound_calls]
            | solve [apply (@CallBounds.at_most_try_catch _ 2%nat n');
                     [lia | | intros ?]; bound_calls] ]
      end ]
with bound_calls :=
  cbv zeta;
  lazymatch goal with
  | |- Expect.at_most _ (Runtime.ret _) => apply CallBounds.at_most_ret
  | |- Expect.at_most _ (Runtime.throw _) => apply CallBounds.at_most_throw
  | |- Expect.at_most _ (Runtime.lift _) => apply CallBounds.at_most_lift
  | |- Expect.at_most ?n (Runtime.bind _ _) => bound_bind n
  | |- Expect.at_most ?n (Runtime.try_catch _ _) => bound_catch n
  | |- Expect.at_most _ (if ?b then _ else _) => destruct b; bound_calls
  | |- Expect.at_most _ (match ?x with _ => _ end) => destruct x; bound_calls
  | |- Expect.at_most _ (let (_, _) := ?x in _) => destruct x; bound_calls
  | |- Expect.at_most ?n _ =>
      first
        [ solve [eauto with bounds]
        | solve [apply (CallBounds.at_most_le 0 n); [lia | eauto with bounds]]
        | solve [apply (CallBounds.at_most_le 1 n); [lia | eauto with bounds]]
        | solve [apply (CallBounds.at_most_le 2 n); [lia | eauto with bounds]]
        | solve [apply (CallBounds.at_most_le 3 n); [lia | eauto with bounds]]
        | progress (autounfold with methods); bound_calls ]
  end.

Create HintDb bounds.
Create HintDb methods.

Module CallBoundTheorems.
Import JsString Json Runtime Registry Library Observe Expect CallBounds.

Section Jira.
Context `{Host} `{Remote} `{Shaping}.
Import Jira.

Lemma jira_makeRequest_bound endpoint method body fields :
  at_most 1 (makeRequest endpoint method body fields).
Proof.
  intros w. eexists. split; [apply JiraRequestFacts.jira_makeRequest_call | cbn; lia].
Qed.

Lemma jira_require_bound n args keys message : at_most n (require args keys message).
Proof. unfold require. destruct (some_missing args keys) as [[|]|]; bound_calls. Qed.

Lemma jira_arg_bound n args k : at_most n (arg args k).
Proof. unfold arg. bound_calls. Qed.

#[local] Hint Resolve jira_makeRequest_bound jira_require_bound jira_arg_bound : bounds.
#[local] Hint Unfold getProjects getIssue searchIssues createIssue updateIssue getIssueTypes
  addComment getCurrentUser getLabels getFixVersions getComponents
  JiraLegacy.getIssue JiraLegacy.searchIssues JiraLegacy.makeRequest : methods.

Lemma jira_callTool_bound name args : at_most 1 (callTool name args).
Proof.
  unfold callTool.
  repeat match goal with
         | |- at_most _ (if ?b then _ else _) => destruct b
         end; bound_calls.
Qed.

Lemma legacy_callTool_bound name args : at_most 1 (JiraLegacy.callTool name args).
Proof.
  unfold JiraLegacy.callTool.
  repeat match goal with
         | |- at_most _ (if ?b then _ else _) => destruct b
         end; bound_calls.
Qed.

Lemma console_log_bound n r : at_most n (console_log r).
Proof. intros w. exists []. cbn. rewrite app_nil_r. split; [reflexivity | lia]. Qed.

#[local] Hint Resolve jira_callTool_bound legacy_callTool_bound console_log_bound : bounds.
#[local] Hint Unfold handleToolCall handleRequest processLine
  JiraLegacy.handleToolCall JiraLegacy.handleRequest JiraLegacy.processLine : methods.

Lemma jira_processLine_bound line : at_most 1 (processLine line).
Proof. bound_calls. Qed.

Lemma legacy_processLine_bound line : at_most 1 (JiraLegacy.processLine line).
Proof. bound_calls. Qed.

End Jira.

Section Confluence.
Context `{Host} `{Remote} `{Shaping} `{Engine}.
Import Confluence.

Lemma getFromCache_bound n key : at_most n (getFromCache key).
Proof.
  intros w. exists []. rewrite app_nil_r. unfold getFromCache.
  destruct (cache w !! key) as [cached|]; [destruct (_ <? _)|]; split; cbn; (reflexivity || lia).
Qed.

Lemma setToCache_bound n key d : at_most n (setToCache key d).
Proof. intros w. exists []. cbn. rewrite app_nil_r. split; [reflexivity | lia]. Qed.

#[local] Hint Resolve getFromCache_bound setToCache_bound at_most_https console_log_bound
  jira_arg_bound : bounds.

Lemma confluence_makeRequest_bound endpoint method body :
  at_most 1 (makeRequest endpoint method body).
Proof. unfold makeRequest. bound_calls. Qed.

#[local] Hint Resolve confluence_makeRequest_bound : bounds.
#[local] Hint Unfold GET getSpacesCompact getPage getChildPagesCompact searchPagesSimple
  cqlSearch searchBySpaceAndTitle createPage updatePage deletePage getPageHistory
  getPageComments addPageComment getSpacePages getPageLabels addPageLabel
  getPageAttachments getRecentPages getCurrentUser getPagesByLabel getPageTemplates
  getSpaceDetails : methods.

Lemma searchPagesSimple_bound query limit : at_most 1 (searchPagesSimple query limit).
Proof. bound_calls. Qed.

Lemma cqlSearch_bound query limit : at_most 1 (cqlSearch query limit).
Proof. bound_calls. Qed.

#[local] Hint Resolve searchPagesSimple_bound cqlSearch_bound : bounds.

Lemma searchPagesCompact_bound query limit : at_most 2 (searchPagesCompact query limit).
Proof. unfold searchPagesCompact. bound_calls. Qed.

Lemma spaceAndTitle_bound query limit errors : at_most 1 (spaceAndTitle query limit errors).
Proof. unfold spaceAndTitle. bound_calls. Qed.

#[local] Hint Resolve searchPagesCompact_bound spaceAndTitle_bound : bounds.

Lemma advancedSearch_bound query limit : at_most 4 (advancedSearch query limit).
Proof.
  unfold advancedSearch. cbv zeta.
  apply (at_most_bind 2 2); [lia | bound_calls | intros [result|errors]]; [bound_calls|].
  apply (at_most_bind 1 1); [lia | bound_calls | intros [[result|] errors']]; bound_calls.
Qed.

Lemma getMyPages_bound limit spaceKey : at_most 3 (getMyPages limit spaceKey).
Proof.
  unfold getMyPages. cbv zeta.
  apply (at_most_bind 1 2); [lia | bound_calls | intros user].
  bound_calls.
Qed.

#[local] Hint Resolve advancedSearch_bound getMyPages_bound : bounds.

Lemma confluence_callTool_bound name args : at_most 4 (callTool name args).
Proof.
  unfold callTool. cbv zeta.
  repeat match goal with
         | |- at_most _ (if ?b then _ else _) => destruct b
         end; bound_calls.
Qed.

#[local] Hint Resolve confluence_callTool_bound : bounds.
#[local] Hint Unfold handleToolCall handleRequest : methods.

Lemma confluence_processLine_bound line : at_most 4 (processLine line).
Proof. unfold processLine. bound_calls. Qed.

Lemma confluence_other_tools_bound name args :
  (name === "search_pages") = false -> at_most 3 (callTool name args).
Proof.
  intros Hname. unfold callTool. cbv zeta.
  destruct (name === "get_spaces"); [bound_calls|].
  destruct (name === "get_page"); [bound_calls|].
  rewrite Hname.
  repeat match goal with
         | |- at_most _ (if ?b then _ else _) => destruct b
         end; bound_calls.
Qed.

End Confluence.

Section Adapters.
Context `{Host} `{Remote} `{Shaping} `{Engine}.

(** No message costs more than a fixed number of backend calls.
    Whatever the line, the state and the backend, handling one line
    makes at most one backend call in either Jira adapter, and at most
    four in the Confluence adapter, where a search may try its three
    methods and the first of them its fallback; no tool of the
    Confluence adapter other than the search of pages makes more than
    three. *)
Theorem one_message_costs_a_bounded_number_of_calls :
  (forall line, at_most 1 (Jira.processLine line)) /\
  (forall line, at_most 1 (JiraLegacy.processLine line)) /\
  (forall line, at_most 4 (Confluence.processLine line)) /\
  (forall name args,
     (name === "search_pages") = false -> at_most 3 (Confluence.callTool name args)).
Proof.
  split; [exact jira_processLine_bound|].
  split; [exact legacy_processLine_bound|].
  split; [exact confluence_processLine_bound|].
  exact confluence_other_tools_bound.
Qed.

End Adapters.
End CallBoundTheorems.

Module OneLineFacts.
Import JsString Json Library Normalizer Expect FramerFacts NormalizerFacts.

Lemma starts_app (a b : string) :
  nonempty a = true -> starts_with_whitespace (a +:+ b) = starts_with_whitespace a.
Proof. destruct a; [discriminate|]. intros _. rewrite append_cons. reflexivity. Qed.

Lemma ends_app (a b : string) :
  ends_with_whitespace (a +:+ b)
  = if nonempty b then ends_with_whitespace b else ends_with_whitespace a.
Proof.
  induction a as [|c a IH].
  - rewrite append_nil. destruct b; reflexivity.
  - rewrite append_cons. cbn [ends_with_whitespace].
    destruct (a +:+ b) as [|d rest] eqn:Hab.
    + destruct a; [|rewrite append_cons in Hab; discriminate].
      rewrite append_nil in Hab. subst b. reflexivity.
    + rewrite IH. destruct b as [|e b]; [|reflexivity].
      cbn [nonempty]. rewrite append_empty_r in Hab. subst a. reflexivity.
Qed.

Lemma loose_cons (c : ascii) (s : string) :
  loose (String c s)
  = (negb (is_whitespace c) || (Ascii.eqb c " " && negb (starts_with_whitespace s)))
    && loose s.
Proof. reflexivity. Qed.

Lemma loose_app_inv (a b : string) :
  loose (a +:+ b) = true -> loose a = true /\ loose b = true.
Proof.
  induction a as [|c a IH].
  - rewrite append_nil. intros Hb. split; [reflexivity | exact Hb].
  - rewrite append_cons, !loose_cons. intros Hab.
    apply andb_true_iff in Hab. destruct Hab as [Hc Hrest].
    destruct (IH Hrest) as [Ha Hb]. split; [|exact Hb].
    rewrite Ha, andb_true_r.
    destruct a as [|d a]; [|rewrite starts_app in Hc by reflexivity; exact Hc].
    cbn [starts_with_whitespace negb]. rewrite andb_true_r.
    destruct (is_whitespace c); cbn [negb orb] in *; [|reflexivity].
    apply andb_true_iff in Hc. destruct Hc as [Hc _]. exact Hc.
Qed.

Lemma loose_app (a b : string) :
  loose a = true -> loose b = true ->
  ends_with_whitespace a = false \/ starts_with_whitespace b = false ->
  loose (a +:+ b) = true.
Proof.
  induction a as [|c a IH]; intros Ha Hb Hjoin.
  - rewrite append_nil. exact Hb.
  - rewrite append_cons, loose_cons. rewrite loose_cons in Ha.
    apply andb_true_iff in Ha. destruct Ha as [Hc Ha].
    destruct a as [|d a].
    + rewrite append_nil, Hb, andb_true_r.
      cbn [ends_with_whitespace starts_with_whitespace negb] in *.
      destruct (is_whitespace c); cbn [negb orb] in *; [|reflexivity].
      rewrite andb_true_r in Hc. rewrite Hc.
      destruct Hjoin as [Hends | Hstarts]; [discriminate | rewrite Hstarts; reflexivity].
    + rewrite starts_app by reflexivity. rewrite Hc. cbn [andb].
      apply IH; [exact Ha | exact Hb | exact Hjoin].
Qed.

Lemma loose_trimStart (s : string) :
  loose s = true ->
  loose (trimStart s) = true /\ starts_with_whitespace (trimStart s) = false.
Proof.
  induction s as [|c s IH]; intros Hs; [split; reflexivity|].
  cbn [trimStart]. destruct (is_whitespace c) eqn:Hc.
  - apply IH. rewrite loose_cons in Hs. apply andb_true_iff in Hs. apply Hs.
  - split; [exact Hs | exact Hc].
Qed.

Lemma trimEnd_head (c : ascii) (s : string) :
  trimEnd (String c s) = EmptyString \/ exists rest, trimEnd (String c s) = String c rest.
Proof.
  cbn [trimEnd]. destruct (trimEnd s) as [|d t].
  - destruct (is_whitespace c); [left; reflexivity | right; eexists; reflexivity].
  - right. eexists. reflexivity.
Qed.

Lemma loose_trimEnd (s : string) :
  loose s = true ->
  loose (trimEnd s) = true /\ ends_with_whitespace (trimEnd s) = false /\
  (starts_with_whitespace s = false -> starts_with_whitespace (trimEnd s) = false).
Proof.
  induction s as [|c s IH]; intros Hs; [repeat split|].
  rewrite loose_cons in Hs. apply andb_true_iff in Hs. destruct Hs as [Hc Hs].
  destruct (IH Hs) as (Hloose & Hends & _).
  cbn [trimEnd]. destruct (trimEnd s) as [|d t] eqn:Htrim.
  - destruct (is_whitespace c) eqn:Hws; [repeat split|].
    cbn [loose starts_with_whitespace ends_with_whitespace]. rewrite Hws.
    repeat split.
  - split; [|split].
    + rewrite loose_cons, Hloose, andb_true_r.
      destruct s as [|e s]; [discriminate|].
      destruct (trimEnd_head e s) as [Hempty | [rest Hrest]]; [congruence|].
      rewrite Hrest in Htrim. injection Htrim as <- _. exact Hc.
    + exact Hends.
    + intros Hstart. exact Hstart.
Qed.

Lemma one_line_trim (s : string) : loose s = true -> one_line (trim s) = true.
Proof.
  intros Hs. unfold trim, one_line.
  destruct (loose_trimStart s Hs) as [Hloose Hstart].
  destruct (loose_trimEnd (trimStart s) Hloose) as (Hloose' & Hends & Hstart').
  rewrite Hloose', Hends, (Hstart' Hstart). reflexivity.
Qed.

Lemma one_line_loose (s : string) : one_line s = true -> loose s = true.
Proof.
  unfold one_line. intros Hs. apply andb_true_iff in Hs. destruct Hs as [Hs _].
  apply andb_true_iff in Hs. apply Hs.
Qed.

Lemma loose_runs (s : string) :
  loose (snd (runs is_whitespace (fun _ => " ") s)) = true /\
  starts_with_whitespace (snd (runs is_whitespace (fun _ => " ") s)) = false.
Proof.
  induction s as [|c s IH]; [split; reflexivity|].
  cbn [runs]. destruct (runs is_whitespace (fun _ => " ") s) as [run out].
  cbn [snd] in IH. destruct IH as [Hloose Hstart].
  destruct (is_whitespace c) eqn:Hc; cbn [snd]; [split; assumption|].
  split; [|exact Hc].
  rewrite loose_cons, Hc. cbn [negb orb andb].
  unfold flush. destruct (nonempty run).
  - rewrite append_cons, append_nil, loose_cons, Hstart, Hloose. reflexivity.
  - rewrite append_nil. exact Hloose.
Qed.

Lemma loose_collapse (s : string) : loose (collapse_whitespace s) = true.
Proof.
  unfold collapse_whitespace, replace_runs.
  pose proof (loose_runs s) as [Hloose Hstart].
  destruct (runs is_whitespace (fun _ => " ") s) as [run out]. cbn [snd] in *.
  unfold flush. destruct (nonempty run).
  - rewrite append_cons, append_nil, loose_cons, Hstart, Hloose. reflexivity.
  - rewrite append_nil. exact Hloose.
Qed.

Lemma trimStart_fixed (s : string) : starts_with_whitespace s = false -> trimStart s = s.
Proof. destruct s as [|c s]; [reflexivity|]. cbn. intros ->. reflexivity. Qed.

Lemma trimEnd_fixed (s : string) : ends_with_whitespace s = false -> trimEnd s = s.
Proof.
  induction s as [|c s IH]; [reflexivity|].
  cbn [ends_with_whitespace trimEnd]. destruct s as [|d s].
  - intros ->. reflexivity.
  - intros Hends. rewrite (IH Hends). reflexivity.
Qed.

Lemma trimEnd_app_space (s : string) : trimEnd (s +:+ " ") = trimEnd s.
Proof.
  induction s as [|c s IH]; [reflexivity|].
  rewrite append_cons. cbn [trimEnd]. rewrite IH. reflexivity.
Qed.

(** What the sentences kept contribute: nothing, or text that ends in a
    full stop and one space. *)
Lemma rendered_shape (sentences : list string) :
  Forall (fun sentence => loose sentence = true) sentences ->
  loose (rendered sentences) = true /\
  starts_with_whitespace (rendered sentences) = false /\
  (rendered sentences = EmptyString \/
   exists body, rendered sentences = (body +:+ ".") +:+ " " /\ nonempty body = true).
Proof.
  induction 1 as [|sentence rest Hsentence _ IH]; [repeat split; left; reflexivity|].
  destruct IH as (Hloose & Hstart & Hshape).
  cbn [rendered]. destruct (nonempty (trim sentence)) eqn:Hblank.
  2:{ rewrite append_nil. repeat split; assumption. }
  pose proof (one_line_trim sentence Hsentence) as Hline.
  unfold one_line in Hline. apply andb_true_iff in Hline. destruct Hline as [Hline Hends].
  apply andb_true_iff in Hline. destruct Hline as [Htrimmed Hfirst].
  apply negb_true_iff in Hends, Hfirst.
  set (t := trim sentence) in *.
  assert (Hdot : loose (t +:+ ". ") = true).
  { apply loose_app; [exact Htrimmed | reflexivity | left; exact Hends]. }
  split; [|split].
  - apply loose_app; [exact Hdot | exact Hloose | right; exact Hstart].
  - rewrite append_assoc, starts_app by exact Hblank. exact Hfirst.
  - right. destruct Hshape as [-> | (body & -> & Hbody)].
    + exists t. rewrite append_empty_r. split; [|exact Hblank].
      rewrite append_assoc. reflexivity.
    + exists (t +:+ ". " +:+ body). split.
      * rewrite !append_assoc. reflexivity.
      * destruct t; [discriminate | reflexivity].
Qed.

Lemma loose_weave (later boundaries : list string) (first : string) :
  List.length later = List.length boundaries ->
  loose (weave first later boundaries) = true ->
  loose first = true /\ Forall (fun sentence => loose sentence = true) later.
Proof.
  revert boundaries first.
  induction later as [|next later IH]; intros boundaries first Hlen Hloose.
  - destruct boundaries; [|discriminate]. split; [exact Hloose | constructor].
  - destruct boundaries as [|boundary boundaries]; [discriminate|].
    cbn [weave] in Hloose.
    destruct (loose_app_inv _ _ Hloose) as [Hfirst Hrest].
    destruct (loose_app_inv _ _ Hrest) as [_ Hwoven].
    injection Hlen as Hlen.
    destruct (IH boundaries next Hlen Hwoven) as [Hnext Hlater].
    split; [exact Hfirst | constructor; assumption].
Qed.

Lemma loose_sentences (text : string) :
  loose text = true -> Forall (fun sentence => loose sentence = true) (split_sentences text).
Proof.
  intros Htext.
  destruct (split_sentences_weave text) as (boundaries & Hlen & _ & Hwoven).
  destruct (split_sentences text) as [|first later] eqn:Hsplit; [constructor|].
  cbn [hd tl List.length] in *. injection Hlen as Hlen.
  rewrite Hwoven in Htext.
  destruct (loose_weave later boundaries first Hlen Htext) as [Hfirst Hlater].
  constructor; assumption.
Qed.

Lemma one_line_summarize (cleanText : string) :
  one_line cleanText = true -> one_line (summarize cleanText) = true.
Proof.
  intros Hline. unfold summarize.
  destruct (Nat.ltb 500 (String.length cleanText)); [|exact Hline].
  cbv zeta.
  destruct (accumulate_rendered (split_sentences cleanText) EmptyString)
    as (k & _ & Hrendered & _).
  rewrite append_nil in Hrendered. rewrite Hrendered.
  destruct (rendered_shape (firstn k (split_sentences cleanText)))
    as (Hloose & Hstart & Hshape).
  { apply ValueFacts.Forall_firstn, loose_sentences, one_line_loose, Hline. }
  destruct Hshape as [Hempty | (body & Hbody & Hnonempty)].
  - rewrite Hempty. cbn [trim trimStart trimEnd String.length].
    destruct (Nat.ltb 0 (String.length cleanText)); reflexivity.
  - rewrite Hbody in *.
    assert (Hdotted : loose (body +:+ ".") = true)
      by (apply (loose_app_inv _ _ Hloose)).
    assert (Hbody_start : starts_with_whitespace (body +:+ ".") = false).
    { rewrite starts_app in Hstart by (destruct body; [discriminate | reflexivity]).
      exact Hstart. }
    assert (Hbody_end : ends_with_whitespace (body +:+ ".") = false)
      by (rewrite ends_app; reflexivity).
    assert (Htrim : trim ((body +:+ ".") +:+ " ") = body +:+ ".").
    { unfold trim. rewrite trimStart_fixed by exact Hstart.
      rewrite trimEnd_app_space. apply trimEnd_fixed. exact Hbody_end. }
    rewrite Htrim.
    destruct (Nat.ltb _ _).
    + unfold one_line.
      rewrite loose_app
        by first [exact Hdotted | left; exact Hbody_end | reflexivity].
      rewrite starts_app by (destruct body; [discriminate | reflexivity]).
      rewrite Hbody_start, ends_app. reflexivity.
    + rewrite append_empty_r. unfold one_line.
      rewrite Hdotted, Hbody_start, Hbody_end. reflexivity.
Qed.

End OneLineFacts.

Module OneLineTheorems.
Import JsString Json Library Normalizer Expect OneLineFacts.

Section WithLibrary.
Context `{HtmlToText}.

(** The text of a description is one line.  Whatever the document and
    whatever the library makes of it, the text that [htmlToText]
    returns, cut or not, holds no line break and no tab: its only white
    space is the single space, never twice in a row and neither first
    nor last.  The same holds of the legacy adapter.  The replacements
    that keep line breaks in place come before the one that turns every
    run of white space into a space. *)
Theorem htmlToText_returns_one_line :
  (forall raw, one_line (cleaned raw) = true /\ one_line (cleanedLegacy raw) = true) /\
  (forall cleanText, one_line cleanText = true -> one_line (summarize cleanText) = true) /\
  (forall html text,
     htmlToText html = Ret text \/ htmlToTextLegacy html = Ret text ->
     one_line text = true).
Proof.
  assert (Hcleaned : forall raw, one_line (cleaned raw) = true /\
                                 one_line (cleanedLegacy raw) = true).
  { intros raw. split.
    - unfold cleaned. apply one_line_trim, loose_collapse.
    - unfold cleanedLegacy.
      apply one_line_trim, one_line_loose, one_line_trim, loose_collapse. }
  split; [exact Hcleaned|]. split; [exact one_line_summarize|].
  intros html text [Hjira | Hlegacy].
  - unfold htmlToText in Hjira.
    destruct (negb (nonempty html)); [injection Hjira as <-; reflexivity|].
    destruct (convert "jira" html) as [raw|]; [|discriminate].
    injection Hjira as <-. apply one_line_summarize, Hcleaned.
  - unfold htmlToTextLegacy in Hlegacy.
    destruct (negb (nonempty html)); [injection Hlegacy as <-; reflexivity|].
    destruct (convert "jira-legacy" html) as [raw|]; [|discriminate].
    injection Hlegacy as <-. apply one_line_summarize, Hcleaned.
Qed.

End WithLibrary.
End OneLineTheorems.
